(** * Translation dashboard: preprocessing, aggregation and filtering

    A shallow embedding of [streamlit_translate_3.py].  The program is a
    Streamlit page over a pandas table; what is embedded here is the part
    that computes: [preprocess_data], the two loaders, [create_summary_stats],
    [create_direction_analysis] and the two filters of [main].

    Modelling conventions.
    - A Python [str] is a list of Unicode code points.
    - A table cell is a value of [cell]; [NA] stands for every pandas
      missing marker (NaN, None, NaT).
    - Floating-point numbers are idealised as rationals ([Q]); infinities
      are outside the model.
    - A [DataFrame] is its row count together with the ordered list of its
      named columns.  Item access takes the first column of a given name,
      which is what pandas does when names are distinct; the theorems
      about raw tables assume [well_formed], which says so.
    - A raised exception is a value [Raise e]; [try]/[except] is a match.
    - [st.error] appends to a list of reports. *)

From Stdlib Require Import String Ascii.
From Stdlib Require Import List Bool Arith ZArith NArith QArith Qround.
From Stdlib Require Import Lia Lqa Permutation Sorted.
Import ListNotations.

Local Open Scope nat_scope.
Local Open Scope list_scope.

(* ================================================================== *)
(** ** Python strings *)

Module PyStr.

(** A string is the list of its code points. *)
Definition str := list N.

(** An ASCII literal as a [str]. *)
Definition lit (s : string) : str :=
  List.map N_of_ascii (list_ascii_of_string s).

Fixpoint eqb (a b : str) : bool :=
  match a, b with
  | [], [] => true
  | x :: a', y :: b' => N.eqb x y && eqb a' b'
  | _, _ => false
  end.

(** Python compares strings code point by code point. *)
Fixpoint leb (a b : str) : bool :=
  match a, b with
  | [], _ => true
  | _ :: _, [] => false
  | x :: a', y :: b' =>
      if N.ltb x y then true
      else if N.eqb x y then leb a' b' else false
  end.

(** [str.isspace] for one code point: the characters Python's
    [str.strip()] removes. *)
Definition isspace (c : N) : bool :=
  ((9 <=? c) && (c <=? 13) || (28 <=? c) && (c <=? 32)
   || (c =? 133) || (c =? 160) || (c =? 5760)
   || (8192 <=? c) && (c <=? 8202)
   || (c =? 8232) || (c =? 8233) || (c =? 8239) || (c =? 8287)
   || (c =? 12288))%N.

Fixpoint dropwhile (p : N -> bool) (s : str) : str :=
  match s with
  | [] => []
  | c :: s' => if p c then dropwhile p s' else s
  end.

Definition lstrip_by (p : N -> bool) (s : str) : str := dropwhile p s.
Definition rstrip_by (p : N -> bool) (s : str) : str :=
  rev (dropwhile p (rev s)).

(** [s.strip()] *)
Definition strip (s : str) : str := rstrip_by isspace (lstrip_by isspace s).

(** [s.rstrip(chars)]: every trailing character that is in [chars]. *)
Definition rstrip (chars : str) (s : str) : str :=
  rstrip_by (fun c => existsb (N.eqb c) chars) s.

Definition comma : N := 44.

End PyStr.

Import PyStr.

(** The column names and literals of the program. *)
Definition From_ : str := lit "From".
Definition To_ : str := lit "To".
Definition Status : str := lit "Status".
Definition Completed : str := lit "Completed".
Definition Timed_Out : str := lit "Timed Out".
Definition Timestamp : str := lit "Timestamp".
Definition Hour : str := lit "Hour".
Definition Date_ : str := lit "Date".
Definition Translation_Score : str := lit "Translation Score".
Definition Translation_Direction : str := lit "Translation Direction".
Definition Unknown : str := lit "Unknown".
Definition Yes : str := lit "Yes".
Definition No : str := lit "No".
Definition All : str := lit "All".

(** [' → '], the arrow being U+2192. *)
Definition arrow : str := [32; 8594; 32]%N.

(* ================================================================== *)
(** ** Cells, series and exceptions *)

Inductive cell : Type :=
| NA                    (* NaN, None or NaT *)
| Str (s : str)
| Num (q : Q)           (* an int or a float *)
| Bool (b : bool)
| Time (ns : Z)         (* a timestamp, nanoseconds since the epoch *)
| Date (d : Z).         (* a calendar date, days since the epoch *)

Definition Series := list cell.

Inductive exn : Type :=
| KeyError (k : str)
| TypeError
| AttributeError
| OtherError (code : nat).

Inductive res (A : Type) : Type :=
| Ok (a : A)
| Raise (e : exn).

Arguments Ok {A} a.
Arguments Raise {A} e.

Definition bind {A B} (m : res A) (f : A -> res B) : res B :=
  match m with
  | Ok a => f a
  | Raise e => Raise e
  end.

Notation "x <- m ;; k" := (bind m (fun x => k))
  (at level 61, m at next level, right associativity).

Definition isna (c : cell) : bool :=
  match c with NA => true | _ => false end.

Definition is_bool (c : cell) : bool :=
  match c with Bool _ => true | _ => false end.

Definition is_datetime (c : cell) : bool :=
  match c with NA | Time _ => true | _ => false end.

Definition Q_of_bool (b : bool) : Q := if b then 1%Q else 0%Q.

(** Python's [==] on two cell values.  A missing value equals nothing;
    [True == 1] and [False == 0]. *)
Definition cell_eqb (a b : cell) : bool :=
  match a, b with
  | Str x, Str y => PyStr.eqb x y
  | Num x, Num y => Qeq_bool x y
  | Bool x, Bool y => Bool.eqb x y
  | Num x, Bool y | Bool y, Num x => Qeq_bool x (Q_of_bool y)
  | Time x, Time y => Z.eqb x y
  | Date x, Date y => Z.eqb x y
  | _, _ => false
  end.

(* ================================================================== *)
(** ** Data frames *)

Record DataFrame : Type := mkDF {
  len : nat;                        (* [len(df)] *)
  data : list (str * Series)        (* the columns, in order *)
}.

(** [df.columns] *)
Definition columns (df : DataFrame) : list str := List.map fst (data df).

Fixpoint lookup (k : str) (l : list (str * Series)) : option Series :=
  match l with
  | [] => None
  | (k', s) :: l' => if PyStr.eqb k k' then Some s else lookup k l'
  end.

Fixpoint update (k : str) (s : Series) (l : list (str * Series))
  : list (str * Series) :=
  match l with
  | [] => [(k, s)]
  | (k', s') :: l' =>
      if PyStr.eqb k k' then (k', s) :: l' else (k', s') :: update k s l'
  end.

(** [k in df.columns] *)
Definition contains (df : DataFrame) (k : str) : bool :=
  match lookup k (data df) with Some _ => true | None => false end.

(** [df[k]] *)
Definition getitem (df : DataFrame) (k : str) : res Series :=
  match lookup k (data df) with
  | Some s => Ok s
  | None => Raise (KeyError k)
  end.

(** [df[k] = s]: an existing column is replaced in place, a new one is
    appended. *)
Definition setitem (df : DataFrame) (k : str) (s : Series) : DataFrame :=
  {| len := len df; data := update k s (data df) |}.

(** [df.columns = names] for a list of as many names as columns. *)
Definition set_columns (df : DataFrame) (names : list str) : DataFrame :=
  {| len := len df; data := combine names (List.map snd (data df)) |}.

(** [df[mask]] *)
Fixpoint select {A} (mask : list bool) (s : list A) : list A :=
  match mask, s with
  | b :: mask', c :: s' => if b then c :: select mask' s' else select mask' s'
  | _, _ => []
  end.

Definition boolean_index (df : DataFrame) (mask : list bool) : DataFrame :=
  {| len := count_occ bool_dec mask true;
     data := List.map (fun kv => (fst kv, select mask (snd kv))) (data df) |}.

(** The rows of the table, each the list of its cells in column order. *)
Fixpoint take_rows (n : nat) (cols : list Series) : list (list cell) :=
  match n with
  | 0 => []
  | S n' => List.map (hd NA) cols :: take_rows n' (List.map (@tl cell) cols)
  end.

Definition rows (df : DataFrame) : list (list cell) :=
  take_rows (len df) (List.map snd (data df)).

(* ================================================================== *)
(** ** The pandas operations the program calls *)

(** [s.fillna(v)] *)
Definition fill (v c : cell) : cell := if isna c then v else c.

Definition fillna (v : cell) (s : Series) : Series := List.map (fill v) s.

Fixpoint dict_get (d : list (cell * cell)) (c : cell) : option cell :=
  match d with
  | [] => None
  | (k, v) :: d' => if cell_eqb c k then Some v else dict_get d' c
  end.

(** [s.map(d)] for a dict [d]: a value that is not a key becomes missing. *)
Definition series_map (d : list (cell * cell)) (s : Series) : Series :=
  List.map (fun c => match dict_get d c with Some v => v | None => NA end) s.

(** [{'Yes': True, 'No': False}] *)
Definition yes_no : list (cell * cell) :=
  [(Str Yes, Bool true); (Str No, Bool false)].

(** The [.dt] accessor exists on datetime columns only. *)
Definition dt (s : Series) : res Series :=
  if forallb is_datetime s then Ok s else Raise AttributeError.

Definition ns_per_hour : Z := 3600000000000.
Definition ns_per_day : Z := 86400000000000.

Definition hour_of (ns : Z) : Z := ((ns / ns_per_hour) mod 24)%Z.
Definition date_of (ns : Z) : Z := (ns / ns_per_day)%Z.

(** The hour of the day and the calendar date of each timestamp of a
    datetime column; a missing timestamp has neither. *)
Definition hours (t : Series) : Series :=
  List.map (fun c => match c with
                     | Time ns => Num (inject_Z (hour_of ns))
                     | _ => NA
                     end) t.

Definition dates (t : Series) : Series :=
  List.map (fun c => match c with
                     | Time ns => Date (date_of ns)
                     | _ => NA
                     end) t.

(** [s.dt.hour] *)
Definition dt_hour (s : Series) : res Series := s' <- dt s ;; Ok (hours s').

(** [s.dt.date] *)
Definition dt_date (s : Series) : res Series := s' <- dt s ;; Ok (dates s').

(** [s.sum()]: missing values are skipped, booleans count as 0 and 1;
    a column with a string or a date in it does not add up to a number
    the caller can divide. *)
Fixpoint series_sum (s : Series) : res Q :=
  match s with
  | [] => Ok 0%Q
  | c :: s' =>
      t <- series_sum s' ;;
      match c with
      | NA => Ok t
      | Num q => Ok (q + t)%Q
      | Bool b => Ok (Q_of_bool b + t)%Q
      | _ => Raise TypeError
      end
  end.

(** [s.dropna()] *)
Definition dropna (s : Series) : Series :=
  List.filter (fun c => negb (isna c)) s.

(** Python's [round(x, ndigits)] on the idealised number: to the nearest
    multiple of [10^-ndigits], a tie going to the even one. *)
Definition round_half_even (q : Q) : Z :=
  let f := Qfloor q in
  match Qcompare (q - inject_Z f) (1 # 2) with
  | Lt => f
  | Gt => (f + 1)%Z
  | Eq => if Z.even f then f else (f + 1)%Z
  end.

Definition py_round (q : Q) (ndigits : nat) : Q :=
  let p := inject_Z (10 ^ Z.of_nat ndigits) in
  (inject_Z (round_half_even (q * p)) / p)%Q.

(** [s.unique()]: the values in order of first appearance; [groupby]
    leaves the missing ones out. *)
Fixpoint unique_from (seen : list cell) (s : Series) : list cell :=
  match s with
  | [] => []
  | c :: s' =>
      if isna c || existsb (cell_eqb c) seen then unique_from seen s'
      else c :: unique_from (c :: seen) s'
  end.

Definition unique (s : Series) : list cell := unique_from [] s.

(** The order in which sorted keys come: numbers, then strings by code
    point; the direction column holds strings only. *)
Definition cell_leb (a b : cell) : bool :=
  match a, b with
  | Str x, Str y => PyStr.leb x y
  | Num x, Num y => Qle_bool x y
  | Bool x, Bool y => implb x y
  | Time x, Time y | Date x, Date y => Z.leb x y
  | NA, _ => false
  | _, NA => true
  | (Num _ | Bool _), _ => true
  | _, (Num _ | Bool _) => false
  | Str _, _ => true
  | _, Str _ => false
  | Time _, Date _ => true
  | Date _, Time _ => false
  end.

Fixpoint insert_sorted (c : cell) (l : list cell) : list cell :=
  match l with
  | [] => [c]
  | x :: l' => if cell_leb c x then c :: l else x :: insert_sorted c l'
  end.

(** [sorted(l)] *)
Definition sorted (l : list cell) : list cell :=
  fold_right insert_sorted [] l.

(** [df.groupby(k)], as the list of (key, group) pairs it iterates over:
    keys sorted, each group the rows whose key equals it. *)
Definition groupby (df : DataFrame) (k : str) : res (list (cell * DataFrame)) :=
  s <- getitem df k ;;
  Ok (List.map (fun key => (key, boolean_index df (List.map (cell_eqb key) s)))
               (sorted (unique s))).

(* ================================================================== *)
(** ** The program *)

(** What [st.error] shows. *)
Inductive report : Type :=
| Error_loading_file (e : exn)       (* "Error loading data from file: ..." *)
| Error_loading_upload (e : exn)     (* "Error loading uploaded data: ..." *)
| Error_preprocessing (e : exn).     (* "Error preprocessing data: ..." *)

(** [avg_score] is a float that may be NaN. *)
Definition NaN : option Q := None.

(** The dict [create_summary_stats] returns. *)
Record stats : Type := mkStats {
  total_translations : nat;
  completed_translations : Q;
  timed_out_translations : Q;
  completion_rate : Q;
  timeout_rate : Q;
  avg_score : option Q
}.

(** One row of the table [create_direction_analysis] returns. *)
Record direction_row : Type := mkRow {
  Direction : cell;
  Total : nat;
  Completed_count : Q;
  Timed_Out_count : Q;
  Completion_Rate : Q;
  Timeout_Rate : Q;
  Avg_Score : Q
}.

Fixpoint mapM {A B} (f : A -> res B) (l : list A) : res (list B) :=
  match l with
  | [] => Ok []
  | a :: l' => b <- f a ;; bs <- mapM f l' ;; Ok (b :: bs)
  end.

Definition Q_of_nat (n : nat) : Q := inject_Z (Z.of_nat n).

(** [x / total * 100 if total > 0 else 0] *)
Definition rate (x : Q) (total : nat) : Q :=
  if 0 <? total then (x / Q_of_nat total * 100)%Q else 0%Q.

(** [s.mean()] as a float: [None] is NaN. *)
Definition mean (s : Series) : res (option Q) :=
  t <- series_sum s ;;
  match dropna s with
  | [] => Ok NaN
  | _ :: _ => Ok (Some (t / Q_of_nat (List.length (dropna s)))%Q)
  end.

(* ================================================================== *)
(** ** An instance of the library functions

    The program is embedded over the library functions it calls (see
    [Section Program]).  The instance below is small and runs; the
    examples are evaluated on it. *)

(** [str()] of a value that is not a string; the examples have strings
    and missing values in [From] and [To]. *)
Definition demo_py_str (c : cell) : str :=
  match c with
  | NA => lit "nan"
  | Bool true => lit "True"
  | Bool false => lit "False"
  | _ => lit "?"
  end.

(** Unsigned decimal literals, with or without a fraction. *)
Definition digit_of (c : N) : option Z :=
  if ((48 <=? c) && (c <=? 57))%N then Some (Z.of_N c - 48)%Z else None.

Fixpoint parse_digits (acc : Z) (s : str) : option Z :=
  match s with
  | [] => Some acc
  | c :: s' =>
      match digit_of c with
      | Some d => parse_digits (10 * acc + d)%Z s'
      | None => None
      end
  end.

Fixpoint split_dot (s : str) : str * option str :=
  match s with
  | [] => ([], None)
  | c :: s' =>
      if (c =? 46)%N then ([], Some s')
      else let (a, b) := split_dot s' in (c :: a, b)
  end.

Definition demo_parse_numeric (s : str) : option Q :=
  match split_dot s with
  | ([], _) => None
  | (a, None) => option_map inject_Z (parse_digits 0 a)
  | (a, Some b) =>
      match parse_digits 0 a, parse_digits 0 b with
      | Some x, Some y =>
          Some (inject_Z x + inject_Z y / inject_Z (10 ^ Z.of_nat (List.length b)))%Q
      | _, _ => None
      end
  end.

(** A date parser: a string of digits is a number of nanoseconds since
    the epoch, any other string is no date; a boolean column is
    refused. *)
Definition demo_to_datetime (s : Series) : res Series :=
  if forallb is_bool s && negb (Nat.eqb (List.length s) 0) then Raise TypeError
  else Ok (List.map (fun c => match c with
                     | Time ns => Time ns
                     | Str x => match parse_digits 0 x with
                                | Some n => if Nat.eqb (List.length x) 0 then NA else Time n
                                | None => NA
                                end
                     | _ => NA
                     end) s).

(* ================================================================== *)
(** ** Example tables *)

(** A log of two runs, with the noise a hand-edited header has. *)
Definition t_log : DataFrame :=
  {| len := 2;
     data := [ (lit "From ", [Str (lit "EN"); Str (lit "EN")]);
               (lit " To,", [Str (lit "FR"); Str (lit "FR")]);
               (lit "Status", [Str (lit "ok"); NA]);
               (lit "Completed", [Str (lit "Yes"); Str (lit "No")]);
               (lit "Timed Out", [Str (lit "No"); Str (lit "Yes")]);
               (lit "Timestamp", [Str (lit "86400000000000"); Str (lit "soon")]);
               (lit "Translation Score", [Str (lit "4.5"); Str (lit "abc")]) ] |}.

(** The three required columns and nothing else. *)
Definition t_min : DataFrame :=
  {| len := 1;
     data := [ (lit "From", [Str (lit "EN")]);
               (lit "To", [NA]);
               (lit "Status", [Str (lit "ok")]) ] |}.

(** The same without [Status]. *)
Definition t_no_status : DataFrame :=
  {| len := 1;
     data := [ (lit "From", [Str (lit "EN")]); (lit "To", [NA]) ] |}.

(** One completed run. *)
Definition t_yes : DataFrame :=
  {| len := 1;
     data := [ (lit "From", [Str (lit "EN")]);
               (lit "To", [Str (lit "FR")]);
               (lit "Status", [Str (lit "ok")]);
               (lit "Completed", [Str (lit "Yes")]) ] |}.

(** A quoted header field that ends in two commas. *)
Definition t_commas : DataFrame :=
  {| len := 1;
     data := [ (lit "From,,", [Str (lit "EN")]);
               (lit "To", [Str (lit "FR")]);
               (lit "Status", [Str (lit "ok")]) ] |}.

(** The same values under two headers that clean to the same names. *)
Definition t_spaced : DataFrame :=
  {| len := 1;
     data := [ (lit " From", [Str (lit "EN")]);
               (lit "To,", [Str (lit "FR")]);
               (lit "Status,", [Str (lit "ok")]) ] |}.

Definition t_plain : DataFrame :=
  {| len := 1;
     data := [ (lit "From", [Str (lit "EN")]);
               (lit "To ", [Str (lit "FR")]);
               (lit "Status", [Str (lit "ok")]) ] |}.

(** One run whose score field is empty. *)
Definition t_blank_score : DataFrame :=
  {| len := 1;
     data := [ (lit "From", [Str (lit "EN")]);
               (lit "To", [Str (lit "FR")]);
               (lit "Status", [Str (lit "ok")]);
               (lit "Translation Score", [NA]) ] |}.

(** A [Timestamp] column the date parser refuses. *)
Definition t_bool_timestamp : DataFrame :=
  {| len := 1;
     data := [ (lit "From", [Str (lit "EN")]);
               (lit "To", [Str (lit "FR")]);
               (lit "Status", [Str (lit "ok")]);
               (lit "Timestamp", [Bool true]) ] |}.

(** A reader over three sources: an unreadable file, a file holding
    [t_bool_timestamp], a file holding [t_log]. *)
Definition demo_read_csv (path : nat) : res DataFrame :=
  match path with
  | 0 => Raise (OtherError 0)
  | 1 => Ok t_bool_timestamp
  | _ => Ok t_log
  end.

Section Program.

(** Library behaviour the program relies on and that is not spelled out
    here: Python's [str()] of a value that is not a string, the parsing
    of one numeric literal, the parsing of a column of dates (pandas
    infers one format for the whole column, and raises on some column
    types), and the CSV reader. *)
Variable py_str : cell -> str.
Variable parse_numeric : str -> option Q.
Variable to_datetime : Series -> res Series.
Variable source : Type.
Variable read_csv : source -> res DataFrame.

(** What is assumed of [pd.to_datetime(s, errors='coerce')]: it returns
    as many values as it is given, and a column that holds timestamps
    already comes back as it is. *)
Hypothesis to_datetime_length :
  forall s t, to_datetime s = Ok t -> List.length t = List.length s.
Hypothesis to_datetime_fixes :
  forall s, forallb is_datetime s = true -> to_datetime s = Ok s.

(** [pd.to_numeric(s, errors='coerce')]: a boolean column is numeric
    already; otherwise each value is converted, and what does not parse
    becomes missing.  (A timestamp converts to its nanoseconds and a date
    object does not convert; a score column read from CSV has neither.) *)
Definition to_numeric_cell (c : cell) : cell :=
  match c with
  | NA => NA
  | Str s => match parse_numeric s with Some q => Num q | None => NA end
  | Num q => Num q
  | Bool b => Num (Q_of_bool b)
  | Time ns => Num (inject_Z ns)
  | Date _ => NA
  end.

Definition to_numeric (s : Series) : Series :=
  if forallb is_bool s then s else List.map to_numeric_cell s.

(** [str(c)] for one value: a string is itself. *)
Definition str_of (c : cell) : str :=
  match c with Str x => x | _ => py_str c end.

(** [s.astype(str)] *)
Definition astype_str (s : Series) : list str := List.map str_of s.

(** [a + sep + b] on two string columns of one table *)
Definition concat_with (sep : str) (a b : list str) : Series :=
  List.map (fun xy => Str ((fst xy ++ sep) ++ snd xy)) (combine a b).

(** Line 40: [name.strip().rstrip(',')] *)
Definition clean_name (name : str) : str := rstrip [comma] (strip name).

Definition clean_columns (df : DataFrame) : DataFrame :=
  set_columns df (List.map clean_name (columns df)).

(** Lines 43-45: [df[k] = df[k].fillna('Unknown')] *)
Definition fill_unknown (k : str) (df : DataFrame) : res DataFrame :=
  c <- getitem df k ;;
  Ok (setitem df k (fillna (Str Unknown) c)).

(** Lines 48-52: a flag column, when there is one, is mapped through
    [yes_no] and its gaps are filled with [False]. *)
Definition convert_flag (k : str) (df : DataFrame) : res DataFrame :=
  if contains df k then
    c <- getitem df k ;;
    Ok (setitem df k (fillna (Bool false) (series_map yes_no c)))
  else Ok df.

(** Lines 55-58 *)
Definition parse_timestamp (df : DataFrame) : res DataFrame :=
  if contains df Timestamp then
    c <- getitem df Timestamp ;;
    t <- to_datetime c ;;
    let df := setitem df Timestamp t in
    c <- getitem df Timestamp ;;
    h <- dt_hour c ;;
    let df := setitem df Hour h in
    c <- getitem df Timestamp ;;
    d <- dt_date c ;;
    Ok (setitem df Date_ d)
  else Ok df.

(** Lines 61-62 *)
Definition clean_scores (df : DataFrame) : res DataFrame :=
  if contains df Translation_Score then
    c <- getitem df Translation_Score ;;
    Ok (setitem df Translation_Score (to_numeric c))
  else Ok df.

(** Line 65 *)
Definition make_direction (df : DataFrame) : res DataFrame :=
  f <- getitem df From_ ;;
  t <- getitem df To_ ;;
  Ok (setitem df Translation_Direction
        (concat_with arrow (astype_str f) (astype_str t))).

(** The body of the [try] of [preprocess_data], lines 39-67. *)
Definition preprocess_steps (df : DataFrame) : res DataFrame :=
  let df := clean_columns df in
  df <- fill_unknown From_ df ;;
  df <- fill_unknown To_ df ;;
  df <- fill_unknown Status df ;;
  df <- convert_flag Completed df ;;
  df <- convert_flag Timed_Out df ;;
  df <- parse_timestamp df ;;
  df <- clean_scores df ;;
  make_direction df.

(** [preprocess_data]: the table, or [None] and a report. *)
Definition preprocess_data (df : DataFrame) : option DataFrame * list report :=
  match preprocess_steps df with
  | Ok df' => (Some df', [])
  | Raise e => (None, [Error_preprocessing e])
  end.

Definition load_data_from_file (file_path : source)
  : option DataFrame * list report :=
  match read_csv file_path with
  | Ok df => preprocess_data df
  | Raise e => (None, [Error_loading_file e])
  end.

Definition load_data_from_upload (uploaded_file : source)
  : option DataFrame * list report :=
  match read_csv uploaded_file with
  | Ok df => preprocess_data df
  | Raise e => (None, [Error_loading_upload e])
  end.

(** [df[k].sum() if k in df.columns else 0] *)
Definition sum_or_zero (df : DataFrame) (k : str) : res Q :=
  if contains df k then c <- getitem df k ;; series_sum c else Ok 0%Q.

(** [df['Translation Score'].mean() if ... in df.columns else 0] *)
Definition mean_or_zero (df : DataFrame) : res (option Q) :=
  if contains df Translation_Score
  then c <- getitem df Translation_Score ;; mean c
  else Ok (Some 0%Q).

Definition create_summary_stats (df : DataFrame) : res stats :=
  let total := len df in
  completed <- sum_or_zero df Completed ;;
  timed_out <- sum_or_zero df Timed_Out ;;
  let completion := rate completed total in
  let timeout := rate timed_out total in
  avg <- mean_or_zero df ;;
  Ok {| total_translations := total;
        completed_translations := completed;
        timed_out_translations := timed_out;
        completion_rate := completion;
        timeout_rate := timeout;
        avg_score := avg |}.

(** [round(x / total * 100, 1) if total > 0 else 0] *)
Definition rounded_rate (x : Q) (total : nat) : Q :=
  if 0 <? total then py_round (x / Q_of_nat total * 100)%Q 1 else 0%Q.

(** The body of the loop of [create_direction_analysis]. *)
Definition direction_stats_of (g : cell * DataFrame) : res direction_row :=
  let (direction, group) := g in
  let total := len group in
  completed <- sum_or_zero group Completed ;;
  timed_out <- sum_or_zero group Timed_Out ;;
  avg <- mean_or_zero group ;;
  Ok {| Direction := direction;
        Total := total;
        Completed_count := completed;
        Timed_Out_count := timed_out;
        Completion_Rate := rounded_rate completed total;
        Timeout_Rate := rounded_rate timed_out total;
        Avg_Score := match avg with
                     | Some a => py_round a 2
                     | None => 0%Q
                     end |}.

Definition create_direction_analysis (df : DataFrame)
  : res (list direction_row) :=
  groups <- groupby df Translation_Direction ;;
  mapM direction_stats_of groups.

(** Lines 160-182 of [main]: the date filter.  [date_range] is what the
    date widget returns: no, one or two dates. *)
Definition date_ge (d : Z) (c : cell) : bool :=
  match c with Date x => (d <=? x)%Z | _ => false end.

Definition date_le (d : Z) (c : cell) : bool :=
  match c with Date x => (x <=? d)%Z | _ => false end.

Definition date_eq (d : Z) (c : cell) : bool :=
  match c with Date x => (x =? d)%Z | _ => false end.

Definition and_masks (a b : list bool) : list bool :=
  List.map (fun xy => fst xy && snd xy) (combine a b).

Definition date_filter (date_range : list Z) (df : DataFrame)
  : res DataFrame :=
  if contains df Timestamp then
    ts <- getitem df Timestamp ;;
    if negb (forallb isna ts) then
      match date_range with
      | [start_date; end_date] =>
          c1 <- getitem df Timestamp ;;
          d1 <- dt_date c1 ;;
          c2 <- getitem df Timestamp ;;
          d2 <- dt_date c2 ;;
          Ok (boolean_index df
                (and_masks (List.map (date_ge start_date) d1)
                           (List.map (date_le end_date) d2)))
      | [selected_date] =>
          c <- getitem df Timestamp ;;
          d <- dt_date c ;;
          Ok (boolean_index df (List.map (date_eq selected_date) d))
      | _ => Ok df
      end
    else Ok df
  else Ok df.

(** Lines 185-190 of [main]: the direction filter. *)
Definition direction_filter (selected_direction : str) (df : DataFrame)
  : res DataFrame :=
  if negb (PyStr.eqb selected_direction All) then
    c <- getitem df Translation_Direction ;;
    Ok (boolean_index df
          (List.map (fun x => cell_eqb x (Str selected_direction)) c))
  else Ok df.

(** Lines 147-242 of [main]: what it computes from the loaded table and
    the two selections of the sidebar. *)
Definition main_compute (loaded : option DataFrame) (date_range : list Z)
  (selected_direction : str)
  : res (option (stats * list direction_row)) :=
  match loaded with
  | None => Ok None
  | Some df =>
      if len df =? 0 then Ok None
      else
        df <- date_filter date_range df ;;
        df <- direction_filter selected_direction df ;;
        st <- create_summary_stats df ;;
        ds <- create_direction_analysis df ;;
        Ok (Some (st, ds))
  end.



(* ================================================================== *)
(** ** The rest of [main] *)

(** [s.min()] and [s.max()] of a datetime column: over the timestamps
    that are not missing. *)
Fixpoint time_min (s : Series) : option Z :=
  match s with
  | [] => None
  | Time ns :: s' =>
      match time_min s' with Some m => Some (Z.min ns m) | None => Some ns end
  | _ :: s' => time_min s'
  end.

Fixpoint time_max (s : Series) : option Z :=
  match s with
  | [] => None
  | Time ns :: s' =>
      match time_max s' with Some m => Some (Z.max ns m) | None => Some ns end
  | _ :: s' => time_max s'
  end.

(** Lines 161-162: [min_date] and [max_date].  (They are computed under
    the test of line 160, which leaves a timestamp to take.) *)
Definition date_bounds (df : DataFrame) : res (Z * Z) :=
  c1 <- getitem df Timestamp ;;
  c2 <- getitem df Timestamp ;;
  match time_min c1, time_max c2 with
  | Some a, Some b => Ok (date_of a, date_of b)
  | _, _ => Raise AttributeError
  end.

(** Lines 160-182 with the date widget: [date_input min_date max_date]
    is the tuple the user leaves in it. *)
Definition date_step (date_input : Z -> Z -> list Z) (df : DataFrame)
  : res DataFrame :=
  if contains df Timestamp then
    ts <- getitem df Timestamp ;;
    if negb (forallb isna ts) then
      b <- date_bounds df ;;
      date_filter (date_input (fst b) (snd b)) df
    else Ok df
  else Ok df.

(** Lines 185-186: [['All'] + sorted(unique_directions.tolist())]; the
    direction column holds strings only. *)
Definition direction_options (df : DataFrame) : res (list cell) :=
  c <- getitem df Translation_Direction ;;
  Ok (Str All :: sorted (unique c)).

(** Lines 189-190 for the value the select box returns. *)
Definition direction_filter_by (selected : cell) (df : DataFrame)
  : res DataFrame :=
  if negb (cell_eqb selected (Str All)) then
    c <- getitem df Translation_Direction ;;
    Ok (boolean_index df (List.map (fun x => cell_eqb x selected) c))
  else Ok df.

(** Lines 221-225: the values of the pie chart. *)
Definition pie_values (st : stats) : list Q :=
  [ completed_translations st;
    timed_out_translations st;
    (Q_of_nat (total_translations st) - completed_translations st
     - timed_out_translations st)%Q ].

(** Lines 233-238: the scores the histogram is drawn from, when it is
    drawn. *)
Definition histogram_scores (df : DataFrame) : res (option Series) :=
  if contains df Translation_Score then
    c <- getitem df Translation_Score ;;
    let scores := dropna c in
    if 0 <? List.length scores then Ok (Some scores) else Ok None
  else Ok None.

(** Lines 272-273 *)
Definition basic_columns : list str :=
  [ lit "Index"; lit "Original Text"; From_; To_; lit "AI Response";
    Status; Translation_Score ].

Definition display_columns (df : DataFrame) : list str :=
  List.filter (contains df) basic_columns.

(** [df[cols]] for a list of names *)
Definition getitems (df : DataFrame) (cols : list str) : res DataFrame :=
  cs <- mapM (fun k => c <- getitem df k ;; Ok (k, c)) cols ;;
  Ok {| len := len df; data := cs |}.






(* ================================================================== *)
(** ** Definitions used to state the properties *)

Fixpoint distinct (l : list str) : bool :=
  match l with
  | [] => true
  | x :: l' => negb (existsb (PyStr.eqb x) l') && distinct l'
  end.

(** A table as the CSV reader delivers it: every column has [len df]
    values, and no two columns get the same name once names are
    cleaned. *)
Definition well_formed (df : DataFrame) : bool :=
  distinct (List.map clean_name (columns df))
  && forallb (fun kv => List.length (snd kv) =? len df) (data df).

Definition same_length (df : DataFrame) : Prop :=
  Forall (fun kv => List.length (snd kv) = len df) (data df).

Definition is_str (c : cell) : bool :=
  match c with Str _ => true | _ => false end.

Definition is_number (c : cell) : bool :=
  match c with NA | Num _ | Bool _ => true | _ => false end.

(** Column [k], when the table has it, holds values satisfying [p]. *)
Definition column_all (p : cell -> bool) (k : str) (df : DataFrame) : Prop :=
  forall c, lookup k (data df) = Some c -> forallb p c = true.

(** What the aggregations need of a table. *)
Definition ready (df : DataFrame) : Prop :=
  same_length df
  /\ column_all is_bool Completed df
  /\ column_all is_bool Timed_Out df
  /\ column_all is_number Translation_Score df
  /\ exists c, lookup Translation_Direction (data df) = Some c
               /\ forallb is_str c = true.

(** The tables [main] aggregates: a preprocessed table, filtered any
    number of times by a mask over its rows. *)
Inductive view_of (d : DataFrame) : DataFrame -> Prop :=
| view_all : view_of d d
| view_filter v mask :
    view_of d v -> List.length mask = len v ->
    view_of d (boolean_index v mask).

(** [df[k] = f(df[k])] when the table has column [k]. *)
Definition map_column (k : str) (f : Series -> Series) (df : DataFrame)
  : DataFrame :=
  match lookup k (data df) with
  | Some c => setitem df k (f c)
  | None => df
  end.

(** The flag of a source value: true for the string [Yes] only. *)
Definition flag_of (c : cell) : cell :=
  match c with
  | Str s => Bool (PyStr.eqb s Yes)
  | _ => Bool false
  end.

(** A date within the bounds, both included; no date is not. *)
Definition in_range (lower upper : Z) (c : cell) : bool :=
  match c with
  | Date d => ((lower <=? d) && (d <=? upper))%Z
  | _ => false
  end.

(** The table after the timestamp block, given the parsed column. *)
Definition with_timestamp (t : Series) (df : DataFrame) : DataFrame :=
  setitem (setitem (setitem df Timestamp t) Hour (hours t)) Date_ (dates t).

(** The table the first three steps leave. *)
Definition filled (f t s : Series) (df : DataFrame) : DataFrame :=
  setitem (setitem (setitem df From_ (fillna (Str Unknown) f))
             To_ (fillna (Str Unknown) t))
    Status (fillna (Str Unknown) s).

Definition flags_done (df : DataFrame) : DataFrame :=
  map_column Timed_Out (fun c => fillna (Bool false) (series_map yes_no c))
    (map_column Completed (fun c => fillna (Bool false) (series_map yes_no c)) df).

Definition finished (f t : Series) (df : DataFrame) : DataFrame :=
  setitem (map_column Translation_Score to_numeric df) Translation_Direction
    (concat_with arrow (astype_str (fillna (Str Unknown) f))
                       (astype_str (fillna (Str Unknown) t))).

(** The number of [True] values of a flag column. *)
Definition trues (c : Series) : nat :=
  List.length (List.filter (fun x => match x with Bool true => true | _ => false end) c).

(** The date filter of [main] applies when the table has timestamps,
    not all of them missing. *)
Definition filter_active (df : DataFrame) : bool :=
  match lookup Timestamp (data df) with
  | Some c => negb (forallb isna c)
  | None => false
  end.

(** Whether a row whose direction is [x] belongs to the group of [key]. *)
Definition hits (x : cell) (key : cell) : nat :=
  if cell_eqb key x then 1 else 0.

(** *** Counting rows *)

Definition is_true (c : cell) : bool :=
  match c with Bool true => true | _ => false end.

(** Whether row [i] has flag [k] set; a table without the column has the
    flag nowhere. *)
Definition flag_at (df : DataFrame) (k : str) (i : nat) : bool :=
  match lookup k (data df) with
  | Some c => is_true (nth i c NA)
  | None => false
  end.

(** The number of rows of [df] that satisfy [p]. *)
Definition count_rows (df : DataFrame) (p : nat -> bool) : nat :=
  List.length (List.filter p (seq 0 (len df))).


Definition Qsum (l : list Q) : Q := fold_right Qplus 0%Q l.

(** The order of the rows of the direction breakdown: [a] comes before
    [b] when it sorts first and is another value. *)
Definition before (a b : cell) : Prop := cell_leb a b = true /\ a <> b.

(** The columns [preprocess_data] reads or writes. *)
Definition program_columns : list str :=
  [ From_; To_; Status; Completed; Timed_Out; Timestamp; Hour; Date_;
    Translation_Score; Translation_Direction ].

(** [df'] has the columns of [df], in the same order, followed by
    columns named in [ks], and no name twice if [df] has none twice. *)
Definition extends (ks : list str) (df df' : DataFrame) : Prop :=
  exists added,
    columns df' = columns df ++ added
    /\ incl added ks
    /\ (NoDup (columns df) -> NoDup (columns df')).

(** *** Statements of the specification the program does not meet, as worded *)

(** "strip a single trailing comma" *)
Definition strip_one_comma (s : str) : str :=
  match rev s with
  | c :: r => if N.eqb c comma then rev r else s
  | [] => s
  end.

Definition clean_name_as_specified (name : str) : str :=
  strip_one_comma (strip name).

Definition names_cleaned_as_specified (df : DataFrame) : Prop :=
  columns (clean_columns df) = List.map clean_name_as_specified (columns df).

(** "Completed and Timed Out are booleans in every row, never absent" *)
Definition flags_never_absent (df : DataFrame) : Prop :=
  forall d1, fst (preprocess_data df) = Some d1 ->
  forall k, k = Completed \/ k = Timed_Out ->
  exists c, getitem d1 k = Ok c /\ List.length c = len d1
            /\ forallb is_bool c = true.

(** "applying preprocess_data a second time yields the same table" *)
Definition idempotent_on (df : DataFrame) : Prop :=
  forall d1, fst (preprocess_data df) = Some d1 ->
  fst (preprocess_data d1) = Some d1.

(** What a second pass does to a flag column: every value false. *)
Definition reset_flag (k : str) (df : DataFrame) : DataFrame :=
  map_column k (List.map (fun _ => Bool false)) df.

(* ================================================================== *)
(** ** Strings and names *)

Lemma str_eqb_eq (a b : str) : PyStr.eqb a b = true <-> a = b.
Proof.
  revert b; induction a as [|x a IH]; intros [|y b]; simpl;
    try (split; [discriminate | congruence]); try tauto.
  rewrite andb_true_iff, N.eqb_eq, IH.
  split; [intros [-> ->]; reflexivity | intros H; inversion H; auto].
Qed.

Lemma str_eqb_refl (a : str) : PyStr.eqb a a = true.
Proof. apply str_eqb_eq; reflexivity. Qed.

Lemma str_eqb_neq (a b : str) : PyStr.eqb a b = false <-> a <> b.
Proof.
  rewrite <- str_eqb_eq. destruct (PyStr.eqb a b); split; congruence.
Qed.

Lemma dropwhile_app_rev (p : N -> bool) (s : str) :
  exists dropped, s = dropped ++ dropwhile p s /\ forallb p dropped = true.
Proof.
  induction s as [|c s [d [E F]]]; simpl.
  - exists []; auto.
  - destruct (p c) eqn:P.
    + exists (c :: d); simpl; rewrite P, F; split; [congruence | reflexivity].
    + exists []; auto.
Qed.

Lemma dropwhile_head (p : N -> bool) (s : str) :
  match dropwhile p s with [] => True | c :: _ => p c = false end.
Proof.
  induction s as [|c s IH]; simpl; auto.
  destruct (p c) eqn:P; auto.
Qed.

(** [rstrip_by p] removes a suffix of characters satisfying [p] and
    leaves a string that does not end in one. *)
Lemma rstrip_by_spec (p : N -> bool) (s : str) :
  exists dropped,
    s = rstrip_by p s ++ dropped /\ forallb p dropped = true
    /\ (forall body c, rstrip_by p s = body ++ [c] -> p c = false).
Proof.
  unfold rstrip_by.
  destruct (dropwhile_app_rev p (rev s)) as [d [E F]].
  exists (rev d). split; [|split].
  - rewrite <- rev_app_distr, <- E, rev_involutive; reflexivity.
  - rewrite forallb_forall in *. intros x Hx. apply F, in_rev, Hx.
  - intros body c Hb.
    pose proof (dropwhile_head p (rev s)) as Hh.
    apply (f_equal (@rev N)) in Hb.
    rewrite rev_involutive, rev_app_distr in Hb; simpl in Hb.
    rewrite Hb in Hh. exact Hh.
Qed.

(* ================================================================== *)
(** ** Item access *)

Lemma lookup_update (k k' : str) (s : Series) (l : list (str * Series)) :
  lookup k' (update k s l) = if PyStr.eqb k' k then Some s else lookup k' l.
Proof.
  induction l as [|[k0 s0] l IH]; simpl.
  - destruct (PyStr.eqb k' k); reflexivity.
  - destruct (PyStr.eqb k k0) eqn:E; simpl.
    + apply str_eqb_eq in E; subst k0.
      destruct (PyStr.eqb k' k); reflexivity.
    + destruct (PyStr.eqb k' k0) eqn:E'.
      * apply str_eqb_eq in E'; subst k0.
        destruct (PyStr.eqb k' k) eqn:E''; [|reflexivity].
        apply str_eqb_eq in E''; subst k'.
        rewrite str_eqb_refl in E; discriminate.
      * exact IH.
Qed.

Lemma update_lookup (k : str) (s : Series) (l : list (str * Series)) :
  lookup k l = Some s -> update k s l = l.
Proof.
  induction l as [|[k0 s0] l IH]; simpl; [discriminate|].
  destruct (PyStr.eqb k k0); intros H.
  - congruence.
  - rewrite IH; auto.
Qed.

Lemma lookup_setitem (df : DataFrame) (k k' : str) (s : Series) :
  lookup k' (data (setitem df k s))
  = if PyStr.eqb k' k then Some s else lookup k' (data df).
Proof. apply lookup_update. Qed.

Lemma setitem_same (df : DataFrame) (k : str) (s : Series) :
  lookup k (data df) = Some s -> setitem df k s = df.
Proof.
  intros H. unfold setitem. rewrite update_lookup by exact H.
  destruct df; reflexivity.
Qed.

Lemma getitem_Ok (df : DataFrame) (k : str) (s : Series) :
  getitem df k = Ok s <-> lookup k (data df) = Some s.
Proof.
  unfold getitem. destruct (lookup k (data df)); split; congruence.
Qed.

Lemma contains_false (df : DataFrame) (k : str) :
  contains df k = false <-> lookup k (data df) = None.
Proof.
  unfold contains. destruct (lookup k (data df)); split; congruence.
Qed.

Lemma lookup_In (k : str) (l : list (str * Series)) :
  lookup k l <> None <-> In k (List.map fst l).
Proof.
  induction l as [|[k0 s0] l IH]; simpl; [tauto|].
  destruct (PyStr.eqb k k0) eqn:E.
  - apply str_eqb_eq in E. split; [auto | discriminate].
  - apply str_eqb_neq in E. rewrite IH. split; [auto | intros [H|H]; congruence].
Qed.

Lemma lookup_Some_In (k : str) (s : Series) (l : list (str * Series)) :
  lookup k l = Some s -> In (k, s) l.
Proof.
  induction l as [|[k0 s0] l IH]; simpl; [discriminate|].
  destruct (PyStr.eqb k k0) eqn:E.
  - apply str_eqb_eq in E. intros H; left; congruence.
  - auto.
Qed.

Lemma columns_update (k : str) (s : Series) (l : list (str * Series)) :
  List.map fst (update k s l)
  = List.map fst l ++ match lookup k l with Some _ => [] | None => [k] end.
Proof.
  induction l as [|[k0 s0] l IH]; simpl; [reflexivity|].
  destruct (PyStr.eqb k k0); simpl.
  - rewrite app_nil_r; reflexivity.
  - rewrite IH; reflexivity.
Qed.

Lemma In_update (kv : str * Series) (k : str) (s : Series)
  (l : list (str * Series)) :
  In kv (update k s l) -> In kv l \/ snd kv = s.
Proof.
  induction l as [|[k0 s0] l IH]; simpl.
  - intros [<-|[]]; auto.
  - destruct (PyStr.eqb k k0); simpl.
    + intros [<-|H]; auto.
    + intros [<-|H]; auto. destruct (IH H); auto.
Qed.

Lemma lookup_map_column (k k' : str) (f : Series -> Series) (df : DataFrame) :
  lookup k' (data (map_column k f df))
  = if PyStr.eqb k' k then option_map f (lookup k (data df))
    else lookup k' (data df).
Proof.
  unfold map_column.
  destruct (lookup k (data df)) as [c|] eqn:E.
  - rewrite lookup_setitem. reflexivity.
  - destruct (PyStr.eqb k' k) eqn:E'; [|reflexivity].
    apply str_eqb_eq in E'; subst k'. exact E.
Qed.

Lemma len_setitem (df : DataFrame) (k : str) (s : Series) :
  len (setitem df k s) = len df.
Proof. reflexivity. Qed.

Lemma len_map_column (k : str) (f : Series -> Series) (df : DataFrame) :
  len (map_column k f df) = len df.
Proof. unfold map_column. destruct (lookup k (data df)); reflexivity. Qed.

(** *** The steps, one by one *)

Lemma fill_unknown_present (k : str) (df : DataFrame) (c : Series) :
  lookup k (data df) = Some c ->
  fill_unknown k df = Ok (setitem df k (fillna (Str Unknown) c)).
Proof. intros H. unfold fill_unknown, getitem. rewrite H. reflexivity. Qed.

Lemma fill_unknown_absent (k : str) (df : DataFrame) :
  lookup k (data df) = None -> fill_unknown k df = Raise (KeyError k).
Proof. intros H. unfold fill_unknown, getitem. rewrite H. reflexivity. Qed.

Lemma convert_flag_total (k : str) (df : DataFrame) :
  convert_flag k df
  = Ok (map_column k (fun c => fillna (Bool false) (series_map yes_no c)) df).
Proof.
  unfold convert_flag, map_column, contains, getitem.
  destruct (lookup k (data df)); reflexivity.
Qed.

Lemma clean_scores_total (df : DataFrame) :
  clean_scores df = Ok (map_column Translation_Score to_numeric df).
Proof.
  unfold clean_scores, map_column, contains, getitem.
  destruct (lookup Translation_Score (data df)); reflexivity.
Qed.

Lemma dt_date_Ok (t : Series) :
  forallb is_datetime t = true -> dt_date t = Ok (dates t).
Proof. intros H. unfold dt_date, dt. rewrite H. reflexivity. Qed.

Lemma parse_timestamp_absent (df : DataFrame) :
  lookup Timestamp (data df) = None -> parse_timestamp df = Ok df.
Proof. intros H. unfold parse_timestamp, contains. rewrite H. reflexivity. Qed.

Lemma parse_timestamp_present (df : DataFrame) (c : Series) :
  lookup Timestamp (data df) = Some c ->
  parse_timestamp df
  = match to_datetime c with
    | Ok t => if forallb is_datetime t then Ok (with_timestamp t df)
              else Raise AttributeError
    | Raise e => Raise e
    end.
Proof.
  intros H. unfold parse_timestamp, contains, getitem. rewrite H. simpl.
  destruct (to_datetime c) as [t|e]; simpl; [|reflexivity].
  rewrite !lookup_update, str_eqb_refl. simpl bind.
  unfold dt_hour, dt_date, dt.
  destruct (forallb is_datetime t) eqn:Ht; simpl bind; [|reflexivity].
  rewrite !lookup_update.
  replace (PyStr.eqb Timestamp Hour) with false by reflexivity.
  rewrite str_eqb_refl. simpl bind. rewrite Ht. reflexivity.
Qed.

Lemma make_direction_Ok (df : DataFrame) (f t : Series) :
  lookup From_ (data df) = Some f -> lookup To_ (data df) = Some t ->
  make_direction df
  = Ok (setitem df Translation_Direction
          (concat_with arrow (astype_str f) (astype_str t))).
Proof.
  intros Hf Ht. unfold make_direction, getitem. rewrite Hf, Ht. reflexivity.
Qed.

(** Comparing two of the program's column names. *)
Ltac names :=
  repeat match goal with
    | |- context [PyStr.eqb ?a ?b] =>
        let v := eval vm_compute in (PyStr.eqb a b) in
        match v with
        | true => change (PyStr.eqb a b) with true
        | false => change (PyStr.eqb a b) with false
        end
    end; cbv iota.

Lemma parse_timestamp_inv (df d : DataFrame) :
  parse_timestamp df = Ok d ->
  (lookup Timestamp (data df) = None /\ d = df)
  \/ (exists c t, lookup Timestamp (data df) = Some c
                  /\ to_datetime c = Ok t
                  /\ forallb is_datetime t = true
                  /\ d = with_timestamp t df).
Proof.
  destruct (lookup Timestamp (data df)) as [c|] eqn:E.
  - rewrite (parse_timestamp_present _ _ E).
    destruct (to_datetime c) as [t|e] eqn:Et; [|discriminate].
    destruct (forallb is_datetime t) eqn:Hd; [|discriminate].
    intros H; inversion H; right; exists c, t; auto.
  - rewrite (parse_timestamp_absent _ E).
    intros H; inversion H; left; auto.
Qed.

Ltac look :=
  unfold finished, with_timestamp, flags_done, filled;
  repeat (first [ rewrite lookup_setitem | rewrite lookup_map_column ]; names).

Ltac look_in H :=
  unfold finished, with_timestamp, flags_done, filled in H;
  repeat (first [ rewrite lookup_setitem in H
                | rewrite lookup_map_column in H ];
          repeat match type of H with
            | context [PyStr.eqb ?a ?b] =>
                let v := eval vm_compute in (PyStr.eqb a b) in
                match v with
                | true => change (PyStr.eqb a b) with true in H
                | false => change (PyStr.eqb a b) with false in H
                end
            end; cbv iota in H).

(** A column other than the three the timestamp block writes is as it
    was. *)
Lemma parse_timestamp_other (df d : DataFrame) (k : str) :
  parse_timestamp df = Ok d ->
  PyStr.eqb k Timestamp = false -> PyStr.eqb k Hour = false ->
  PyStr.eqb k Date_ = false ->
  lookup k (data d) = lookup k (data df).
Proof.
  intros H H1 H2 H3.
  destruct (parse_timestamp_inv _ _ H) as [[_ ->]|[c [t [_ [_ [_ ->]]]]]];
    [reflexivity|].
  unfold with_timestamp. rewrite !lookup_setitem, H1, H2, H3. reflexivity.
Qed.

Lemma len_parse_timestamp (df d : DataFrame) :
  parse_timestamp df = Ok d -> len d = len df.
Proof.
  intros H.
  destruct (parse_timestamp_inv _ _ H) as [[_ ->]|[c [t [_ [_ [_ ->]]]]]];
    reflexivity.
Qed.

(** When [preprocess_steps] returns, the three required columns were
    there, the timestamp block did not raise, and the result is the
    table [finished]. *)
Lemma preprocess_steps_inv (df r : DataFrame) :
  preprocess_steps df = Ok r ->
  exists f t s,
    lookup From_ (data (clean_columns df)) = Some f
    /\ lookup To_ (data (clean_columns df)) = Some t
    /\ lookup Status (data (clean_columns df)) = Some s
    /\ exists d,
         parse_timestamp (flags_done (filled f t s (clean_columns df))) = Ok d
         /\ r = finished f t d.
Proof.
  unfold preprocess_steps.
  set (d0 := clean_columns df).
  destruct (lookup From_ (data d0)) as [f|] eqn:Ef;
    [rewrite (fill_unknown_present _ _ _ Ef)
    |rewrite (fill_unknown_absent _ _ Ef); discriminate].
  simpl bind.
  destruct (lookup To_ (data d0)) as [t|] eqn:Et.
  2:{ rewrite fill_unknown_absent; [discriminate|]. look. exact Et. }
  rewrite (fill_unknown_present _ _ t) by (look; exact Et).
  simpl bind.
  destruct (lookup Status (data d0)) as [s|] eqn:Es.
  2:{ rewrite fill_unknown_absent; [discriminate|]. look. exact Es. }
  rewrite (fill_unknown_present _ _ s) by (look; exact Es).
  simpl bind. rewrite convert_flag_total. simpl bind.
  rewrite convert_flag_total. simpl bind.
  fold (filled f t s d0). fold (flags_done (filled f t s d0)).
  intros H. exists f, t, s. repeat split; auto.
  destruct (parse_timestamp (flags_done (filled f t s d0))) as [d|e] eqn:Ep;
    [|simpl in H; discriminate H].
  simpl bind in H. rewrite clean_scores_total in H. simpl bind in H.
  exists d; split; auto.
  rewrite (make_direction_Ok _ (fillna (Str Unknown) f) (fillna (Str Unknown) t))
    in H.
  - inversion H. reflexivity.
  - rewrite lookup_map_column; names.
    rewrite (parse_timestamp_other _ _ _ Ep) by reflexivity. look. reflexivity.
  - rewrite lookup_map_column; names.
    rewrite (parse_timestamp_other _ _ _ Ep) by reflexivity. look. reflexivity.
Qed.

(** Conversely the steps succeed on such a table. *)
Lemma preprocess_steps_Ok (df d : DataFrame) (f t s : Series) :
  lookup From_ (data (clean_columns df)) = Some f ->
  lookup To_ (data (clean_columns df)) = Some t ->
  lookup Status (data (clean_columns df)) = Some s ->
  parse_timestamp (flags_done (filled f t s (clean_columns df))) = Ok d ->
  preprocess_steps df = Ok (finished f t d).
Proof.
  intros Ef Et Es Ep. unfold preprocess_steps.
  set (d0 := clean_columns df) in *.
  rewrite (fill_unknown_present _ _ _ Ef). simpl bind.
  rewrite (fill_unknown_present _ _ t) by (look; exact Et). simpl bind.
  rewrite (fill_unknown_present _ _ s) by (look; exact Es). simpl bind.
  rewrite convert_flag_total. simpl bind.
  rewrite convert_flag_total. simpl bind.
  fold (filled f t s d0). fold (flags_done (filled f t s d0)).
  rewrite Ep. simpl bind. rewrite clean_scores_total. simpl bind.
  rewrite (make_direction_Ok _ (fillna (Str Unknown) f) (fillna (Str Unknown) t)).
  - reflexivity.
  - rewrite lookup_map_column; names.
    rewrite (parse_timestamp_other _ _ _ Ep) by reflexivity. look. reflexivity.
  - rewrite lookup_map_column; names.
    rewrite (parse_timestamp_other _ _ _ Ep) by reflexivity. look. reflexivity.
Qed.

(* ================================================================== *)
(** ** Shape of the tables *)

Lemma map_fst_combine {A B} (a : list A) (b : list B) :
  List.length a = List.length b -> List.map fst (combine a b) = a.
Proof.
  revert b; induction a as [|x a IH]; intros [|y b]; simpl;
    try discriminate; auto.
  intros H. f_equal. apply IH. lia.
Qed.

Lemma columns_clean_columns (df : DataFrame) :
  columns (clean_columns df) = List.map clean_name (columns df).
Proof.
  unfold clean_columns, set_columns, columns. simpl.
  apply map_fst_combine. rewrite !length_map. reflexivity.
Qed.

Lemma well_formed_same_length (df : DataFrame) :
  well_formed df = true -> same_length df.
Proof.
  unfold well_formed, same_length. rewrite andb_true_iff, forallb_forall.
  intros [_ H]. apply Forall_forall. intros kv Hkv.
  apply Nat.eqb_eq, H, Hkv.
Qed.

Lemma same_length_lookup (df : DataFrame) (k : str) (c : Series) :
  same_length df -> lookup k (data df) = Some c -> List.length c = len df.
Proof.
  intros H E. apply lookup_Some_In in E.
  unfold same_length in H. rewrite Forall_forall in H. apply (H _ E).
Qed.

Lemma same_length_clean_columns (df : DataFrame) :
  same_length df -> same_length (clean_columns df).
Proof.
  unfold same_length, clean_columns, set_columns. simpl.
  rewrite !Forall_forall. intros H [k c] Hin.
  apply in_combine_r in Hin. apply in_map_iff in Hin.
  destruct Hin as [kv [E Hin]]. simpl. rewrite <- E. apply H, Hin.
Qed.

Lemma same_length_setitem (df : DataFrame) (k : str) (s : Series) :
  same_length df -> List.length s = len df -> same_length (setitem df k s).
Proof.
  unfold same_length. rewrite !Forall_forall.
  intros H Hs kv Hin. destruct (In_update _ _ _ _ Hin) as [H'|H'].
  - apply H, H'.
  - destruct kv as [k0 s0]; simpl in *. subst s0. exact Hs.
Qed.

Lemma same_length_map_column (df : DataFrame) (k : str) (f : Series -> Series) :
  same_length df -> (forall c, List.length (f c) = List.length c) ->
  same_length (map_column k f df).
Proof.
  intros H Hf. unfold map_column.
  destruct (lookup k (data df)) as [c|] eqn:E; [|exact H].
  apply same_length_setitem; [exact H|].
  rewrite Hf. apply (same_length_lookup _ _ _ H E).
Qed.

Lemma length_fillna (v : cell) (s : Series) :
  List.length (fillna v s) = List.length s.
Proof. apply length_map. Qed.

Lemma length_flags (c : Series) :
  List.length (fillna (Bool false) (series_map yes_no c)) = List.length c.
Proof. unfold fillna, series_map. rewrite !length_map. reflexivity. Qed.

Lemma length_to_numeric (c : Series) :
  List.length (to_numeric c) = List.length c.
Proof.
  unfold to_numeric. destruct (forallb is_bool c); [|apply length_map].
  reflexivity.
Qed.

Lemma length_concat_with (sep : str) (a b : list str) :
  List.length a = List.length b ->
  List.length (concat_with sep a b) = List.length a.
Proof.
  intros H. unfold concat_with. rewrite length_map, length_combine. lia.
Qed.

Lemma same_length_filled (f t s : Series) (df : DataFrame) :
  same_length df ->
  lookup From_ (data df) = Some f -> lookup To_ (data df) = Some t ->
  lookup Status (data df) = Some s ->
  same_length (filled f t s df).
Proof.
  intros H Ef Et Es. unfold filled.
  repeat apply same_length_setitem; auto;
    rewrite length_fillna; simpl; eapply same_length_lookup; eauto.
Qed.

Lemma same_length_parse_timestamp (df d : DataFrame) :
  same_length df -> parse_timestamp df = Ok d -> same_length d.
Proof.
  intros H Hp.
  destruct (parse_timestamp_inv _ _ Hp) as [[_ ->]|[c [t [E [Et [_ ->]]]]]];
    [exact H|].
  assert (Hl : List.length t = len df).
  { rewrite (to_datetime_length _ _ Et). apply (same_length_lookup _ _ _ H E). }
  unfold with_timestamp.
  repeat apply same_length_setitem; auto; simpl;
    unfold hours, dates; rewrite length_map; exact Hl.
Qed.

(** The shape of a preprocessed table. *)
Lemma preprocessed_shape (df d1 : DataFrame) :
  well_formed df = true -> preprocess_steps df = Ok d1 ->
  len d1 = len df /\ same_length d1.
Proof.
  intros W H.
  destruct (preprocess_steps_inv _ _ H) as [f [t [s [Ef [Et [Es [d [Ep ->]]]]]]]].
  pose proof (same_length_clean_columns _ (well_formed_same_length _ W)) as S0.
  pose proof (same_length_filled _ _ _ _ S0 Ef Et Es) as S1.
  assert (S2 : same_length (flags_done (filled f t s (clean_columns df)))).
  { unfold flags_done.
    repeat apply same_length_map_column; auto using length_flags. }
  pose proof (same_length_parse_timestamp _ _ S2 Ep) as S3.
  assert (L : len d = len df).
  { rewrite (len_parse_timestamp _ _ Ep). unfold flags_done.
    rewrite !len_map_column. reflexivity. }
  split.
  - unfold finished. rewrite len_setitem, len_map_column. exact L.
  - unfold finished. apply same_length_setitem.
    + apply same_length_map_column; auto using length_to_numeric.
    + rewrite len_map_column, L.
      pose proof (same_length_lookup _ _ _ S0 Ef) as Lf.
      pose proof (same_length_lookup _ _ _ S0 Et) as Lt.
      change (len (clean_columns df)) with (len df) in Lf, Lt.
      rewrite length_concat_with;
        unfold astype_str, fillna; rewrite !length_map; congruence.
Qed.

Lemma preprocess_data_Some (df d1 : DataFrame) :
  fst (preprocess_data df) = Some d1 <-> preprocess_steps df = Ok d1.
Proof.
  unfold preprocess_data. destruct (preprocess_steps df); simpl;
    split; congruence.
Qed.

Lemma nth_error_concat_with (sep x y : str) (a b : list str) (i : nat) :
  nth_error a i = Some x -> nth_error b i = Some y ->
  nth_error (concat_with sep a b) i = Some (Str ((x ++ sep) ++ y)).
Proof.
  revert a b; induction i as [|i IH]; intros [|x' a] [|y' b]; simpl;
    try discriminate.
  - intros Hx Hy; inversion Hx; inversion Hy; reflexivity.
  - apply IH.
Qed.

(* ================================================================== *)
(** ** Required and optional columns; errors *)

Lemma lookup_clean_In (df : DataFrame) (k : str) :
  lookup k (data (clean_columns df)) <> None
  <-> In k (List.map clean_name (columns df)).
Proof.
  rewrite lookup_In. fold (columns (clean_columns df)).
  rewrite columns_clean_columns. tauto.
Qed.

Lemma lookup_flags_filled_Timestamp (f t s : Series) (df : DataFrame) :
  lookup Timestamp (data (flags_done (filled f t s df)))
  = lookup Timestamp (data df).
Proof. look. reflexivity. Qed.

(** C10.  A table that lacks [From], [To] or [Status] (names taken after
    cleaning) preprocesses to no table; a table that has the three
    preprocesses to a table whether or not it has [Completed],
    [Timed Out], [Timestamp] or [Translation Score], provided the date
    parser accepts the [Timestamp] column when there is one. *)
Theorem required_and_optional_columns (df : DataFrame) :
  well_formed df = true ->
  let names := List.map clean_name (columns df) in
  (~ In From_ names \/ ~ In To_ names \/ ~ In Status names ->
   fst (preprocess_data df) = None)
  /\ (In From_ names -> In To_ names -> In Status names ->
      (forall c, lookup Timestamp (data (clean_columns df)) = Some c ->
                 exists t, to_datetime c = Ok t
                           /\ forallb is_datetime t = true) ->
      exists d1, preprocess_data df = (Some d1, [])).
Proof.
  intros _ names. split.
  - intros Hmiss. unfold preprocess_data.
    destruct (preprocess_steps df) as [r|e] eqn:E; [|reflexivity].
    exfalso.
    destruct (preprocess_steps_inv _ _ E) as [f [t [s [Ef [Et [Es _]]]]]].
    assert (In From_ names) by (apply lookup_clean_In; congruence).
    assert (In To_ names) by (apply lookup_clean_In; congruence).
    assert (In Status names) by (apply lookup_clean_In; congruence).
    tauto.
  - intros Hf Ht Hs Hts.
    apply lookup_clean_In in Hf, Ht, Hs.
    destruct (lookup From_ (data (clean_columns df))) as [f|] eqn:Ef;
      [|congruence].
    destruct (lookup To_ (data (clean_columns df))) as [t|] eqn:Et;
      [|congruence].
    destruct (lookup Status (data (clean_columns df))) as [s|] eqn:Es;
      [|congruence].
    assert (Hp : exists d,
      parse_timestamp (flags_done (filled f t s (clean_columns df))) = Ok d).
    { destruct (lookup Timestamp (data (clean_columns df))) as [c|] eqn:Ec.
      - destruct (Hts c eq_refl) as [t' [Et' Hd]].
        exists (with_timestamp t' (flags_done (filled f t s (clean_columns df)))).
        rewrite (parse_timestamp_present _ c)
          by (rewrite lookup_flags_filled_Timestamp; exact Ec).
        rewrite Et', Hd. reflexivity.
      - eexists. apply parse_timestamp_absent.
        rewrite lookup_flags_filled_Timestamp; exact Ec. }
    destruct Hp as [d Hp].
    exists (finished f t d). unfold preprocess_data.
    rewrite (preprocess_steps_Ok _ _ _ _ _ Ef Et Es Hp). reflexivity.
Qed.

(** C9.  When reading raises, or any preprocessing step raises, the
    loaders return no table and one report; a table is returned only as
    the result of all the steps. *)
Theorem no_table_on_error (path : source) :
  (forall e, read_csv path = Raise e ->
     load_data_from_file path = (None, [Error_loading_file e])
     /\ load_data_from_upload path = (None, [Error_loading_upload e]))
  /\ (forall df e, read_csv path = Ok df -> preprocess_steps df = Raise e ->
        preprocess_data df = (None, [Error_preprocessing e])
        /\ load_data_from_file path = (None, [Error_preprocessing e])
        /\ load_data_from_upload path = (None, [Error_preprocessing e]))
  /\ (forall d, fst (load_data_from_file path) = Some d
                \/ fst (load_data_from_upload path) = Some d ->
        exists df, read_csv path = Ok df /\ preprocess_steps df = Ok d).
Proof.
  unfold load_data_from_file, load_data_from_upload, preprocess_data.
  split; [|split].
  - intros e ->. auto.
  - intros df e -> ->. auto.
  - intros d. destruct (read_csv path) as [df|e]; simpl.
    + destruct (preprocess_steps df) as [r|e] eqn:E; simpl.
      * intros [H|H]; inversion H; subst; exists df; auto.
      * intros [H|H]; discriminate.
    + intros [H|H]; discriminate.
Qed.

(* ================================================================== *)
(** ** Flags and direction *)

Lemma flags_map (c : Series) :
  fillna (Bool false) (series_map yes_no c) = List.map flag_of c.
Proof.
  unfold fillna, series_map. rewrite map_map. apply map_ext.
  intros [|s|q|b|ns|d]; try reflexivity.
  simpl. fold Yes. fold No.
  destruct (PyStr.eqb s Yes) eqn:E; [reflexivity|].
  destruct (PyStr.eqb s No); reflexivity.
Qed.

Lemma flag_of_cases :
  flag_of (Str Yes) = Bool true /\ flag_of (Str No) = Bool false
  /\ forall c, c <> Str Yes -> flag_of c = Bool false.
Proof.
  split; [reflexivity|split; [reflexivity|]].
  intros [|s|q|b|ns|d] H; try reflexivity.
  simpl. destruct (PyStr.eqb s Yes) eqn:E; [|reflexivity].
  apply str_eqb_eq in E. congruence.
Qed.

Lemma forallb_is_bool_flags (c : Series) :
  forallb is_bool (List.map flag_of c) = true.
Proof. induction c as [|[|s|q|b|ns|d] c IH]; simpl; auto. Qed.

(** The flag columns of a preprocessed table. *)
Lemma preprocessed_flag (df d1 : DataFrame) (k : str) :
  preprocess_steps df = Ok d1 -> k = Completed \/ k = Timed_Out ->
  lookup k (data d1)
  = option_map (List.map flag_of) (lookup k (data (clean_columns df))).
Proof.
  intros H Hk.
  destruct (preprocess_steps_inv _ _ H) as [f [t [s [_ [_ [_ [d [Ep ->]]]]]]]].
  destruct Hk as [-> | ->].
  - unfold finished. look.
    rewrite (parse_timestamp_other _ _ _ Ep) by reflexivity. look.
    destruct (lookup Completed (data (clean_columns df))); simpl;
      [rewrite flags_map|]; reflexivity.
  - unfold finished. look.
    rewrite (parse_timestamp_other _ _ _ Ep) by reflexivity. look.
    destruct (lookup Timed_Out (data (clean_columns df))); simpl;
      [rewrite flags_map|]; reflexivity.
Qed.

(** C5, amended.  When the table has a [Completed] (or [Timed Out])
    column, the preprocessed column holds a boolean in every row, true
    for the source string [Yes] and false for [No] and for anything
    else, a missing value included; when the table has no such column,
    the preprocessed table has none either. *)
Theorem flags_are_boolean (df d1 : DataFrame) (k : str) :
  well_formed df = true ->
  fst (preprocess_data df) = Some d1 ->
  k = Completed \/ k = Timed_Out ->
  match lookup k (data (clean_columns df)) with
  | Some raw =>
      getitem d1 k = Ok (List.map flag_of raw)
      /\ List.length raw = len d1
      /\ forallb is_bool (List.map flag_of raw) = true
      /\ flag_of (Str Yes) = Bool true /\ flag_of (Str No) = Bool false
      /\ (forall c, c <> Str Yes -> flag_of c = Bool false)
  | None => contains d1 k = false
  end.
Proof.
  intros W H Hk. apply preprocess_data_Some in H.
  pose proof (preprocessed_flag _ _ _ H Hk) as E.
  destruct (preprocessed_shape _ _ W H) as [L _].
  destruct (lookup k (data (clean_columns df))) as [raw|] eqn:Er; simpl in E.
  - split; [apply getitem_Ok; exact E|].
    split.
    { rewrite L.
      apply (same_length_lookup (clean_columns df) k);
        [apply same_length_clean_columns, well_formed_same_length, W | exact Er]. }
    split; [apply forallb_is_bool_flags | apply flag_of_cases].
  - apply contains_false; exact E.
Qed.

(** C6.  Every row of a preprocessed table has a direction, a string:
    its [From] value, the separator, its [To] value, where a missing
    [From] or [To] was replaced by [Unknown] and a value that is not a
    string is turned into one. *)
Theorem direction_of_every_row (df d1 : DataFrame) :
  well_formed df = true ->
  fst (preprocess_data df) = Some d1 ->
  exists f t dir,
    lookup From_ (data (clean_columns df)) = Some f
    /\ lookup To_ (data (clean_columns df)) = Some t
    /\ getitem d1 From_ = Ok (fillna (Str Unknown) f)
    /\ getitem d1 To_ = Ok (fillna (Str Unknown) t)
    /\ getitem d1 Translation_Direction = Ok dir
    /\ List.length dir = len d1
    /\ forall i, i < len d1 ->
         exists x y,
           nth_error f i = Some x /\ nth_error t i = Some y
           /\ isna (fill (Str Unknown) x) = false
           /\ isna (fill (Str Unknown) y) = false
           /\ nth_error dir i
              = Some (Str (str_of (fill (Str Unknown) x) ++ arrow
                           ++ str_of (fill (Str Unknown) y))).
Proof.
  intros W H. apply preprocess_data_Some in H.
  destruct (preprocessed_shape _ _ W H) as [L S1].
  destruct (preprocess_steps_inv _ _ H) as [f [t [s [Ef [Et [Es [d [Ep ->]]]]]]]].
  pose proof (same_length_clean_columns _ (well_formed_same_length _ W)) as S0.
  pose proof (same_length_lookup _ _ _ S0 Ef) as Lf.
  pose proof (same_length_lookup _ _ _ S0 Et) as Lt.
  change (len (clean_columns df)) with (len df) in Lf, Lt.
  exists f, t,
    (concat_with arrow (astype_str (fillna (Str Unknown) f))
                       (astype_str (fillna (Str Unknown) t))).
  split; [exact Ef|]. split; [exact Et|].
  split.
  { apply getitem_Ok. unfold finished. look.
    rewrite (parse_timestamp_other _ _ _ Ep) by reflexivity. look. reflexivity. }
  split.
  { apply getitem_Ok. unfold finished. look.
    rewrite (parse_timestamp_other _ _ _ Ep) by reflexivity. look. reflexivity. }
  split.
  { apply getitem_Ok. unfold finished. look. reflexivity. }
  split.
  { rewrite L, length_concat_with;
      unfold astype_str, fillna; rewrite !length_map; congruence. }
  intros i Hi. rewrite L in Hi.
  destruct (nth_error f i) as [x|] eqn:Ex;
    [|apply nth_error_None in Ex; lia].
  destruct (nth_error t i) as [y|] eqn:Ey;
    [|apply nth_error_None in Ey; lia].
  exists x, y. repeat split.
  - destruct x; reflexivity.
  - destruct y; reflexivity.
  - rewrite app_assoc. apply nth_error_concat_with;
      unfold astype_str, fillna; rewrite !nth_error_map, ?Ex, ?Ey; reflexivity.
Qed.

(* ================================================================== *)
(** ** Column names *)

Lemma strip_spec (name : str) :
  exists l r,
    name = l ++ strip name ++ r
    /\ forallb isspace l = true /\ forallb isspace r = true
    /\ (forall c rest, strip name = c :: rest -> isspace c = false)
    /\ (forall body c, strip name = body ++ [c] -> isspace c = false).
Proof.
  unfold strip, lstrip_by.
  destruct (dropwhile_app_rev isspace name) as [l [El Fl]].
  destruct (rstrip_by_spec isspace (dropwhile isspace name)) as [r [Er [Fr Hlast]]].
  exists l, r. repeat split; auto.
  - rewrite <- Er. exact El.
  - intros c rest Hc.
    pose proof (dropwhile_head isspace name) as Hh.
    rewrite Er, Hc in Hh. exact Hh.
Qed.

Lemma all_commas (d : str) :
  forallb (fun c => existsb (N.eqb c) [comma]) d = true ->
  d = repeat comma (List.length d).
Proof.
  induction d as [|c d IH]; simpl; [reflexivity|].
  rewrite andb_true_iff, orb_false_r, N.eqb_eq. intros [-> H].
  f_equal. apply IH, H.
Qed.

Lemma clean_name_spec (name : str) :
  exists k,
    strip name = clean_name name ++ repeat comma k
    /\ forall body, clean_name name <> body ++ [comma].
Proof.
  unfold clean_name, rstrip.
  destruct (rstrip_by_spec (fun c => existsb (N.eqb c) [comma]) (strip name))
    as [d [E [F Hlast]]].
  exists (List.length d). split.
  - rewrite <- (all_commas _ F). exact E.
  - intros body Hb. specialize (Hlast _ _ Hb). discriminate.
Qed.

Lemma clean_columns_ext (df df' : DataFrame) :
  len df' = len df ->
  List.map snd (data df') = List.map snd (data df) ->
  List.map clean_name (columns df') = List.map clean_name (columns df) ->
  clean_columns df' = clean_columns df.
Proof.
  intros Hl Hd Hn. unfold clean_columns, set_columns.
  rewrite Hl, Hd, Hn. reflexivity.
Qed.

(** C3, amended.  Preprocessing renames every column to its name with
    leading and trailing whitespace stripped and then every trailing
    comma stripped, and it reads the table through the new names only:
    two tables with the same values whose names clean to the same names
    preprocess to the same result. *)
Theorem column_names_cleaned (df : DataFrame) :
  columns (clean_columns df) = List.map clean_name (columns df)
  /\ (forall name, exists l r k,
        name = l ++ (clean_name name ++ repeat comma k) ++ r
        /\ forallb isspace l = true /\ forallb isspace r = true
        /\ strip name = clean_name name ++ repeat comma k
        /\ (forall c rest, strip name = c :: rest -> isspace c = false)
        /\ (forall body c, strip name = body ++ [c] -> isspace c = false)
        /\ (forall body, clean_name name <> body ++ [comma]))
  /\ (forall df',
        len df' = len df ->
        List.map snd (data df') = List.map snd (data df) ->
        List.map clean_name (columns df') = List.map clean_name (columns df) ->
        preprocess_data df' = preprocess_data df).
Proof.
  split; [apply columns_clean_columns|]. split.
  - intros name.
    destruct (strip_spec name) as [l [r [E [Fl [Fr [Hh Hl]]]]]].
    destruct (clean_name_spec name) as [k [Ek Hc]].
    exists l, r, k. rewrite <- Ek. repeat split; auto.
  - intros df' Hl Hd Hn.
    unfold preprocess_data, preprocess_steps.
    rewrite (clean_columns_ext _ _ Hl Hd Hn). reflexivity.
Qed.

(* ================================================================== *)
(** ** Sums and means *)

Lemma Q_of_nat_S (n : nat) : (Q_of_nat (S n) == 1 + Q_of_nat n)%Q.
Proof.
  unfold Q_of_nat. rewrite Nat2Z.inj_succ, <- Z.add_1_l, inject_Z_plus.
  reflexivity.
Qed.

Lemma Q_of_nat_nonneg (n : nat) : (0 <= Q_of_nat n)%Q.
Proof.
  unfold Q_of_nat. change 0%Q with (inject_Z 0).
  rewrite <- Zle_Qle. lia.
Qed.

Lemma Q_of_nat_le (n m : nat) : n <= m -> (Q_of_nat n <= Q_of_nat m)%Q.
Proof. intros H. unfold Q_of_nat. rewrite <- Zle_Qle. lia. Qed.

Lemma Q_of_nat_pos (n : nat) : 0 < n -> (0 < Q_of_nat n)%Q.
Proof.
  intros H. unfold Q_of_nat. change 0%Q with (inject_Z 0).
  rewrite <- Zlt_Qlt. lia.
Qed.

Lemma trues_le_length (c : Series) : trues c <= List.length c.
Proof. unfold trues. apply filter_length_le. Qed.

(** The sum of a boolean column is the number of its [True] values. *)
Lemma series_sum_bools (c : Series) :
  forallb is_bool c = true ->
  exists q, series_sum c = Ok q /\ (q == Q_of_nat (trues c))%Q.
Proof.
  induction c as [|x c IH]; simpl.
  - intros _. exists 0%Q. split; reflexivity.
  - destruct x as [|s|q|b|ns|d]; simpl; try discriminate.
    intros H. destruct (IH H) as [t [E Ht]]. rewrite E. simpl.
    exists (Q_of_bool b + t)%Q. split; [reflexivity|].
    unfold trues in *. destruct b; simpl.
    + rewrite Q_of_nat_S, Ht. reflexivity.
    + rewrite Ht. ring.
Qed.

Lemma series_sum_numbers (c : Series) :
  forallb is_number c = true -> exists q, series_sum c = Ok q.
Proof.
  induction c as [|x c IH]; simpl.
  - eauto.
  - destruct x as [|s|q|b|ns|d]; simpl; try discriminate;
      intros H; destruct (IH H) as [t E]; rewrite E; simpl; eauto.
Qed.

Lemma mean_numbers (c : Series) :
  forallb is_number c = true -> exists m, mean c = Ok m.
Proof.
  intros H. unfold mean. destruct (series_sum_numbers c H) as [t E].
  rewrite E. simpl. destruct (dropna c); eauto.
Qed.

Lemma sum_or_zero_flag (df : DataFrame) (k : str) :
  same_length df -> column_all is_bool k df ->
  exists q, sum_or_zero df k = Ok q
            /\ (0 <= q)%Q /\ (q <= Q_of_nat (len df))%Q.
Proof.
  intros S H. unfold sum_or_zero, contains, getitem.
  destruct (lookup k (data df)) as [c|] eqn:E.
  - destruct (series_sum_bools c (H c E)) as [q [Eq Hq]].
    simpl. rewrite Eq. exists q. split; [reflexivity|].
    rewrite Hq. split; [apply Q_of_nat_nonneg|].
    apply Q_of_nat_le. rewrite <- (same_length_lookup _ _ _ S E).
    apply trues_le_length.
  - exists 0%Q. split; [reflexivity|].
    split; [apply Qle_refl | apply Q_of_nat_nonneg].
Qed.

Lemma mean_or_zero_numbers (df : DataFrame) :
  column_all is_number Translation_Score df ->
  exists m, mean_or_zero df = Ok m.
Proof.
  intros H. unfold mean_or_zero, contains, getitem.
  destruct (lookup Translation_Score (data df)) as [c|] eqn:E; [|eauto].
  simpl. apply mean_numbers, (H c E).
Qed.

Lemma rate_bounds (x : Q) (n : nat) :
  (0 <= x)%Q -> (x <= Q_of_nat n)%Q ->
  (0 <= rate x n)%Q /\ (rate x n <= 100)%Q.
Proof.
  intros H0 H1. unfold rate. destruct (0 <? n) eqn:E.
  - apply Nat.ltb_lt in E. pose proof (Q_of_nat_pos n E) as Hp.
    split.
    + apply Qmult_le_0_compat; [|discriminate].
      apply Qle_shift_div_l; [exact Hp|]. rewrite Qmult_0_l. exact H0.
    + setoid_replace 100%Q with (1 * 100)%Q at 2 by reflexivity.
      apply Qmult_le_compat_r; [|discriminate].
      apply Qle_shift_div_r; [exact Hp|]. rewrite Qmult_1_l. exact H1.
  - split; discriminate.
Qed.

(* ================================================================== *)
(** ** The tables the aggregations receive *)

Lemma forallb_is_number_to_numeric (c : Series) :
  forallb is_number (to_numeric c) = true.
Proof.
  unfold to_numeric. destruct (forallb is_bool c) eqn:E.
  - rewrite forallb_forall in *. intros x Hx.
    specialize (E x Hx). destruct x; try discriminate; reflexivity.
  - rewrite forallb_forall. intros x Hx. apply in_map_iff in Hx.
    destruct Hx as [y [<- _]].
    destruct y as [|s|q|b|ns|d]; simpl; try reflexivity.
    destruct (parse_numeric s); reflexivity.
Qed.

Lemma forallb_is_str_concat_with (sep : str) (a b : list str) :
  forallb is_str (concat_with sep a b) = true.
Proof.
  unfold concat_with. rewrite forallb_forall. intros x Hx.
  apply in_map_iff in Hx. destruct Hx as [y [<- _]]. reflexivity.
Qed.

Lemma preprocessed_ready (df d1 : DataFrame) :
  well_formed df = true -> preprocess_steps df = Ok d1 -> ready d1.
Proof.
  intros W H.
  destruct (preprocessed_shape _ _ W H) as [_ S1].
  split; [exact S1|].
  split; [|split].
  - intros c Hc. rewrite (preprocessed_flag _ _ Completed H) in Hc by auto.
    destruct (lookup Completed (data (clean_columns df))); simpl in Hc;
      [|discriminate].
    inversion Hc. apply forallb_is_bool_flags.
  - intros c Hc. rewrite (preprocessed_flag _ _ Timed_Out H) in Hc by auto.
    destruct (lookup Timed_Out (data (clean_columns df))); simpl in Hc;
      [|discriminate].
    inversion Hc. apply forallb_is_bool_flags.
  - destruct (preprocess_steps_inv _ _ H) as [f [t [s [_ [_ [_ [d [_ ->]]]]]]]].
    split.
    + intros c Hc. unfold finished in Hc.
      rewrite lookup_setitem, lookup_map_column in Hc.
      change (PyStr.eqb Translation_Score Translation_Direction) with false in Hc.
      rewrite str_eqb_refl in Hc.
      destruct (lookup Translation_Score (data d)); simpl in Hc;
        [|discriminate].
      inversion Hc. apply forallb_is_number_to_numeric.
    + eexists. split.
      * unfold finished. rewrite lookup_setitem, str_eqb_refl. reflexivity.
      * apply forallb_is_str_concat_with.
Qed.

Lemma lookup_boolean_index (df : DataFrame) (mask : list bool) (k : str) :
  lookup k (data (boolean_index df mask))
  = option_map (select mask) (lookup k (data df)).
Proof.
  unfold boolean_index. simpl.
  induction (data df) as [|[k0 s0] l IH]; simpl; [reflexivity|].
  destruct (PyStr.eqb k k0); [reflexivity | exact IH].
Qed.

Lemma forallb_select {A} (p : A -> bool) (mask : list bool) (c : list A) :
  forallb p c = true -> forallb p (select mask c) = true.
Proof.
  revert c; induction mask as [|b m IH]; intros [|x c]; simpl; auto.
  rewrite andb_true_iff. intros [Hx Hc].
  destruct b; simpl; [rewrite Hx; simpl|]; auto.
Qed.

Lemma length_select {A} (mask : list bool) (c : list A) :
  List.length c = List.length mask ->
  List.length (select mask c) = count_occ bool_dec mask true.
Proof.
  revert c; induction mask as [|b m IH]; intros [|x c]; simpl;
    try discriminate; auto.
  intros H. destruct b; simpl; rewrite IH by lia; reflexivity.
Qed.

Lemma ready_boolean_index (v : DataFrame) (mask : list bool) :
  ready v -> List.length mask = len v -> ready (boolean_index v mask).
Proof.
  intros [S [Hc [Ht [Hs [dir [Ed Hd]]]]]] Hm.
  assert (Hall : forall p k, column_all p k v ->
                             column_all p k (boolean_index v mask)).
  { intros p k H c Hc'. rewrite lookup_boolean_index in Hc'.
    destruct (lookup k (data v)) as [c0|] eqn:E; simpl in Hc'; [|discriminate].
    inversion Hc'. apply forallb_select, (H c0 E). }
  split; [|repeat split; auto].
  - unfold same_length, boolean_index in *. simpl.
    rewrite Forall_forall in *. intros kv Hin.
    apply in_map_iff in Hin. destruct Hin as [kv0 [<- Hin]]. simpl.
    apply length_select. rewrite (S _ Hin). auto.
  - exists (select mask dir). split.
    + rewrite lookup_boolean_index, Ed. reflexivity.
    + apply forallb_select, Hd.
Qed.

Lemma view_ready (d v : DataFrame) : ready d -> view_of d v -> ready v.
Proof.
  intros R V. induction V as [|v mask V IH Hm]; [exact R|].
  apply ready_boolean_index; auto.
Qed.

(** On such a table [create_summary_stats] returns, and this is what. *)
Lemma create_summary_stats_ready (v : DataFrame) :
  ready v ->
  exists completed timed_out avg,
    sum_or_zero v Completed = Ok completed
    /\ sum_or_zero v Timed_Out = Ok timed_out
    /\ mean_or_zero v = Ok avg
    /\ (0 <= completed <= Q_of_nat (len v))%Q
    /\ (0 <= timed_out <= Q_of_nat (len v))%Q
    /\ create_summary_stats v
       = Ok {| total_translations := len v;
               completed_translations := completed;
               timed_out_translations := timed_out;
               completion_rate := rate completed (len v);
               timeout_rate := rate timed_out (len v);
               avg_score := avg |}.
Proof.
  intros [S [Hc [Ht [Hs _]]]].
  destruct (sum_or_zero_flag v Completed S Hc) as [c [Ec [c0 c1]]].
  destruct (sum_or_zero_flag v Timed_Out S Ht) as [t [Et [t0 t1]]].
  destruct (mean_or_zero_numbers v Hs) as [m Em].
  exists c, t, m. unfold create_summary_stats.
  rewrite Ec, Et, Em. simpl. repeat split; auto.
Qed.

(** C4.  On every table the summary receives -- a preprocessed table,
    filtered or not -- the two rates are the counts over the number of
    rows times 100, they lie between 0 and 100, and they are 0 when the
    table has no row. *)
Theorem rates_between_0_and_100 (df d1 v : DataFrame) :
  well_formed df = true ->
  fst (preprocess_data df) = Some d1 ->
  view_of d1 v ->
  exists st,
    create_summary_stats v = Ok st
    /\ total_translations st = len v
    /\ completion_rate st
       = (if 0 <? total_translations st
          then completed_translations st / Q_of_nat (total_translations st) * 100
          else 0)%Q
    /\ timeout_rate st
       = (if 0 <? total_translations st
          then timed_out_translations st / Q_of_nat (total_translations st) * 100
          else 0)%Q
    /\ (0 <= completion_rate st <= 100)%Q
    /\ (0 <= timeout_rate st <= 100)%Q
    /\ (total_translations st = 0 ->
        completion_rate st = 0%Q /\ timeout_rate st = 0%Q).
Proof.
  intros W H V. apply preprocess_data_Some in H.
  pose proof (view_ready _ _ (preprocessed_ready _ _ W H) V) as R.
  destruct (create_summary_stats_ready v R)
    as [c [t [m [_ [_ [_ [[c0 c1] [[t0 t1] E]]]]]]]].
  eexists. split; [exact E|]. simpl.
  split; [reflexivity|]. split; [reflexivity|]. split; [reflexivity|].
  split; [apply rate_bounds; assumption|].
  split; [apply rate_bounds; assumption|].
  intros Z. unfold rate. rewrite Z. split; reflexivity.
Qed.

(* ================================================================== *)
(** ** Groups by direction *)

Lemma cell_eqb_Str (k : cell) (a : str) :
  cell_eqb k (Str a) = true <-> k = Str a.
Proof.
  destruct k as [|s|q|b|ns|d]; simpl; try (split; [discriminate|congruence]).
  rewrite str_eqb_eq. split; congruence.
Qed.

Lemma cell_eqb_Str_l (a : str) (x : cell) :
  cell_eqb (Str a) x = true <-> x = Str a.
Proof.
  destruct x as [|s|q|b|ns|d]; simpl; try (split; [discriminate|congruence]).
  rewrite str_eqb_eq. split; congruence.
Qed.

Lemma existsb_cell_eqb_Str (a : str) (seen : list cell) :
  existsb (cell_eqb (Str a)) seen = true <-> In (Str a) seen.
Proof.
  rewrite existsb_exists. split.
  - intros [y [Hy E]]. apply cell_eqb_Str_l in E. subst y. exact Hy.
  - intros H. exists (Str a). split; [exact H|]. apply cell_eqb_Str. reflexivity.
Qed.

Lemma unique_from_spec (c : Series) :
  forallb is_str c = true ->
  forall seen,
    NoDup (unique_from seen c)
    /\ (forall x, In x (unique_from seen c) -> In x c /\ ~ In x seen)
    /\ (forall x, In x c -> In x seen \/ In x (unique_from seen c)).
Proof.
  induction c as [|x c IH]; simpl; intros Hs seen.
  - split; [constructor|]. split; [intros x []|intros x []].
  - apply andb_true_iff in Hs. destruct Hs as [Hx Hc].
    destruct x as [|a|q|b|ns|d]; try discriminate. clear Hx.
    cbn [isna orb].
    destruct (existsb (cell_eqb (Str a)) seen) eqn:E.
    + apply existsb_cell_eqb_Str in E.
      destruct (IH Hc seen) as [N [I1 I2]].
      split; [exact N|]. split.
      * intros y Hy. destruct (I1 y Hy). auto.
      * intros y [<-|Hy]; auto.
    + assert (Hn : ~ In (Str a) seen).
      { intros Hin. apply existsb_cell_eqb_Str in Hin. congruence. }
      destruct (IH Hc (Str a :: seen)) as [N [I1 I2]].
      split; [|split].
      * constructor; [|exact N]. intros Hin. destruct (I1 _ Hin) as [_ Hs'].
        apply Hs'. left; reflexivity.
      * intros y [<-|Hy]; [auto|].
        destruct (I1 y Hy) as [H1 H2]. split; [auto|].
        intros H3. apply H2. right; exact H3.
      * intros y [<-|Hy]; [right; left; reflexivity|].
        destruct (I2 y Hy) as [[<-|H1]|H1]; auto.
        -- right; left; reflexivity.
        -- right; right; exact H1.
Qed.

Lemma insert_sorted_perm (c : cell) (l : list cell) :
  Permutation (insert_sorted c l) (c :: l).
Proof.
  induction l as [|x l IH]; simpl; [reflexivity|].
  destruct (cell_leb c x); [reflexivity|].
  rewrite IH. apply perm_swap.
Qed.

Lemma sorted_perm (l : list cell) : Permutation (sorted l) l.
Proof.
  induction l as [|x l IH]; simpl; [reflexivity|].
  rewrite insert_sorted_perm. constructor. exact IH.
Qed.

Lemma list_sum_perm (l l' : list nat) :
  Permutation l l' -> list_sum l = list_sum l'.
Proof. induction 1; simpl; lia. Qed.

Lemma list_sum_map_add {A} (f g : A -> nat) (l : list A) :
  list_sum (List.map (fun a => f a + g a) l)
  = list_sum (List.map f l) + list_sum (List.map g l).
Proof. induction l as [|a l IH]; simpl; lia. Qed.

Lemma hits_absent (a : str) (keys : list cell) :
  ~ In (Str a) keys -> list_sum (List.map (hits (Str a)) keys) = 0.
Proof.
  induction keys as [|k keys IH]; simpl; [reflexivity|].
  intros H. unfold hits at 1.
  destruct (cell_eqb k (Str a)) eqn:E.
  - apply cell_eqb_Str in E. subst k. exfalso. apply H. left; reflexivity.
  - rewrite IH; [reflexivity|]. intros Hin. apply H. right; exact Hin.
Qed.

Lemma hits_once (a : str) (keys : list cell) :
  NoDup keys -> In (Str a) keys ->
  list_sum (List.map (hits (Str a)) keys) = 1.
Proof.
  induction 1 as [|k keys Hk N IH]; simpl; [intros []|].
  intros [->|Hin].
  - unfold hits at 1.
    replace (cell_eqb (Str a) (Str a)) with true
      by (symmetry; apply cell_eqb_Str; reflexivity).
    rewrite hits_absent by exact Hk. reflexivity.
  - unfold hits at 1. destruct (cell_eqb k (Str a)) eqn:E.
    + apply cell_eqb_Str in E. subst k. contradiction.
    + rewrite IH by exact Hin. reflexivity.
Qed.

(** The sizes of the groups add up to the number of rows. *)
Lemma group_sizes (keys : list cell) (c : Series) :
  NoDup keys ->
  (forall x, In x c -> is_str x = true /\ In x keys) ->
  list_sum (List.map (fun key =>
              count_occ bool_dec (List.map (cell_eqb key) c) true) keys)
  = List.length c.
Proof.
  intros N. induction c as [|x c IH]; intros H.
  - clear N H. simpl. induction keys as [|k keys IHk]; simpl; auto.
  - rewrite (map_ext _ (fun key => hits x key +
               count_occ bool_dec (List.map (cell_eqb key) c) true)).
    + rewrite list_sum_map_add, IH by (intros y Hy; apply H; right; exact Hy).
      destruct (H x (or_introl eq_refl)) as [Hs Hin].
      destruct x as [|a|q|b|ns|d]; try discriminate.
      rewrite (hits_once a keys N Hin). reflexivity.
    + intros key. simpl. unfold hits.
      destruct (cell_eqb key x); simpl; reflexivity.
Qed.

Lemma mapM_Forall2 {A B} (f : A -> res B) (P : A -> B -> Prop) (l : list A) :
  (forall a, In a l -> exists b, f a = Ok b /\ P a b) ->
  exists bs, mapM f l = Ok bs /\ Forall2 P l bs.
Proof.
  induction l as [|a l IH]; simpl; intros H.
  - exists []. split; [reflexivity | constructor].
  - destruct (H a (or_introl eq_refl)) as [b [E Pb]].
    destruct IH as [bs [Ebs F]]; [intros a' Ha'; apply H; right; exact Ha'|].
    exists (b :: bs). rewrite E, Ebs. simpl. split; [reflexivity|].
    constructor; assumption.
Qed.

Lemma direction_stats_of_ready (key : cell) (g : DataFrame) :
  ready g ->
  exists r, direction_stats_of (key, g) = Ok r
            /\ Direction r = key /\ Total r = len g.
Proof.
  intros [S [Hc [Ht [Hs _]]]].
  destruct (sum_or_zero_flag g Completed S Hc) as [c [Ec _]].
  destruct (sum_or_zero_flag g Timed_Out S Ht) as [t [Et _]].
  destruct (mean_or_zero_numbers g Hs) as [m Em].
  unfold direction_stats_of. rewrite Ec, Et, Em. simpl.
  eexists. split; [reflexivity|]. split; reflexivity.
Qed.

(** On a table the aggregations receive, the direction breakdown returns
    one row per direction, and the totals add up to the row count. *)
Lemma create_direction_analysis_ready (v : DataFrame) :
  ready v ->
  exists rs, create_direction_analysis v = Ok rs
             /\ list_sum (List.map Total rs) = len v.
Proof.
  intros R. pose proof R as [S [_ [_ [_ [dir [Ed Hd]]]]]].
  pose proof (same_length_lookup _ _ _ S Ed) as Ld.
  unfold create_direction_analysis, groupby, getitem. rewrite Ed. simpl.
  set (groups := List.map _ (sorted (unique dir))).
  destruct (mapM_Forall2 direction_stats_of
              (fun g r => Total r = len (snd g)) groups) as [rs [E F]].
  { intros [key g] Hin. unfold groups in Hin. apply in_map_iff in Hin.
    destruct Hin as [k [Hk _]]. injection Hk as Hk1 Hk2. subst key g.
    destruct (direction_stats_of_ready k
                (boolean_index v (List.map (cell_eqb k) dir))) as [r [Er [_ Tr]]].
    - apply ready_boolean_index; [exact R|]. rewrite length_map. exact Ld.
    - exists r. split; [exact Er | exact Tr]. }
  exists rs. split; [exact E|].
  assert (Hmap : List.map Total rs = List.map (fun g => len (snd g)) groups).
  { clear E. induction F as [|g r gs rs' Hr F IH]; simpl; congruence. }
  rewrite Hmap. unfold groups. rewrite map_map. simpl.
  rewrite (list_sum_perm _ _ (Permutation_map _ (sorted_perm (unique dir)))).
  destruct (unique_from_spec dir Hd []) as [N [_ I2]].
  rewrite group_sizes.
  - exact Ld.
  - exact N.
  - intros x Hx. split.
    + rewrite forallb_forall in Hd. apply Hd, Hx.
    + destruct (I2 x Hx) as [[]|H]. exact H.
Qed.

(** C7.  On a preprocessed table, filtered or not, the [Total] fields of
    the direction breakdown add up to [total_translations]. *)
Theorem direction_totals_add_up (df d1 v : DataFrame) :
  well_formed df = true ->
  fst (preprocess_data df) = Some d1 ->
  view_of d1 v ->
  exists st rs,
    create_summary_stats v = Ok st
    /\ create_direction_analysis v = Ok rs
    /\ list_sum (List.map Total rs) = total_translations st.
Proof.
  intros W H V. apply preprocess_data_Some in H.
  pose proof (view_ready _ _ (preprocessed_ready _ _ W H) V) as R.
  destruct (create_summary_stats_ready v R)
    as [c [t [m [_ [_ [_ [_ [_ E]]]]]]]].
  destruct (create_direction_analysis_ready v R) as [rs [Er Hr]].
  eexists. exists rs. split; [exact E|]. split; [exact Er|]. exact Hr.
Qed.

(* ================================================================== *)
(** ** The date filter *)

Lemma take_rows_select (mask : list bool) (cols : list Series) :
  Forall (fun c => List.length c = List.length mask) cols ->
  take_rows (count_occ bool_dec mask true) (List.map (select mask) cols)
  = select mask (take_rows (List.length mask) cols).
Proof.
  revert cols. induction mask as [|b m IH]; intros cols H; [reflexivity|].
  assert (Htl : Forall (fun c => List.length c = List.length m)
                       (List.map (@tl cell) cols)).
  { rewrite Forall_forall in *. intros c Hc. apply in_map_iff in Hc.
    destruct Hc as [c0 [<- Hc0]]. specialize (H _ Hc0).
    destruct c0; simpl in *; [discriminate | lia]. }
  assert (Hsel : forall b',
    List.map (select (b' :: m)) cols
    = if b' then List.map (fun c => hd NA c :: select m (tl c)) cols
      else List.map (fun c => select m (tl c)) cols).
  { intros b'. destruct b'; apply map_ext_in; intros c Hc;
      rewrite Forall_forall in H; specialize (H _ Hc);
      destruct c; simpl in *; try discriminate; reflexivity. }
  rewrite Hsel. destruct b; simpl.
  - f_equal.
    + rewrite map_map. reflexivity.
    + rewrite map_map. simpl. rewrite <- (map_map (@tl cell) (select m)).
      apply IH, Htl.
  - rewrite <- (map_map (@tl cell) (select m)). apply IH, Htl.
Qed.

(** Filtering a table by a mask keeps the rows the mask marks. *)
Lemma rows_boolean_index (df : DataFrame) (mask : list bool) :
  same_length df -> List.length mask = len df ->
  rows (boolean_index df mask) = select mask (rows df).
Proof.
  intros S Hm. unfold rows, boolean_index. cbn [len data].
  transitivity (take_rows (count_occ bool_dec mask true)
                  (List.map (select mask) (List.map snd (data df)))).
  { f_equal. rewrite !map_map. reflexivity. }
  rewrite <- Hm. apply take_rows_select.
  unfold same_length in S. rewrite Forall_forall in *.
  intros c Hc. apply in_map_iff in Hc. destruct Hc as [kv [<- Hkv]].
  pose proof (S _ Hkv) as E. cbv beta in E. rewrite <- Hm in E. exact E.
Qed.

Lemma and_masks_in_range (lower upper : Z) (ds : Series) :
  and_masks (List.map (date_ge lower) ds) (List.map (date_le upper) ds)
  = List.map (in_range lower upper) ds.
Proof.
  unfold and_masks. induction ds as [|c ds IH]; simpl; [reflexivity|].
  rewrite IH. f_equal. destruct c; reflexivity.
Qed.

(** The timestamp columns of a preprocessed table. *)
Lemma preprocessed_timestamp (df d1 : DataFrame) (t : Series) :
  preprocess_steps df = Ok d1 ->
  lookup Timestamp (data d1) = Some t ->
  forallb is_datetime t = true
  /\ lookup Hour (data d1) = Some (hours t)
  /\ lookup Date_ (data d1) = Some (dates t).
Proof.
  intros H Ht.
  destruct (preprocess_steps_inv _ _ H) as [f [t0 [s [_ [_ [_ [d [Ep ->]]]]]]]].
  unfold finished in *.
  rewrite lookup_setitem, lookup_map_column in Ht.
  change (PyStr.eqb Timestamp Translation_Direction) with false in Ht.
  change (PyStr.eqb Timestamp Translation_Score) with false in Ht.
  cbv iota in Ht.
  rewrite !lookup_setitem, !lookup_map_column.
  change (PyStr.eqb Hour Translation_Direction) with false.
  change (PyStr.eqb Hour Translation_Score) with false.
  change (PyStr.eqb Date_ Translation_Direction) with false.
  change (PyStr.eqb Date_ Translation_Score) with false.
  cbv iota.
  destruct (parse_timestamp_inv _ _ Ep) as [[En ->]|[c [t' [_ [_ [Hd ->]]]]]].
  - congruence.
  - unfold with_timestamp in *. rewrite !lookup_setitem in *.
    change (PyStr.eqb Timestamp Date_) with false in Ht.
    change (PyStr.eqb Timestamp Hour) with false in Ht.
    rewrite str_eqb_refl in Ht. cbv iota in Ht. inversion Ht; subst t'.
    change (PyStr.eqb Hour Date_) with false.
    rewrite !str_eqb_refl. auto.
Qed.

(** C8.  When the date filter applies with a lower and an upper bound,
    the filtered table holds exactly the rows of the preprocessed table
    whose [Date] lies between the bounds, both included; a row without a
    date is left out. *)
Theorem date_filter_keeps_range (df d1 : DataFrame) (lower upper : Z) :
  well_formed df = true ->
  fst (preprocess_data df) = Some d1 ->
  filter_active d1 = true ->
  exists ds,
    getitem d1 Date_ = Ok ds
    /\ List.length ds = len d1
    /\ date_filter [lower; upper] d1
       = Ok (boolean_index d1 (List.map (in_range lower upper) ds))
    /\ rows (boolean_index d1 (List.map (in_range lower upper) ds))
       = select (List.map (in_range lower upper) ds) (rows d1)
    /\ in_range lower upper NA = false
    /\ forall d, in_range lower upper (Date d) = true
                 <-> (lower <= d /\ d <= upper)%Z.
Proof.
  intros W H A. apply preprocess_data_Some in H.
  destruct (preprocessed_shape _ _ W H) as [_ S1].
  unfold filter_active in A.
  destruct (lookup Timestamp (data d1)) as [t|] eqn:Et; [|discriminate].
  destruct (preprocessed_timestamp _ _ _ H Et) as [Hd [_ Ed]].
  pose proof (same_length_lookup _ _ _ S1 Ed) as Ld.
  exists (dates t).
  split; [apply getitem_Ok; exact Ed|].
  split; [exact Ld|].
  split.
  { unfold date_filter, contains, getitem. rewrite Et. simpl bind.
    rewrite A. rewrite (dt_date_Ok _ Hd). simpl bind.
    rewrite and_masks_in_range. reflexivity. }
  split.
  { apply rows_boolean_index; [exact S1|]. rewrite length_map. exact Ld. }
  split; [reflexivity|].
  intros d. simpl. rewrite andb_true_iff, !Z.leb_le. tauto.
Qed.

(* ================================================================== *)
(** ** A second pass *)

Lemma combine_fst_snd {A B} (l : list (A * B)) :
  combine (List.map fst l) (List.map snd l) = l.
Proof. induction l as [|[a b] l IH]; simpl; congruence. Qed.

Lemma map_stable (l : list str) :
  Forall (fun n => clean_name n = n) l -> List.map clean_name l = l.
Proof. induction 1; simpl; congruence. Qed.

Lemma clean_columns_stable (df : DataFrame) :
  Forall (fun n => clean_name n = n) (columns df) -> clean_columns df = df.
Proof.
  intros H. unfold clean_columns, set_columns.
  rewrite (map_stable _ H). unfold columns. rewrite combine_fst_snd.
  destruct df; reflexivity.
Qed.

Lemma stable_setitem (df : DataFrame) (k : str) (s : Series) :
  Forall (fun n => clean_name n = n) (columns df) -> clean_name k = k ->
  Forall (fun n => clean_name n = n) (columns (setitem df k s)).
Proof.
  intros H Hk. unfold columns, setitem. simpl. rewrite columns_update.
  apply Forall_app. split; [exact H|].
  destruct (lookup k (data df)); constructor; [exact Hk | constructor].
Qed.

Lemma stable_map_column (df : DataFrame) (k : str) (f : Series -> Series) :
  Forall (fun n => clean_name n = n) (columns df) -> clean_name k = k ->
  Forall (fun n => clean_name n = n) (columns (map_column k f df)).
Proof.
  intros H Hk. unfold map_column.
  destruct (lookup k (data df)); [apply stable_setitem|]; assumption.
Qed.

Lemma preprocessed_names_stable (df d1 : DataFrame) :
  Forall (fun n => clean_name (clean_name n) = clean_name n) (columns df) ->
  preprocess_steps df = Ok d1 ->
  Forall (fun n => clean_name n = n) (columns d1).
Proof.
  intros Hs H.
  destruct (preprocess_steps_inv _ _ H) as [f [t [s [_ [_ [_ [d [Ep ->]]]]]]]].
  assert (S0 : Forall (fun n => clean_name n = n) (columns (clean_columns df))).
  { rewrite columns_clean_columns. rewrite Forall_forall in *.
    intros n Hn. apply in_map_iff in Hn. destruct Hn as [m [<- Hm]].
    apply Hs, Hm. }
  assert (S1 : Forall (fun n => clean_name n = n)
                 (columns (flags_done (filled f t s (clean_columns df))))).
  { unfold flags_done, filled.
    repeat first [ apply stable_map_column | apply stable_setitem ];
      auto; reflexivity. }
  assert (S2 : Forall (fun n => clean_name n = n) (columns d)).
  { destruct (parse_timestamp_inv _ _ Ep) as [[_ ->]|[c [t' [_ [_ [_ ->]]]]]];
      [exact S1|].
    unfold with_timestamp. repeat apply stable_setitem; auto; reflexivity. }
  unfold finished. apply stable_setitem; [|reflexivity].
  apply stable_map_column; [exact S2 | reflexivity].
Qed.

Lemma fillna_fillna (v : cell) (c : Series) :
  isna v = false -> fillna v (fillna v c) = fillna v c.
Proof.
  intros Hv. unfold fillna. rewrite map_map. apply map_ext.
  intros x. unfold fill. destruct (isna x) eqn:E; [rewrite Hv|rewrite E];
    reflexivity.
Qed.

Lemma flag_of_flag_of (x : cell) : flag_of (flag_of x) = Bool false.
Proof. destruct x; reflexivity. Qed.

Lemma flags_twice (c : Series) :
  fillna (Bool false) (series_map yes_no (List.map flag_of c))
  = List.map (fun _ => Bool false) (List.map flag_of c).
Proof.
  rewrite flags_map, !map_map. apply map_ext. intros x. apply flag_of_flag_of.
Qed.

Lemma to_numeric_cell_idem (x : cell) :
  to_numeric_cell (to_numeric_cell x) = to_numeric_cell x
  /\ is_bool (to_numeric_cell x) = false.
Proof.
  destruct x as [|s|q|b|ns|d]; simpl; auto.
  destruct (parse_numeric s); auto.
Qed.

Lemma to_numeric_converted (c : Series) :
  to_numeric (List.map to_numeric_cell c) = List.map to_numeric_cell c.
Proof.
  destruct c as [|x c]; [reflexivity|].
  unfold to_numeric. simpl.
  destruct (to_numeric_cell_idem x) as [Hx ->]. simpl.
  rewrite Hx, map_map. f_equal. apply map_ext.
  intros y. apply to_numeric_cell_idem.
Qed.

Lemma to_numeric_idem (c : Series) :
  to_numeric (to_numeric c) = to_numeric c.
Proof.
  destruct (forallb is_bool c) eqn:E.
  - assert (H : to_numeric c = c) by (unfold to_numeric; rewrite E; reflexivity).
    rewrite !H. reflexivity.
  - assert (H : to_numeric c = List.map to_numeric_cell c)
      by (unfold to_numeric; rewrite E; reflexivity).
    rewrite H. apply to_numeric_converted.
Qed.

Lemma map_column_ext (k : str) (f g : Series -> Series) (df : DataFrame) :
  (forall c, lookup k (data df) = Some c -> f c = g c) ->
  map_column k f df = map_column k g df.
Proof.
  intros H. unfold map_column.
  destruct (lookup k (data df)) as [c|] eqn:E; [|reflexivity].
  rewrite (H c eq_refl). reflexivity.
Qed.

Lemma map_column_same (k : str) (f : Series -> Series) (df : DataFrame) :
  (forall c, lookup k (data df) = Some c -> f c = c) ->
  map_column k f df = df.
Proof.
  intros H. unfold map_column.
  destruct (lookup k (data df)) as [c|] eqn:E; [|reflexivity].
  rewrite (H c eq_refl). apply setitem_same, E.
Qed.

Lemma all_false_column (c : Series) :
  forallb is_bool c = true -> trues c = 0 ->
  List.map (fun _ => Bool false) c = c.
Proof.
  unfold trues. induction c as [|x c IH]; simpl; [reflexivity|].
  destruct x as [|s|q|b|ns|d]; simpl; try discriminate.
  destruct b; simpl; [discriminate|].
  intros H Z. rewrite IH; auto.
Qed.

(** The columns of a preprocessed table that a second pass reads. *)
Lemma preprocessed_columns (df d1 : DataFrame) :
  preprocess_steps df = Ok d1 ->
  exists f t s,
    lookup From_ (data d1) = Some (fillna (Str Unknown) f)
    /\ lookup To_ (data d1) = Some (fillna (Str Unknown) t)
    /\ lookup Status (data d1) = Some (fillna (Str Unknown) s)
    /\ lookup Translation_Direction (data d1)
       = Some (concat_with arrow (astype_str (fillna (Str Unknown) f))
                                 (astype_str (fillna (Str Unknown) t)))
    /\ (forall c, lookup Translation_Score (data d1) = Some c ->
                  to_numeric c = c)
    /\ (forall k c, k = Completed \/ k = Timed_Out ->
                    lookup k (data d1) = Some c ->
                    exists raw, c = List.map flag_of raw).
Proof.
  intros H.
  destruct (preprocess_steps_inv _ _ H) as [f [t [s [Ef [Et [Es [d [Ep E]]]]]]]].
  exists f, t, s. subst d1.
  split; [|split; [|split; [|split; [|split]]]].
  - unfold finished. look.
    rewrite (parse_timestamp_other _ _ _ Ep) by reflexivity. look. reflexivity.
  - unfold finished. look.
    rewrite (parse_timestamp_other _ _ _ Ep) by reflexivity. look. reflexivity.
  - unfold finished. look.
    rewrite (parse_timestamp_other _ _ _ Ep) by reflexivity. look. reflexivity.
  - unfold finished. look. reflexivity.
  - intros c. unfold finished. look.
    destruct (lookup Translation_Score (data d)); simpl; [|discriminate].
    intros Hc; inversion Hc. apply to_numeric_idem.
  - intros k c Hk Hc.
    rewrite (preprocessed_flag _ _ _ H Hk) in Hc.
    destruct (lookup k (data (clean_columns df))) as [raw|]; simpl in Hc;
      [|discriminate].
    exists raw. congruence.
Qed.

(** C2, amended.  On a table whose cleaned names are unchanged by
    another cleaning, a second pass succeeds and returns the
    preprocessed table with every [Completed] and [Timed Out] value
    false and every other column as it was; it returns the preprocessed
    table itself when that table has no true flag. *)
Theorem second_pass_resets_flags (df d1 : DataFrame) :
  well_formed df = true ->
  Forall (fun n => clean_name (clean_name n) = clean_name n) (columns df) ->
  fst (preprocess_data df) = Some d1 ->
  let d2 := reset_flag Timed_Out (reset_flag Completed d1) in
  preprocess_data d1 = (Some d2, [])
  /\ (forall k, k <> Completed -> k <> Timed_Out ->
                lookup k (data d2) = lookup k (data d1))
  /\ (forall k, k = Completed \/ k = Timed_Out ->
                lookup k (data d2)
                = option_map (List.map (fun _ => Bool false))
                             (lookup k (data d1)))
  /\ ((forall k c, k = Completed \/ k = Timed_Out ->
                   lookup k (data d1) = Some c -> trues c = 0) ->
      preprocess_data d1 = (Some d1, [])).
Proof.
  intros W Hs H d2. apply preprocess_data_Some in H.
  pose proof (preprocessed_names_stable _ _ Hs H) as N1.
  destruct (preprocessed_columns _ _ H)
    as [f [t [s [Ef [Et [Es [Ed [Hsc Hfl]]]]]]]].
  assert (Hother : forall k, k <> Completed -> k <> Timed_Out ->
                             lookup k (data d2) = lookup k (data d1)).
  { intros k H1 H2. unfold d2, reset_flag. rewrite !lookup_map_column.
    apply str_eqb_neq in H1, H2. rewrite H1, H2. reflexivity. }
  assert (Hflag : forall k, k = Completed \/ k = Timed_Out ->
                  lookup k (data d2)
                  = option_map (List.map (fun _ => Bool false))
                               (lookup k (data d1))).
  { intros k [->| ->]; unfold d2, reset_flag; rewrite !lookup_map_column;
      names; reflexivity. }
  assert (Hrun : preprocess_data d1 = (Some d2, [])).
  { unfold preprocess_data.
    assert (E0 : clean_columns d1 = d1) by (apply clean_columns_stable, N1).
    assert (F1 : filled (fillna (Str Unknown) f) (fillna (Str Unknown) t)
                        (fillna (Str Unknown) s) d1 = d1).
    { unfold filled. rewrite !fillna_fillna by reflexivity.
      rewrite (setitem_same d1 From_) by exact Ef.
      rewrite (setitem_same d1 To_) by exact Et.
      apply setitem_same, Es. }
    assert (F2 : flags_done d1 = d2).
    { unfold flags_done, d2, reset_flag.
      rewrite (map_column_ext Completed _ (List.map (fun _ => Bool false))).
      - apply map_column_ext. intros c Hc.
        rewrite lookup_map_column in Hc. names. simpl in Hc.
        destruct (Hfl Timed_Out c (or_intror eq_refl) Hc) as [raw ->].
        apply flags_twice.
      - intros c Hc.
        destruct (Hfl Completed c (or_introl eq_refl) Hc) as [raw ->].
        apply flags_twice. }
    assert (F3 : parse_timestamp d2 = Ok d2).
    { destruct (lookup Timestamp (data d1)) as [ts|] eqn:Ets.
      - destruct (preprocessed_timestamp _ _ _ H Ets) as [Hd [Eh Eda]].
        rewrite (parse_timestamp_present d2 ts)
          by (rewrite Hother by discriminate; exact Ets).
        rewrite (to_datetime_fixes _ Hd), Hd. f_equal.
        unfold with_timestamp.
        rewrite (setitem_same d2 Timestamp)
          by (rewrite Hother by discriminate; exact Ets).
        rewrite (setitem_same d2 Hour)
          by (rewrite Hother by discriminate; exact Eh).
        apply setitem_same. rewrite Hother by discriminate. exact Eda.
      - apply parse_timestamp_absent.
        rewrite Hother by discriminate. exact Ets. }
    rewrite (preprocess_steps_Ok d1 d2 (fillna (Str Unknown) f)
               (fillna (Str Unknown) t) (fillna (Str Unknown) s)).
    - f_equal. f_equal. unfold finished.
      rewrite map_column_same.
      + rewrite !fillna_fillna by reflexivity.
        apply setitem_same. rewrite Hother by discriminate. exact Ed.
      + intros c Hc. rewrite Hother in Hc by discriminate. apply Hsc, Hc.
    - rewrite E0. exact Ef.
    - rewrite E0. exact Et.
    - rewrite E0. exact Es.
    - rewrite E0, F1, F2. exact F3. }
  split; [exact Hrun|]. split; [exact Hother|]. split; [exact Hflag|].
  intros Hz. rewrite Hrun. f_equal. f_equal.
  destruct (preprocessed_ready _ _ W H) as [_ [Bc [Bt _]]].
  unfold d2, reset_flag.
  rewrite (map_column_same Completed).
  - apply map_column_same. intros c Hc.
    apply all_false_column; [apply (Bt c Hc) | apply (Hz Timed_Out c); auto].
  - intros c Hc.
    apply all_false_column; [apply (Bc c Hc) | apply (Hz Completed c); auto].
Qed.

(* ================================================================== *)
(** ** The whole of [main] *)

Lemma length_and_masks (a b : list bool) :
  List.length a = List.length b ->
  List.length (and_masks a b) = List.length a.
Proof.
  intros H. unfold and_masks. rewrite length_map, length_combine. lia.
Qed.

(** On a preprocessed table the date filter returns, whatever the date
    widget holds, and what it returns is the table or a selection of its
    rows. *)
Lemma date_filter_total (df d1 : DataFrame) (date_range : list Z) :
  well_formed df = true -> preprocess_steps df = Ok d1 ->
  exists v, date_filter date_range d1 = Ok v /\ view_of d1 v.
Proof.
  intros W H. destruct (preprocessed_shape _ _ W H) as [_ S1].
  unfold date_filter, contains, getitem.
  destruct (lookup Timestamp (data d1)) as [t|] eqn:Et;
    [|exists d1; split; [reflexivity | apply view_all]].
  destruct (preprocessed_timestamp _ _ _ H Et) as [Hd _].
  pose proof (same_length_lookup _ _ _ S1 Et) as Lt.
  simpl bind. destruct (negb (forallb isna t));
    [|exists d1; split; [reflexivity | apply view_all]].
  rewrite (dt_date_Ok _ Hd). simpl bind.
  destruct date_range as [|a [|b [|c r]]];
    try (exists d1; split; [reflexivity | apply view_all]).
  - eexists. split; [reflexivity|]. apply view_filter; [apply view_all|].
    unfold dates. rewrite !length_map. exact Lt.
  - eexists. split; [reflexivity|]. apply view_filter; [apply view_all|].
    rewrite length_and_masks; unfold dates; rewrite !length_map;
      [exact Lt | reflexivity].
Qed.

Lemma direction_filter_total (v : DataFrame) (selected_direction : str) :
  ready v ->
  exists w, direction_filter selected_direction v = Ok w /\ view_of v w.
Proof.
  intros [S [_ [_ [_ [dir [Ed _]]]]]].
  unfold direction_filter, getitem. rewrite Ed.
  destruct (negb (PyStr.eqb selected_direction All));
    [|exists v; split; [reflexivity | apply view_all]].
  eexists. split; [reflexivity|]. apply view_filter; [apply view_all|].
  rewrite length_map. apply (same_length_lookup _ _ _ S Ed).
Qed.

(** [main] raises nothing on a preprocessed table: both filters and both
    aggregations return. *)
Lemma main_compute_returns (df d1 : DataFrame) (date_range : list Z)
  (selected_direction : str) :
  well_formed df = true -> fst (preprocess_data df) = Some d1 ->
  exists out,
    main_compute (Some d1) date_range selected_direction = Ok out.
Proof.
  intros W H. apply preprocess_data_Some in H.
  unfold main_compute. destruct (len d1 =? 0); [eauto|].
  destruct (date_filter_total _ _ date_range W H) as [v [Ev V]].
  pose proof (view_ready _ _ (preprocessed_ready _ _ W H) V) as Rv.
  destruct (direction_filter_total v selected_direction Rv) as [w [Ew Vw]].
  pose proof (view_ready _ _ Rv Vw) as Rw.
  destruct (create_summary_stats_ready w Rw)
    as [c [t [m [_ [_ [_ [_ [_ Es]]]]]]]].
  destruct (create_direction_analysis_ready w Rw) as [rs [Er _]].
  rewrite Ev. simpl bind. rewrite Ew. simpl bind.
  rewrite Es. simpl bind. rewrite Er. simpl bind. eauto.
Qed.


(* ================================================================== *)
(** ** More on the summary statistics *)

Lemma Q_of_nat_add (n m : nat) :
  (Q_of_nat (n + m) == Q_of_nat n + Q_of_nat m)%Q.
Proof.
  unfold Q_of_nat. rewrite Nat2Z.inj_add, inject_Z_plus. reflexivity.
Qed.

Lemma filter_seq_shift (p : nat -> bool) (start n : nat) :
  List.length (List.filter p (seq (S start) n))
  = List.length (List.filter (fun i => p (S i)) (seq start n)).
Proof.
  revert start. induction n as [|n IH]; intros start; simpl; [reflexivity|].
  destruct (p (S start)); simpl; rewrite IH; reflexivity.
Qed.

Lemma trues_count (c : Series) :
  trues c
  = List.length (List.filter (fun i => is_true (nth i c NA))
                             (seq 0 (List.length c))).
Proof.
  unfold trues. induction c as [|x c IH]; [reflexivity|].
  change (seq 0 (List.length (x :: c))) with (0 :: seq 1 (List.length c)).
  cbn [List.filter]. change (nth 0 (x :: c) NA) with x.
  fold (is_true x).
  destruct (is_true x); cbn [List.length]; rewrite filter_seq_shift;
    cbn [nth]; rewrite IH; reflexivity.
Qed.

(** The number of rows that have flag [k]. *)
Lemma flag_count_rows (df : DataFrame) (k : str) :
  same_length df ->
  match lookup k (data df) with Some c => trues c | None => 0 end
  = count_rows df (flag_at df k).
Proof.
  intros S. unfold count_rows, flag_at.
  destruct (lookup k (data df)) as [c|] eqn:E.
  - rewrite trues_count, (same_length_lookup _ _ _ S E). reflexivity.
  - induction (seq 0 (len df)); simpl; auto.
Qed.

Lemma sum_or_zero_count (df : DataFrame) (k : str) (q : Q) :
  same_length df -> column_all is_bool k df ->
  sum_or_zero df k = Ok q ->
  (q == Q_of_nat (count_rows df (flag_at df k)))%Q.
Proof.
  intros S H. rewrite <- (flag_count_rows df k S).
  unfold sum_or_zero, contains, getitem.
  destruct (lookup k (data df)) as [c|] eqn:E; simpl bind.
  - destruct (series_sum_bools c (H c E)) as [q' [Eq Hq]].
    rewrite Eq. intros Hq'; inversion Hq'; subst. exact Hq.
  - intros Hq; inversion Hq. reflexivity.
Qed.

Lemma create_summary_stats_inv (v : DataFrame) (st : stats) :
  create_summary_stats v = Ok st ->
  total_translations st = len v
  /\ sum_or_zero v Completed = Ok (completed_translations st)
  /\ sum_or_zero v Timed_Out = Ok (timed_out_translations st)
  /\ mean_or_zero v = Ok (avg_score st)
  /\ completion_rate st = rate (completed_translations st) (len v)
  /\ timeout_rate st = rate (timed_out_translations st) (len v).
Proof.
  unfold create_summary_stats.
  destruct (sum_or_zero v Completed) as [c|e]; [|discriminate]. simpl bind.
  destruct (sum_or_zero v Timed_Out) as [t|e]; [|discriminate]. simpl bind.
  destruct (mean_or_zero v) as [m|e]; [|discriminate]. simpl bind.
  intros H; inversion H; simpl. repeat split; reflexivity.
Qed.

(** X1.  On a preprocessed table, filtered or not, [completed_translations]
    is the number of rows whose [Completed] is true and
    [timed_out_translations] the number of rows whose [Timed Out] is
    true (0 for a table without the column); neither exceeds the number
    of rows. *)
Theorem counts_are_numbers_of_rows (df d1 v : DataFrame) (st : stats) :
  well_formed df = true ->
  fst (preprocess_data df) = Some d1 ->
  view_of d1 v ->
  create_summary_stats v = Ok st ->
  (completed_translations st
   == Q_of_nat (count_rows v (flag_at v Completed)))%Q
  /\ (timed_out_translations st
      == Q_of_nat (count_rows v (flag_at v Timed_Out)))%Q
  /\ count_rows v (flag_at v Completed) <= total_translations st
  /\ count_rows v (flag_at v Timed_Out) <= total_translations st.
Proof.
  intros W H V E. apply preprocess_data_Some in H.
  destruct (view_ready _ _ (preprocessed_ready _ _ W H) V)
    as [S [Hc [Ht _]]].
  destruct (create_summary_stats_inv _ _ E) as [Et [Ec [Eo _]]].
  split; [apply (sum_or_zero_count _ _ _ S Hc Ec)|].
  split; [apply (sum_or_zero_count _ _ _ S Ht Eo)|].
  rewrite Et. unfold count_rows.
  split; (etransitivity; [apply filter_length_le | rewrite length_seq; auto]).
Qed.

Lemma count_split (a b : nat -> bool) (l : list nat) :
  List.length (List.filter a l) + List.length (List.filter b l)
  + List.length (List.filter (fun i => negb (a i) && negb (b i)) l)
  = List.length l + List.length (List.filter (fun i => a i && b i) l).
Proof.
  induction l as [|i l IH]; simpl; [reflexivity|].
  destruct (a i), (b i); simpl; lia.
Qed.

(** X2.  The third slice of the pie chart, [Other], is the number of
    rows with neither flag minus the number of rows with both flags: it
    is negative when more rows are both completed and timed out than
    are neither.  The three slices add up to the number of rows. *)
Theorem pie_other_slice (df d1 v : DataFrame) (st : stats) :
  well_formed df = true ->
  fst (preprocess_data df) = Some d1 ->
  view_of d1 v ->
  create_summary_stats v = Ok st ->
  let neither :=
    count_rows v (fun i => negb (flag_at v Completed i)
                           && negb (flag_at v Timed_Out i)) in
  let both :=
    count_rows v (fun i => flag_at v Completed i && flag_at v Timed_Out i) in
  exists completed timed_out other,
    pie_values st = [completed; timed_out; other]
    /\ (other == Q_of_nat neither - Q_of_nat both)%Q
    /\ (completed + timed_out + other == Q_of_nat (len v))%Q
    /\ (both = 0 -> (0 <= other)%Q).
Proof.
  intros W H V E neither both. apply preprocess_data_Some in H.
  destruct (view_ready _ _ (preprocessed_ready _ _ W H) V)
    as [S [Hc [Ht _]]].
  destruct (create_summary_stats_inv _ _ E) as [Et [Ec [Eo _]]].
  pose proof (sum_or_zero_count _ _ _ S Hc Ec) as Qc.
  pose proof (sum_or_zero_count _ _ _ S Ht Eo) as Qt.
  pose proof (count_split (flag_at v Completed) (flag_at v Timed_Out)
                (seq 0 (len v))) as Hn.
  rewrite length_seq in Hn.
  assert (HQ : (Q_of_nat (count_rows v (flag_at v Completed))
                + Q_of_nat (count_rows v (flag_at v Timed_Out))
                + Q_of_nat neither == Q_of_nat (len v) + Q_of_nat both)%Q).
  { rewrite <- !Q_of_nat_add. unfold neither, both, count_rows.
    rewrite Hn. reflexivity. }
  eexists _, _, _. split; [reflexivity|].
  rewrite Et.
  split; [lra|]. split; [lra|].
  intros Hb. rewrite Hb in HQ.
  pose proof (Q_of_nat_nonneg neither). change (Q_of_nat 0) with 0%Q in HQ. lra.
Qed.




Lemma empty_columns (v : DataFrame) (k : str) (c : Series) :
  same_length v -> len v = 0 -> lookup k (data v) = Some c -> c = [].
Proof.
  intros S Z E. pose proof (same_length_lookup _ _ _ S E) as L.
  rewrite Z in L. destruct c; [reflexivity | discriminate].
Qed.

(** X4.  When the filters leave no row, the aggregations still return:
    all counts and both rates are 0, [avg_score] is NaN if the table has
    a score column and 0 if not, the direction breakdown is empty, and
    no histogram is drawn. *)
Theorem nothing_left_after_filtering (df d1 v : DataFrame) :
  well_formed df = true ->
  fst (preprocess_data df) = Some d1 ->
  view_of d1 v ->
  len v = 0 ->
  create_summary_stats v
  = Ok {| total_translations := 0;
          completed_translations := 0;
          timed_out_translations := 0;
          completion_rate := 0;
          timeout_rate := 0;
          avg_score := if contains v Translation_Score then NaN else Some 0%Q |}
  /\ create_direction_analysis v = Ok []
  /\ histogram_scores v = Ok None.
Proof.
  intros W H V Z. apply preprocess_data_Some in H.
  destruct (view_ready _ _ (preprocessed_ready _ _ W H) V)
    as [S [_ [_ [_ [dir [Ed _]]]]]].
  assert (Hsum : forall k, sum_or_zero v k = Ok 0%Q).
  { intros k. unfold sum_or_zero, contains, getitem.
    destruct (lookup k (data v)) as [c|] eqn:E; [|reflexivity].
    rewrite (empty_columns _ _ _ S Z E). reflexivity. }
  split; [|split].
  - unfold create_summary_stats. rewrite !Hsum. simpl bind.
    unfold mean_or_zero, contains, getitem. rewrite Z.
    destruct (lookup Translation_Score (data v)) as [c|] eqn:E;
      [rewrite (empty_columns _ _ _ S Z E)|]; reflexivity.
  - unfold create_direction_analysis, groupby, getitem. rewrite Ed.
    rewrite (empty_columns _ _ _ S Z Ed). reflexivity.
  - unfold histogram_scores, contains, getitem.
    destruct (lookup Translation_Score (data v)) as [c|] eqn:E;
      [rewrite (empty_columns _ _ _ S Z E)|]; reflexivity.
Qed.

(* ================================================================== *)
(** ** More on the direction breakdown *)






Lemma mapM_inv {A B} (f : A -> res B) (l : list A) (bs : list B) :
  mapM f l = Ok bs -> Forall2 (fun a b => f a = Ok b) l bs.
Proof.
  revert bs. induction l as [|a l IH]; simpl; intros bs H.
  - inversion H. constructor.
  - destruct (f a) as [b|e] eqn:E; [|discriminate]. simpl in H.
    destruct (mapM f l) as [bs'|e]; [|discriminate]. simpl in H.
    inversion H. constructor; auto.
Qed.

Lemma create_direction_analysis_inv (v : DataFrame) (rs : list direction_row) :
  create_direction_analysis v = Ok rs ->
  exists dir,
    lookup Translation_Direction (data v) = Some dir
    /\ Forall2 (fun key r =>
         direction_stats_of
           (key, boolean_index v (List.map (cell_eqb key) dir)) = Ok r)
         (sorted (unique dir)) rs.
Proof.
  unfold create_direction_analysis, groupby, getitem.
  destruct (lookup Translation_Direction (data v)) as [dir|]; [|discriminate].
  simpl bind. intros H. exists dir. split; [reflexivity|].
  apply mapM_inv in H.
  remember (sorted (unique dir)) as keys. clear Heqkeys.
  revert rs H. induction keys as [|k keys IH]; intros rs H; inversion H; subst.
  - constructor.
  - constructor; auto.
Qed.

Lemma direction_stats_of_inv (key : cell) (g : DataFrame) (r : direction_row) :
  direction_stats_of (key, g) = Ok r ->
  Direction r = key /\ Total r = len g
  /\ sum_or_zero g Completed = Ok (Completed_count r)
  /\ sum_or_zero g Timed_Out = Ok (Timed_Out_count r)
  /\ Completion_Rate r = rounded_rate (Completed_count r) (len g)
  /\ Timeout_Rate r = rounded_rate (Timed_Out_count r) (len g)
  /\ exists avg, mean_or_zero g = Ok avg
       /\ Avg_Score r = match avg with Some a => py_round a 2 | None => 0%Q end.
Proof.
  unfold direction_stats_of.
  destruct (sum_or_zero g Completed) as [c|e]; [|discriminate]. simpl bind.
  destruct (sum_or_zero g Timed_Out) as [t|e]; [|discriminate]. simpl bind.
  destruct (mean_or_zero g) as [m|e]; [|discriminate]. simpl bind.
  intros H; inversion H; simpl. repeat split; eauto.
Qed.





Lemma str_leb_total (a b : str) :
  PyStr.leb a b = false -> PyStr.leb b a = true.
Proof.
  revert b; induction a as [|x a IH]; intros [|y b]; simpl;
    try discriminate; auto.
  destruct (N.ltb_spec x y) as [L|L]; [discriminate|].
  destruct (N.eqb_spec x y) as [E|E].
  - subst y. rewrite N.ltb_irrefl, N.eqb_refl. apply IH.
  - intros _. destruct (N.ltb_spec y x) as [L'|L']; [reflexivity|]. lia.
Qed.

Lemma HdRel_insert_sorted (x c : cell) (l : list cell) :
  cell_leb x c = true ->
  HdRel (fun a b => cell_leb a b = true) x l ->
  HdRel (fun a b => cell_leb a b = true) x (insert_sorted c l).
Proof.
  intros Hx H. destruct l as [|y l]; simpl.
  - constructor. exact Hx.
  - destruct (cell_leb c y); constructor; [exact Hx|].
    inversion H; assumption.
Qed.

Lemma insert_sorted_Sorted (a : str) (l : list cell) :
  forallb is_str l = true ->
  Sorted (fun a b => cell_leb a b = true) l ->
  Sorted (fun a b => cell_leb a b = true) (insert_sorted (Str a) l).
Proof.
  induction l as [|x l IH]; simpl; intros Hs H.
  - repeat constructor.
  - apply andb_true_iff in Hs. destruct Hs as [Hx Hl].
    destruct x as [|b|q|b|ns|d]; try discriminate.
    inversion H as [|? ? Hsorted Hhd]; subst.
    simpl. destruct (PyStr.leb a b) eqn:E.
    + constructor; [exact H|]. constructor. exact E.
    + constructor; [apply IH; assumption|].
      apply HdRel_insert_sorted; [|exact Hhd].
      simpl. apply str_leb_total, E.
Qed.

Lemma forallb_is_str_insert (c : cell) (l : list cell) :
  is_str c = true -> forallb is_str l = true ->
  forallb is_str (insert_sorted c l) = true.
Proof.
  intros Hc. induction l as [|x l IH]; simpl; intros H.
  - rewrite Hc. reflexivity.
  - apply andb_true_iff in H. destruct H as [Hx Hl].
    destruct (cell_leb c x); simpl; rewrite ?Hc, ?Hx, ?Hl, ?IH; auto.
Qed.

Lemma sorted_Sorted (l : list cell) :
  forallb is_str l = true ->
  forallb is_str (sorted l) = true
  /\ Sorted (fun a b => cell_leb a b = true) (sorted l).
Proof.
  induction l as [|x l IH]; simpl; intros H.
  - split; [reflexivity | constructor].
  - apply andb_true_iff in H. destruct H as [Hx Hl].
    destruct (IH Hl) as [I1 I2]. split.
    + apply forallb_is_str_insert; assumption.
    + destruct x as [|a|q|b|ns|d]; try discriminate.
      apply insert_sorted_Sorted; assumption.
Qed.

Lemma Sorted_NoDup_before (l : list cell) :
  Sorted (fun a b => cell_leb a b = true) l -> NoDup l -> Sorted before l.
Proof.
  induction 1 as [|x l Hs IH Hhd]; intros N; constructor.
  - apply IH. inversion N; assumption.
  - inversion N as [|? ? Hx _]; subst.
    destruct Hhd as [|y l Hxy]; constructor.
    split; [exact Hxy|]. intros ->. apply Hx. left; reflexivity.
Qed.

Lemma forallb_is_str_unique (dir : Series) :
  forallb is_str dir = true -> forallb is_str (unique dir) = true.
Proof.
  intros H. destruct (unique_from_spec dir H []) as [_ [I1 _]].
  rewrite forallb_forall in *. intros x Hx. apply H. apply (I1 x Hx).
Qed.

Lemma directions_of_rows (keys : list cell) (v : DataFrame) (dir : Series)
  (rs : list direction_row) :
  Forall2 (fun key r =>
    direction_stats_of
      (key, boolean_index v (List.map (cell_eqb key) dir)) = Ok r) keys rs ->
  List.map Direction rs = keys.
Proof.
  induction 1 as [|k r keys rs Hr F IH]; simpl; [reflexivity|].
  destruct (direction_stats_of_inv _ _ _ Hr) as [-> _]. rewrite IH.
  reflexivity.
Qed.

(** X6.  The direction breakdown has one row for each direction that
    occurs in the table and no other, no direction twice, in increasing
    order of the direction label (strings compare by code point). *)
Theorem direction_rows_sorted (df d1 v : DataFrame)
  (rs : list direction_row) (dir : Series) :
  well_formed df = true ->
  fst (preprocess_data df) = Some d1 ->
  view_of d1 v ->
  create_direction_analysis v = Ok rs ->
  lookup Translation_Direction (data v) = Some dir ->
  (forall k, In k (List.map Direction rs) <-> In k dir)
  /\ NoDup (List.map Direction rs)
  /\ Sorted before (List.map Direction rs)
  /\ (forall a b, before (Str a) (Str b)
                  <-> PyStr.leb a b = true /\ a <> b).
Proof.
  intros W H V E Ed. apply preprocess_data_Some in H.
  pose proof (view_ready _ _ (preprocessed_ready _ _ W H) V)
    as [_ [_ [_ [_ [dir' [Ed' Hd]]]]]].
  rewrite Ed in Ed'. inversion Ed'; subst dir'. clear Ed'.
  destruct (create_direction_analysis_inv _ _ E) as [dir' [Ed' F]].
  rewrite Ed in Ed'. inversion Ed'; subst dir'. clear Ed'.
  rewrite (directions_of_rows _ _ _ _ F).
  destruct (unique_from_spec dir Hd []) as [N [I1 I2]].
  fold (unique dir) in N, I1, I2.
  assert (Np : NoDup (sorted (unique dir)))
    by (apply (Permutation_NoDup (Permutation_sym (sorted_perm _))), N).
  split; [|split; [exact Np|split]].
  - intros k. split.
    + intros Hk. apply (Permutation_in _ (sorted_perm _)) in Hk.
      apply (I1 k Hk).
    + intros Hk. apply (Permutation_in _ (Permutation_sym (sorted_perm _))).
      destruct (I2 k Hk) as [[]|Hu]. exact Hu.
  - apply Sorted_NoDup_before; [|exact Np].
    apply sorted_Sorted, forallb_is_str_unique, Hd.
  - intros a b. unfold before. simpl. split; intros [H1 H2]; split; auto;
      congruence.
Qed.

Lemma list_sum_zero {A} (l : list A) :
  list_sum (List.map (fun _ => 0) l) = 0.
Proof. induction l; simpl; auto. Qed.

Lemma list_sum_map_scale {A} (w : nat) (f : A -> nat) (l : list A) :
  list_sum (List.map (fun a => w * f a) l) = w * list_sum (List.map f l).
Proof. induction l as [|a l IH]; simpl; lia. Qed.

Lemma trues_cons (x : cell) (c : Series) :
  trues (x :: c) = (if is_true x then 1 else 0) + trues c.
Proof.
  unfold trues. simpl. fold (is_true x). destruct (is_true x); reflexivity.
Qed.

(** Over the groups, the numbers of set flags add up to the number of
    set flags of the table. *)
Lemma group_trues (keys : list cell) (dir c : Series) :
  NoDup keys ->
  (forall x, In x dir -> is_str x = true /\ In x keys) ->
  List.length c = List.length dir ->
  list_sum (List.map (fun key =>
              trues (select (List.map (cell_eqb key) dir) c)) keys)
  = trues c.
Proof.
  intros N. revert c. induction dir as [|d dir IH]; intros c H L.
  - destruct c; [|discriminate]. simpl. apply list_sum_zero.
  - destruct c as [|x c]; [discriminate|].
    rewrite (map_ext _ (fun key =>
               (if is_true x then 1 else 0) * hits d key
               + trues (select (List.map (cell_eqb key) dir) c))).
    + rewrite list_sum_map_add, list_sum_map_scale, IH;
        [|intros y Hy; apply H; right; exact Hy | simpl in L; lia].
      destruct (H d (or_introl eq_refl)) as [Hs Hin].
      destruct d as [|a|q|b|ns|dd]; try discriminate.
      rewrite (hits_once a keys N Hin), trues_cons. lia.
    + intros key. simpl. unfold hits.
      destruct (cell_eqb key d); [rewrite trues_cons|]; simpl; lia.
Qed.

Lemma Qsum_of_counts (f : cell -> nat) (count : direction_row -> Q)
  (keys : list cell) (rs : list direction_row) :
  Forall2 (fun key r => (count r == Q_of_nat (f key))%Q) keys rs ->
  (Qsum (List.map count rs) == Q_of_nat (list_sum (List.map f keys)))%Q.
Proof.
  induction 1 as [|k r keys rs Hr F IH]; simpl.
  - reflexivity.
  - rewrite Q_of_nat_add, Hr. fold (Qsum (List.map count rs)).
    rewrite IH. reflexivity.
Qed.

Lemma group_flag_counts (v : DataFrame) (dir : Series) (k : str)
  (count : direction_row -> Q) (keys : list cell) (rs : list direction_row) :
  ready v -> lookup Translation_Direction (data v) = Some dir ->
  k = Completed \/ k = Timed_Out ->
  Forall2 (fun key r =>
    sum_or_zero (boolean_index v (List.map (cell_eqb key) dir)) k
    = Ok (count r)) keys rs ->
  Forall2 (fun key r =>
    (count r == Q_of_nat
       match lookup k (data v) with
       | Some c => trues (select (List.map (cell_eqb key) dir) c)
       | None => 0%nat
       end)%Q) keys rs.
Proof.
  intros R Ed Hk F. pose proof R as [S _].
  pose proof (same_length_lookup _ _ _ S Ed) as Ld.
  induction F as [|key r keys rs Hr F IH]; constructor; [|exact IH].
  assert (Rg : ready (boolean_index v (List.map (cell_eqb key) dir))).
  { apply ready_boolean_index; [exact R|]. rewrite length_map. exact Ld. }
  destruct Rg as [Sg [Hc [Ht _]]].
  assert (Hb : column_all is_bool k
                 (boolean_index v (List.map (cell_eqb key) dir)))
    by (destruct Hk as [-> | ->]; assumption).
  pose proof (sum_or_zero_count _ _ _ Sg Hb Hr) as Hq.
  rewrite <- (flag_count_rows _ k Sg), lookup_boolean_index in Hq.
  destruct (lookup k (data v)); exact Hq.
Qed.

Lemma flag_total (v : DataFrame) (k : str) (q : Q) (dir : Series) :
  ready v -> lookup Translation_Direction (data v) = Some dir ->
  k = Completed \/ k = Timed_Out ->
  sum_or_zero v k = Ok q ->
  (q == Q_of_nat
     (list_sum (List.map (fun key =>
        match lookup k (data v) with
        | Some c => trues (select (List.map (cell_eqb key) dir) c)
        | None => 0%nat
        end) (sorted (unique dir)))))%Q.
Proof.
  intros R Ed Hk Eq. pose proof R as [S [Hc [Ht [_ [dir' [Ed' Hd]]]]]].
  rewrite Ed in Ed'. inversion Ed'; subst dir'. clear Ed'.
  assert (Hb : column_all is_bool k v)
    by (destruct Hk as [-> | ->]; assumption).
  pose proof (sum_or_zero_count _ _ _ S Hb Eq) as Hq.
  rewrite <- (flag_count_rows _ k S) in Hq. rewrite Hq.
  destruct (lookup k (data v)) as [c|] eqn:Ec.
  - rewrite (list_sum_perm _ _ (Permutation_map _ (sorted_perm (unique dir)))).
    destruct (unique_from_spec dir Hd []) as [N [_ I2]].
    rewrite group_trues; [reflexivity | exact N | |].
    + intros x Hx. split.
      * rewrite forallb_forall in Hd. apply Hd, Hx.
      * destruct (I2 x Hx) as [[]|Hu]. exact Hu.
    + rewrite (same_length_lookup _ _ _ S Ec).
      symmetry. apply (same_length_lookup _ _ _ S Ed).
  - rewrite list_sum_zero. reflexivity.
Qed.

(** X7.  Over the rows of the direction breakdown, the [Completed]
    counts add up to [completed_translations] and the [Timed Out] counts
    to [timed_out_translations] of the same table. *)
Theorem direction_counts_add_up (df d1 v : DataFrame) (st : stats)
  (rs : list direction_row) :
  well_formed df = true ->
  fst (preprocess_data df) = Some d1 ->
  view_of d1 v ->
  create_summary_stats v = Ok st ->
  create_direction_analysis v = Ok rs ->
  (Qsum (List.map Completed_count rs) == completed_translations st)%Q
  /\ (Qsum (List.map Timed_Out_count rs) == timed_out_translations st)%Q.
Proof.
  intros W H V Es Er. apply preprocess_data_Some in H.
  pose proof (view_ready _ _ (preprocessed_ready _ _ W H) V) as R.
  destruct (create_direction_analysis_inv _ _ Er) as [dir [Ed F]].
  destruct (create_summary_stats_inv _ _ Es) as [_ [Ec [Eo _]]].
  split.
  - rewrite (flag_total _ _ _ _ R Ed (or_introl eq_refl) Ec).
    apply (Qsum_of_counts (fun key =>
             match lookup Completed (data v) with
             | Some c => trues (select (List.map (cell_eqb key) dir) c)
             | None => 0
             end)).
    apply (group_flag_counts _ _ _ _ _ _ R Ed (or_introl eq_refl)).
    clear Er. induction F as [|k r keys rs' Hr F IH]; constructor; auto.
    apply (direction_stats_of_inv _ _ _ Hr).
  - rewrite (flag_total _ _ _ _ R Ed (or_intror eq_refl) Eo).
    apply (Qsum_of_counts (fun key =>
             match lookup Timed_Out (data v) with
             | Some c => trues (select (List.map (cell_eqb key) dir) c)
             | None => 0
             end)).
    apply (group_flag_counts _ _ _ _ _ _ R Ed (or_intror eq_refl)).
    clear Er. induction F as [|k r keys rs' Hr F IH]; constructor; auto.
    apply (direction_stats_of_inv _ _ _ Hr).
Qed.

(* ================================================================== *)
(** ** The direction filter *)

Lemma In_select {A} (mask : list bool) (l : list A) (x : A) :
  In x (select mask l) -> In x l.
Proof.
  revert l; induction mask as [|b m IH]; intros [|y l]; simpl; try tauto.
  destruct b; simpl; intros H.
  - destruct H as [H|H]; auto.
  - right. apply IH, H.
Qed.

(** A column of a filtered table holds values of the same column of the
    table it was filtered from. *)
Lemma view_column (d v : DataFrame) (k : str) (c : Series) :
  view_of d v -> lookup k (data v) = Some c ->
  exists c0, lookup k (data d) = Some c0 /\ incl c c0.
Proof.
  intros V. revert c. induction V as [|v mask V IH Hm]; intros c Hc.
  - exists c. split; [exact Hc | apply incl_refl].
  - rewrite lookup_boolean_index in Hc.
    destruct (lookup k (data v)) as [c1|] eqn:E; simpl in Hc; [|discriminate].
    inversion Hc; subst c.
    destruct (IH c1 eq_refl) as [c0 [E0 I0]].
    exists c0. split; [exact E0|].
    intros x Hx. apply I0. apply (In_select _ _ _ Hx).
Qed.

Lemma In_concat_with (sep : str) (a b : list str) (x : cell) :
  In x (concat_with sep a b) -> exists p q, x = Str ((p ++ sep) ++ q).
Proof.
  unfold concat_with. intros H. apply in_map_iff in H.
  destruct H as [[p q] [<- _]]. exists p, q. reflexivity.
Qed.

(** Every direction of a preprocessed table, filtered or not, has the
    arrow in it. *)
Lemma direction_has_arrow (df d1 v : DataFrame) (dir : Series) (x : cell) :
  preprocess_steps df = Ok d1 -> view_of d1 v ->
  lookup Translation_Direction (data v) = Some dir -> In x dir ->
  exists p q, x = Str ((p ++ arrow) ++ q).
Proof.
  intros H V Ed Hx.
  destruct (view_column _ _ _ _ V Ed) as [dir1 [E1 I1]].
  destruct (preprocessed_columns _ _ H) as [f [t [s [_ [_ [_ [Ed1 _]]]]]]].
  rewrite Ed1 in E1. inversion E1; subst dir1.
  apply (In_concat_with _ _ _ _ (I1 x Hx)).
Qed.

Lemma arrow_not_in_All (p q : str) : (p ++ arrow) ++ q <> All.
Proof.
  intros E.
  assert (H : In 8594%N ((p ++ arrow) ++ q)).
  { apply in_or_app. left. apply in_or_app. right. simpl. auto. }
  rewrite E in H. vm_compute in H. intuition discriminate.
Qed.

(** X8.  [All] is never the direction of a row, so the entry [All] of
    the select box cannot be taken for a direction: the box offers [All]
    first and then every direction of the table once, in increasing
    order, and no entry twice. *)
Theorem all_is_not_a_direction (df d1 v : DataFrame) (dir : Series) :
  well_formed df = true ->
  fst (preprocess_data df) = Some d1 ->
  view_of d1 v ->
  lookup Translation_Direction (data v) = Some dir ->
  ~ In (Str All) dir
  /\ exists rest,
       direction_options v = Ok (Str All :: rest)
       /\ NoDup (Str All :: rest)
       /\ Sorted before rest
       /\ (forall k, In k rest <-> In k dir).
Proof.
  intros W H V Ed. apply preprocess_data_Some in H.
  pose proof (view_ready _ _ (preprocessed_ready _ _ W H) V)
    as [_ [_ [_ [_ [dir' [Ed' Hd]]]]]].
  rewrite Ed in Ed'. inversion Ed'; subst dir'. clear Ed'.
  assert (Hno : ~ In (Str All) dir).
  { intros Hin.
    destruct (direction_has_arrow _ _ _ _ _ H V Ed Hin) as [p [q E]].
    inversion E as [E']. symmetry in E'. apply (arrow_not_in_All _ _ E'). }
  split; [exact Hno|].
  exists (sorted (unique dir)).
  unfold direction_options, getitem. rewrite Ed. simpl bind.
  split; [reflexivity|].
  destruct (unique_from_spec dir Hd []) as [N [I1 I2]].
  fold (unique dir) in N, I1, I2.
  assert (Np : NoDup (sorted (unique dir)))
    by (apply (Permutation_NoDup (Permutation_sym (sorted_perm _))), N).
  assert (Hiff : forall k, In k (sorted (unique dir)) <-> In k dir).
  { intros k. split.
    - intros Hk. apply (Permutation_in _ (sorted_perm _)) in Hk.
      apply (I1 k Hk).
    - intros Hk. apply (Permutation_in _ (Permutation_sym (sorted_perm _))).
      destruct (I2 k Hk) as [[]|Hu]. exact Hu. }
  split; [|split; [|exact Hiff]].
  - constructor; [|exact Np]. intros Hin. apply Hno, Hiff, Hin.
  - apply Sorted_NoDup_before; [|exact Np].
    apply sorted_Sorted, forallb_is_str_unique, Hd.
Qed.

Lemma select_map_filter {A} (p : A -> bool) (l : list A) :
  select (List.map p l) l = List.filter p l.
Proof.
  induction l as [|x l IH]; simpl; [reflexivity|].
  destruct (p x); rewrite IH; reflexivity.
Qed.

Lemma filter_eq_Str (s : str) (dir : Series) :
  List.filter (fun x => cell_eqb x (Str s)) dir
  = repeat (Str s)
      (count_occ bool_dec (List.map (fun x => cell_eqb x (Str s)) dir) true).
Proof.
  induction dir as [|x dir IH]; simpl; [reflexivity|].
  destruct (cell_eqb x (Str s)) eqn:E.
  - apply cell_eqb_Str in E. subst x.
    destruct (bool_dec true true) as [_|N]; [|congruence].
    simpl. rewrite IH. reflexivity.
  - destruct (bool_dec false true) as [N|_]; [discriminate|]. exact IH.
Qed.

Lemma unique_from_seen (s : str) (n : nat) (seen : list cell) :
  In (Str s) seen -> unique_from seen (repeat (Str s) n) = [].
Proof.
  intros H. induction n as [|n IH]; simpl; [reflexivity|].
  replace (existsb (cell_eqb (Str s)) seen) with true
    by (symmetry; apply existsb_cell_eqb_Str, H).
  exact IH.
Qed.

Lemma unique_repeat (s : str) (n : nat) :
  unique (repeat (Str s) (S n)) = [Str s].
Proof.
  unfold unique. simpl. rewrite unique_from_seen; [reflexivity|].
  left; reflexivity.
Qed.

Lemma mask_repeat (s : str) (n : nat) :
  List.map (cell_eqb (Str s)) (repeat (Str s) n) = repeat true n.
Proof.
  induction n as [|n IH]; simpl; [reflexivity|].
  rewrite str_eqb_refl, IH. reflexivity.
Qed.

Lemma count_occ_repeat_true (n : nat) :
  count_occ bool_dec (repeat true n) true = n.
Proof.
  induction n as [|n IH]; simpl; [reflexivity|].
  destruct (bool_dec true true); [rewrite IH; reflexivity | congruence].
Qed.

(** X9.  Selecting a direction of the table keeps exactly the rows of
    that direction and leaves at least one; the direction breakdown of
    the result is a single row, for that direction, whose [Total] is the
    number of rows kept.  Selecting [All] keeps the table as it is. *)
Theorem selected_direction_only (df d1 v : DataFrame) (dir : Series)
  (s : str) :
  well_formed df = true ->
  fst (preprocess_data df) = Some d1 ->
  view_of d1 v ->
  lookup Translation_Direction (data v) = Some dir ->
  In (Str s) dir ->
  direction_filter_by (Str All) v = Ok v
  /\ exists w r,
       direction_filter_by (Str s) v = Ok w
       /\ direction_filter s v = Ok w
       /\ rows w = select (List.map (fun x => cell_eqb x (Str s)) dir) (rows v)
       /\ lookup Translation_Direction (data w) = Some (repeat (Str s) (len w))
       /\ 1 <= len w
       /\ create_direction_analysis w = Ok [r]
       /\ Direction r = Str s /\ Total r = len w.
Proof.
  intros W H V Ed Hin.
  split; [reflexivity|].
  apply preprocess_data_Some in H.
  pose proof (view_ready _ _ (preprocessed_ready _ _ W H) V) as R.
  pose proof R as [S _].
  pose proof (same_length_lookup _ _ _ S Ed) as Ld.
  assert (Hs : PyStr.eqb s All = false).
  { apply str_eqb_neq. intros ->.
    destruct (direction_has_arrow _ _ _ _ _ H V Ed Hin) as [p [q E]].
    inversion E as [E']. symmetry in E'. apply (arrow_not_in_All _ _ E'). }
  set (mask := List.map (fun x => cell_eqb x (Str s)) dir).
  set (w := boolean_index v mask).
  assert (Lm : List.length mask = len v)
    by (unfold mask; rewrite length_map; exact Ld).
  assert (Rw : ready w) by (apply ready_boolean_index; assumption).
  assert (Edw : lookup Translation_Direction (data w)
                = Some (repeat (Str s) (len w))).
  { unfold w. rewrite lookup_boolean_index, Ed. simpl. f_equal.
    unfold mask. rewrite select_map_filter. apply filter_eq_Str. }
  assert (Hpos : 1 <= len w).
  { unfold w. simpl. apply (count_occ_In bool_dec).
    unfold mask. apply in_map_iff. exists (Str s). split; [|exact Hin].
    apply cell_eqb_Str. reflexivity. }
  destruct (direction_stats_of_ready (Str s)
              (boolean_index w (repeat true (len w)))) as [r [Er [Dr Tr]]].
  { apply ready_boolean_index; [exact Rw|]. apply repeat_length. }
  exists w, r.
  split; [|split; [|split; [|split; [|split; [|split; [|split]]]]]].
  - unfold direction_filter_by, getitem. simpl cell_eqb. rewrite Hs, Ed.
    reflexivity.
  - unfold direction_filter, getitem. rewrite Hs, Ed. reflexivity.
  - apply rows_boolean_index; assumption.
  - exact Edw.
  - exact Hpos.
  - unfold create_direction_analysis, groupby, getitem. rewrite Edw.
    cbn [bind].
    destruct (len w) as [|n] eqn:En; [lia|].
    rewrite unique_repeat. cbn [sorted fold_right insert_sorted List.map].
    rewrite mask_repeat. cbn [mapM]. rewrite Er. reflexivity.
  - exact Dr.
  - rewrite Tr. simpl. apply count_occ_repeat_true.
Qed.

(* ================================================================== *)
(** ** More on the date filter *)

Lemma date_eq_in_range (d : Z) (c : cell) : date_eq d c = in_range d d c.
Proof.
  destruct c as [|s|q|b|ns|x]; simpl; try reflexivity.
  destruct (Z.eqb_spec x d) as [->|N].
  - rewrite Z.leb_refl. reflexivity.
  - destruct (Z.leb_spec d x), (Z.leb_spec x d); simpl; auto; lia.
Qed.

(** X10.  When the date widget holds one date, the filter keeps exactly
    the rows of that day, as the range from that day to itself does;
    when it holds no date, or more than two, or when the filter does not
    apply, the table is kept as it is. *)
Theorem one_day_selection (df d1 : DataFrame) (d : Z) :
  well_formed df = true ->
  fst (preprocess_data df) = Some d1 ->
  filter_active d1 = true ->
  (exists ds,
     getitem d1 Date_ = Ok ds
     /\ date_filter [d] d1 = Ok (boolean_index d1 (List.map (date_eq d) ds))
     /\ rows (boolean_index d1 (List.map (date_eq d) ds))
        = select (List.map (date_eq d) ds) (rows d1)
     /\ (forall x, date_eq d x = true <-> x = Date d))
  /\ date_filter [d] d1 = date_filter [d; d] d1
  /\ date_filter [] d1 = Ok d1
  /\ (forall a b c rest, date_filter (a :: b :: c :: rest) d1 = Ok d1)
  /\ (forall v range, filter_active v = false -> date_filter range v = Ok v).
Proof.
  intros W H A. apply preprocess_data_Some in H.
  destruct (preprocessed_shape _ _ W H) as [_ S1].
  pose proof A as A'. unfold filter_active in A'.
  destruct (lookup Timestamp (data d1)) as [t|] eqn:Et; [|discriminate].
  destruct (preprocessed_timestamp _ _ _ H Et) as [Hd [_ Ed]].
  pose proof (same_length_lookup _ _ _ S1 Ed) as Ld.
  assert (One : date_filter [d] d1
                = Ok (boolean_index d1 (List.map (date_eq d) (dates t)))).
  { unfold date_filter, contains, getitem. rewrite Et. simpl bind.
    rewrite A'. rewrite (dt_date_Ok _ Hd). reflexivity. }
  split; [|split; [|split; [|split]]].
  - exists (dates t).
    split; [apply getitem_Ok; exact Ed|]. split; [exact One|].
    split; [apply rows_boolean_index; [exact S1|];
            rewrite length_map; exact Ld|].
    intros x. destruct x as [|s|q|b|ns|y]; simpl;
      try (split; [discriminate | intros E; discriminate E]).
    rewrite Z.eqb_eq. split; [intros ->; reflexivity|].
    intros E; inversion E; reflexivity.
  - rewrite One.
    unfold date_filter, contains, getitem. rewrite Et. simpl bind.
    rewrite A'. rewrite (dt_date_Ok _ Hd). simpl bind.
    rewrite and_masks_in_range. do 2 f_equal.
    apply map_ext. apply date_eq_in_range.
  - unfold date_filter, contains, getitem. rewrite Et. simpl bind.
    rewrite A'. reflexivity.
  - intros a b c rest.
    unfold date_filter, contains, getitem. rewrite Et. simpl bind.
    rewrite A'. reflexivity.
  - intros v range Hv. unfold filter_active in Hv.
    unfold date_filter, contains, getitem.
    destruct (lookup Timestamp (data v)); [|reflexivity].
    simpl bind. rewrite Hv. reflexivity.
Qed.

Lemma time_min_le (s : Series) (m ns : Z) :
  time_min s = Some m -> In (Time ns) s -> (m <= ns)%Z.
Proof.
  revert m. induction s as [|x s IH]; intros m Hm Hin; [destruct Hin|].
  destruct Hin as [->|Hin].
  - simpl in Hm. destruct (time_min s); inversion Hm; lia.
  - destruct x as [|a|q|b|t|dd]; simpl in Hm; auto.
    destruct (time_min s) as [m'|] eqn:E.
    + inversion Hm. specialize (IH m' eq_refl Hin). lia.
    + exfalso. clear Hm IH. induction s as [|y s IHs]; [destruct Hin|].
      destruct Hin as [->|Hin]; simpl in E.
      * destruct (time_min s); discriminate.
      * destruct y; auto. destruct (time_min s); discriminate.
Qed.

Lemma time_max_ge (s : Series) (m ns : Z) :
  time_max s = Some m -> In (Time ns) s -> (ns <= m)%Z.
Proof.
  revert m. induction s as [|x s IH]; intros m Hm Hin; [destruct Hin|].
  destruct Hin as [->|Hin].
  - simpl in Hm. destruct (time_max s); inversion Hm; lia.
  - destruct x as [|a|q|b|t|dd]; simpl in Hm; auto.
    destruct (time_max s) as [m'|] eqn:E.
    + inversion Hm. specialize (IH m' eq_refl Hin). lia.
    + exfalso. clear Hm IH. induction s as [|y s IHs]; [destruct Hin|].
      destruct Hin as [->|Hin]; simpl in E.
      * destruct (time_max s); discriminate.
      * destruct y; auto. destruct (time_max s); discriminate.
Qed.

Lemma time_bounds_exist (s : Series) :
  forallb is_datetime s = true -> forallb isna s = false ->
  exists a b ns, time_min s = Some a /\ time_max s = Some b
                 /\ In (Time ns) s.
Proof.
  induction s as [|x s IH]; simpl; [discriminate|].
  intros Hd Hn. apply andb_true_iff in Hd. destruct Hd as [Hx Hs].
  destruct x as [|a|q|b|t|dd]; try discriminate; simpl in Hn.
  - destruct (IH Hs Hn) as [a [b [ns [Ea [Eb Hin]]]]].
    exists a, b, ns. auto.
  - destruct (time_min s), (time_max s); eauto 8.
Qed.

Lemma date_of_mono (a b : Z) : (a <= b)%Z -> (date_of a <= date_of b)%Z.
Proof.
  intros H. unfold date_of. apply Z.div_le_mono; [reflexivity | exact H].
Qed.

(** X11.  With the date widget left at its default, the first and the
    last day of the log, the filter keeps the rows whose timestamp
    parsed and drops the rows whose timestamp is missing. *)
Theorem default_range_drops_undated_rows (df d1 : DataFrame) :
  well_formed df = true ->
  fst (preprocess_data df) = Some d1 ->
  filter_active d1 = true ->
  exists ts first_day last_day,
    getitem d1 Timestamp = Ok ts
    /\ date_bounds d1 = Ok (first_day, last_day)
    /\ (first_day <= last_day)%Z
    /\ date_step (fun a b => [a; b]) d1
       = Ok (boolean_index d1 (List.map (fun c => negb (isna c)) ts))
    /\ rows (boolean_index d1 (List.map (fun c => negb (isna c)) ts))
       = select (List.map (fun c => negb (isna c)) ts) (rows d1).
Proof.
  intros W H A. apply preprocess_data_Some in H.
  destruct (preprocessed_shape _ _ W H) as [_ S1].
  pose proof A as A'. unfold filter_active in A'.
  destruct (lookup Timestamp (data d1)) as [t|] eqn:Et; [|discriminate].
  destruct (preprocessed_timestamp _ _ _ H Et) as [Hd [_ Ed]].
  pose proof (same_length_lookup _ _ _ S1 Et) as Lt.
  apply negb_true_iff in A'.
  destruct (time_bounds_exist t Hd A') as [a [b [ns [Ea [Eb Hin]]]]].
  exists t, (date_of a), (date_of b).
  assert (Eb' : date_bounds d1 = Ok (date_of a, date_of b)).
  { unfold date_bounds, getitem. rewrite Et. simpl bind. rewrite Ea, Eb.
    reflexivity. }
  assert (Em : List.map (in_range (date_of a) (date_of b)) (dates t)
               = List.map (fun c => negb (isna c)) t).
  { unfold dates. rewrite map_map. apply map_ext_in. intros c Hc.
    rewrite forallb_forall in Hd. specialize (Hd c Hc).
    destruct c as [|s|q|bb|x|dd]; try discriminate; [reflexivity|].
    simpl. pose proof (date_of_mono _ _ (time_min_le _ _ _ Ea Hc)).
    pose proof (date_of_mono _ _ (time_max_ge _ _ _ Eb Hc)).
    apply andb_true_iff. split; apply Z.leb_le; assumption. }
  split; [apply getitem_Ok; exact Et|]. split; [exact Eb'|].
  split.
  { pose proof (time_min_le _ _ _ Ea Hin). pose proof (time_max_ge _ _ _ Eb Hin).
    apply date_of_mono. lia. }
  split.
  - unfold date_step, contains. unfold getitem at 1. rewrite Et. simpl bind.
    rewrite A'. simpl negb. cbv iota. rewrite Eb'. simpl bind.
    unfold date_filter, contains, getitem. rewrite Et. simpl bind.
    rewrite A'. simpl negb. cbv iota.
    rewrite (dt_date_Ok _ Hd). simpl bind.
    rewrite and_masks_in_range, Em. reflexivity.
  - apply rows_boolean_index; [exact S1|]. rewrite length_map. exact Lt.
Qed.

Lemma select_select {A} (m1 m2 : list bool) (l : list A) :
  select (select m1 m2) (select m1 l) = select (and_masks m1 m2) l.
Proof.
  unfold and_masks.
  revert m2 l; induction m1 as [|b m1 IH]; intros m2 l;
    [destruct m2, l; reflexivity|].
  destruct m2 as [|c m2], l as [|x l].
  - destruct b; reflexivity.
  - destruct b; reflexivity.
  - destruct b; simpl; [reflexivity|].
    destruct (select m1 m2); reflexivity.
  - destruct b, c; simpl; rewrite IH; reflexivity.
Qed.

Lemma map_select {A B} (f : A -> B) (mask : list bool) (l : list A) :
  List.map f (select mask l) = select mask (List.map f l).
Proof.
  revert l; induction mask as [|b m IH]; intros [|x l]; simpl; try reflexivity.
  destruct b; simpl; rewrite IH; reflexivity.
Qed.

(** X12.  The two filters of [main], one after the other, keep exactly
    the rows of the preprocessed table whose date lies within the bounds
    and whose direction is the one selected. *)
Theorem both_filters (df d1 : DataFrame) (lower upper : Z) (s : str) :
  well_formed df = true ->
  fst (preprocess_data df) = Some d1 ->
  filter_active d1 = true ->
  s <> All ->
  exists ds dir v w,
    getitem d1 Date_ = Ok ds
    /\ getitem d1 Translation_Direction = Ok dir
    /\ date_filter [lower; upper] d1 = Ok v
    /\ direction_filter_by (Str s) v = Ok w
    /\ rows w
       = select (and_masks (List.map (in_range lower upper) ds)
                           (List.map (fun x => cell_eqb x (Str s)) dir))
                (rows d1).
Proof.
  intros W H A Hs. apply preprocess_data_Some in H.
  pose proof (preprocessed_ready _ _ W H) as R.
  pose proof R as [S1 [_ [_ [_ [dir [Edir _]]]]]].
  pose proof A as A'. unfold filter_active in A'.
  destruct (lookup Timestamp (data d1)) as [t|] eqn:Et; [|discriminate].
  destruct (preprocessed_timestamp _ _ _ H Et) as [Hd [_ Ed]].
  pose proof (same_length_lookup _ _ _ S1 Ed) as Ld.
  pose proof (same_length_lookup _ _ _ S1 Edir) as Ldir.
  set (m1 := List.map (in_range lower upper) (dates t)).
  set (m2 := List.map (fun x => cell_eqb x (Str s)) dir).
  assert (L1 : List.length m1 = len d1)
    by (unfold m1; rewrite length_map; exact Ld).
  set (v := boolean_index d1 m1).
  assert (Rv : ready v) by (apply ready_boolean_index; assumption).
  assert (Edv : lookup Translation_Direction (data v) = Some (select m1 dir)).
  { unfold v. rewrite lookup_boolean_index, Edir. reflexivity. }
  exists (dates t), dir, v,
    (boolean_index v (List.map (fun x => cell_eqb x (Str s)) (select m1 dir))).
  split; [apply getitem_Ok; exact Ed|].
  split; [apply getitem_Ok; exact Edir|].
  split.
  { unfold date_filter, contains, getitem. rewrite Et. simpl bind.
    rewrite A'. rewrite (dt_date_Ok _ Hd). simpl bind.
    rewrite and_masks_in_range. reflexivity. }
  split.
  { unfold direction_filter_by, getitem. simpl cell_eqb.
    replace (PyStr.eqb s All) with false
      by (symmetry; apply str_eqb_neq; exact Hs).
    rewrite Edv. reflexivity. }
  destruct Rv as [Sv _].
  rewrite rows_boolean_index;
    [|exact Sv
     |rewrite length_map; apply (same_length_lookup _ _ _ Sv Edv)].
  unfold v at 1. rewrite rows_boolean_index by assumption.
  rewrite map_select. fold m2. apply select_select.
Qed.


(* ================================================================== *)
(** ** More on preprocessing *)

Lemma extends_refl (ks : list str) (df : DataFrame) : extends ks df df.
Proof.
  exists []. rewrite app_nil_r. split; [reflexivity|].
  split; [intros x []|auto].
Qed.

Lemma extends_trans (ks : list str) (a b c : DataFrame) :
  extends ks a b -> extends ks b c -> extends ks a c.
Proof.
  intros [x [E1 [I1 N1]]] [y [E2 [I2 N2]]].
  exists (x ++ y). split; [|split].
  - rewrite E2, E1, <- app_assoc. reflexivity.
  - apply incl_app; assumption.
  - intros N. apply N2, N1, N.
Qed.

Lemma extends_setitem (ks : list str) (df : DataFrame) (k : str) (s : Series) :
  In k ks -> extends ks df (setitem df k s).
Proof.
  intros Hk. unfold extends, columns, setitem. cbn [data].
  rewrite columns_update.
  destruct (lookup k (data df)) as [c|] eqn:E.
  - exists []. split; [reflexivity|]. split; [intros x []|].
    rewrite app_nil_r. auto.
  - exists [k]. split; [reflexivity|].
    split; [intros x [<-|[]]; exact Hk|].
    intros N. apply NoDup_app; [exact N | repeat constructor; intros [] |].
    intros x Hx [<-|[]]. apply lookup_In in Hx. congruence.
Qed.

Lemma extends_map_column (ks : list str) (df : DataFrame) (k : str)
  (f : Series -> Series) :
  In k ks -> extends ks df (map_column k f df).
Proof.
  intros Hk. unfold map_column.
  destruct (lookup k (data df)); [apply extends_setitem, Hk | apply extends_refl].
Qed.

Lemma setitem_present_columns (df : DataFrame) (k : str) (s c : Series) :
  lookup k (data df) = Some c -> columns (setitem df k s) = columns df.
Proof.
  intros E. unfold columns, setitem. cbn [data].
  rewrite columns_update, E, app_nil_r. reflexivity.
Qed.

Lemma map_column_columns (df : DataFrame) (k : str) (f : Series -> Series) :
  columns (map_column k f df) = columns df.
Proof.
  unfold map_column. destruct (lookup k (data df)) as [c|] eqn:E;
    [apply (setitem_present_columns _ _ _ c E) | reflexivity].
Qed.

Lemma distinct_NoDup (l : list str) : distinct l = true -> NoDup l.
Proof.
  induction l as [|x l IH]; simpl; intros H; constructor.
  - apply andb_true_iff in H. destruct H as [H _].
    apply negb_true_iff in H. intros Hin.
    assert (E : existsb (PyStr.eqb x) l = true)
      by (apply existsb_exists; exists x; split; [exact Hin | apply str_eqb_refl]).
    congruence.
  - apply andb_true_iff in H. apply IH, H.
Qed.

Lemma map_snd_combine {A B} (a : list A) (b : list B) :
  List.length a = List.length b -> List.map snd (combine a b) = b.
Proof.
  revert b; induction a as [|x a IH]; intros [|y b]; simpl;
    try discriminate; auto.
  intros H. f_equal. apply IH. lia.
Qed.

(** X13.  Preprocessing keeps the number of rows and every column, in
    order and under its cleaned name, and adds at the end only [Hour],
    [Date] and [Translation Direction] where the table did not have
    them; no name occurs twice; a column the program does not name keeps
    its values, and without a [Timestamp] column no [Hour] or [Date] is
    derived. *)
Theorem preprocess_keeps_the_table (df d1 : DataFrame) :
  well_formed df = true ->
  fst (preprocess_data df) = Some d1 ->
  len d1 = len df
  /\ (exists added,
        columns d1 = List.map clean_name (columns df) ++ added
        /\ incl added [Hour; Date_; Translation_Direction])
  /\ NoDup (columns d1)
  /\ List.map snd (data (clean_columns df)) = List.map snd (data df)
  /\ (forall k, existsb (PyStr.eqb k) program_columns = false ->
                lookup k (data d1) = lookup k (data (clean_columns df)))
  /\ (lookup Timestamp (data (clean_columns df)) = None ->
      lookup Hour (data d1) = lookup Hour (data (clean_columns df))
      /\ lookup Date_ (data d1) = lookup Date_ (data (clean_columns df))).
Proof.
  intros W H. apply preprocess_data_Some in H.
  destruct (preprocessed_shape _ _ W H) as [L _].
  destruct (preprocess_steps_inv _ _ H) as [f [t [s [Ef [Et [Es [d [Ep ->]]]]]]]].
  set (d0 := clean_columns df) in *.
  set (ks := [Hour; Date_; Translation_Direction]).
  assert (C1 : columns (flags_done (filled f t s d0)) = columns d0).
  { unfold flags_done. rewrite !map_column_columns. unfold filled.
    rewrite (setitem_present_columns _ Status _ s) by (look; exact Es).
    rewrite (setitem_present_columns _ To_ _ t) by (look; exact Et).
    apply (setitem_present_columns _ From_ _ f Ef). }
  assert (X1 : extends ks (flags_done (filled f t s d0)) d).
  { destruct (parse_timestamp_inv _ _ Ep) as [[_ ->]|[c [t' [Ec [_ [_ ->]]]]]];
      [apply extends_refl|].
    unfold with_timestamp.
    eapply extends_trans; [|apply extends_setitem; simpl; auto].
    eapply extends_trans; [|apply extends_setitem; simpl; auto].
    destruct (extends_refl ks (flags_done (filled f t s d0))) as [a [Ea [Ia Na]]].
    exists a. rewrite (setitem_present_columns _ Timestamp _ c Ec). auto. }
  assert (X2 : extends ks d (finished f t d)).
  { unfold finished. destruct (extends_setitem ks
      (map_column Translation_Score to_numeric d) Translation_Direction
      (concat_with arrow (astype_str (fillna (Str Unknown) f))
                         (astype_str (fillna (Str Unknown) t))))
      as [a [Ea [Ia Na]]]; [simpl; auto|].
    exists a. rewrite map_column_columns in Ea, Na. auto. }
  destruct (extends_trans _ _ _ _ X1 X2) as [added [Ea [Ia Na]]].
  rewrite C1 in Ea, Na. unfold d0 in Ea, Na.
  rewrite columns_clean_columns in Ea, Na.
  split; [exact L|]. split; [exists added; auto|].
  split.
  { apply Na. apply distinct_NoDup.
    unfold well_formed in W. apply andb_true_iff in W. apply W. }
  split.
  { unfold d0, clean_columns, set_columns. cbn [data].
    apply map_snd_combine. unfold columns. rewrite !length_map. reflexivity. }
  split.
  - intros k Hk. simpl in Hk. rewrite !orb_false_iff in Hk.
    destruct Hk as [K1 [K2 [K3 [K4 [K5 [K6 [K7 [K8 [K9 [K10 _]]]]]]]]]].
    unfold finished. rewrite lookup_setitem, K10, lookup_map_column, K9.
    rewrite (parse_timestamp_other _ _ _ Ep K6 K7 K8).
    unfold flags_done, filled.
    rewrite !lookup_map_column, !lookup_setitem, K1, K2, K3, K4, K5.
    reflexivity.
  - intros En.
    assert (Ed : d = flags_done (filled f t s d0)).
    { destruct (parse_timestamp_inv _ _ Ep) as [[_ ->]|[c [t' [Ec _]]]];
        [reflexivity|].
      rewrite lookup_flags_filled_Timestamp in Ec. congruence. }
    rewrite Ed. split; look; reflexivity.
Qed.

Lemma preprocessed_required (df d1 : DataFrame) (k : str) :
  preprocess_steps df = Ok d1 ->
  k = From_ \/ k = To_ \/ k = Status ->
  exists raw, lookup k (data (clean_columns df)) = Some raw
              /\ lookup k (data d1) = Some (fillna (Str Unknown) raw).
Proof.
  intros H Hk.
  destruct (preprocess_steps_inv _ _ H) as [f [t [s [Ef [Et [Es [d [Ep ->]]]]]]]].
  destruct Hk as [-> | [-> | ->]]; [exists f | exists t | exists s];
    (split; [assumption|]); unfold finished; look;
    rewrite (parse_timestamp_other _ _ _ Ep) by reflexivity; look; reflexivity.
Qed.

Lemma fillna_no_gap (v : cell) (c : Series) :
  isna v = false -> existsb isna (fillna v c) = false.
Proof.
  intros Hv. induction c as [|x c IH]; simpl; [reflexivity|].
  rewrite IH, orb_false_r. unfold fill.
  destruct (isna x) eqn:E; [exact Hv | exact E].
Qed.

(** X14.  After preprocessing, [From], [To] and [Status] have a value in
    every row: [Unknown] where the source had none, the source value
    everywhere else. *)
Theorem required_columns_have_no_gap (df d1 : DataFrame) (k : str) :
  well_formed df = true ->
  fst (preprocess_data df) = Some d1 ->
  k = From_ \/ k = To_ \/ k = Status ->
  exists raw col,
    lookup k (data (clean_columns df)) = Some raw
    /\ getitem d1 k = Ok col
    /\ List.length col = len d1
    /\ existsb isna col = false
    /\ forall i x, nth_error raw i = Some x ->
         nth_error col i = Some (if isna x then Str Unknown else x).
Proof.
  intros W H Hk. apply preprocess_data_Some in H.
  destruct (preprocessed_shape _ _ W H) as [_ S1].
  destruct (preprocessed_required _ _ _ H Hk) as [raw [Er Ec]].
  exists raw, (fillna (Str Unknown) raw).
  split; [exact Er|]. split; [apply getitem_Ok; exact Ec|].
  split; [apply (same_length_lookup _ _ _ S1 Ec)|].
  split; [apply fillna_no_gap; reflexivity|].
  intros i x Hx. unfold fillna. rewrite nth_error_map, Hx. reflexivity.
Qed.

Lemma day_is_24_hours : ns_per_day = (ns_per_hour * 24)%Z.
Proof. reflexivity. Qed.

(** A timestamp is its day, its hour of the day and what is left of the
    hour. *)
Lemma hour_and_date_of (ns : Z) :
  (0 <= hour_of ns <= 23)%Z
  /\ exists r, (0 <= r < ns_per_hour)%Z
               /\ ns = (date_of ns * ns_per_day + hour_of ns * ns_per_hour + r)%Z.
Proof.
  unfold hour_of, date_of. rewrite day_is_24_hours.
  assert (Hh : (0 < ns_per_hour)%Z) by reflexivity.
  rewrite <- Z.div_div by lia.
  pose proof (Z.mod_pos_bound (ns / ns_per_hour) 24 ltac:(lia)) as Hm.
  split; [lia|].
  exists (ns mod ns_per_hour)%Z.
  split; [apply Z.mod_pos_bound; exact Hh|].
  pose proof (Z.div_mod ns ns_per_hour ltac:(lia)) as E1.
  pose proof (Z.div_mod (ns / ns_per_hour) 24 ltac:(lia)) as E2.
  lia.
Qed.

(** X15.  In a preprocessed table with timestamps, a row without a
    timestamp has no [Hour] and no [Date]; a row with a timestamp has
    both, the hour between 0 and 23, and the timestamp falls in that
    hour of that day. *)
Theorem hour_and_date_of_every_row (df d1 : DataFrame) (ts : Series) :
  well_formed df = true ->
  fst (preprocess_data df) = Some d1 ->
  lookup Timestamp (data d1) = Some ts ->
  exists hs ds,
    getitem d1 Hour = Ok hs /\ getitem d1 Date_ = Ok ds
    /\ forall i, i < len d1 ->
         (nth_error ts i = Some NA /\ nth_error hs i = Some NA
          /\ nth_error ds i = Some NA)
         \/ exists ns h d r,
              nth_error ts i = Some (Time ns)
              /\ nth_error hs i = Some (Num (inject_Z h))
              /\ nth_error ds i = Some (Date d)
              /\ (0 <= h <= 23)%Z /\ (0 <= r < ns_per_hour)%Z
              /\ ns = (d * ns_per_day + h * ns_per_hour + r)%Z.
Proof.
  intros W H Et. apply preprocess_data_Some in H.
  destruct (preprocessed_shape _ _ W H) as [_ S1].
  destruct (preprocessed_timestamp _ _ _ H Et) as [Hd [Eh Ed]].
  pose proof (same_length_lookup _ _ _ S1 Et) as Lt.
  exists (hours ts), (dates ts).
  split; [apply getitem_Ok; exact Eh|]. split; [apply getitem_Ok; exact Ed|].
  intros i Hi. unfold hours, dates. rewrite !nth_error_map.
  destruct (nth_error ts i) as [c|] eqn:Ec;
    [|apply nth_error_None in Ec; lia].
  rewrite forallb_forall in Hd.
  specialize (Hd c (nth_error_In _ _ Ec)).
  destruct c as [|s|q|b|ns|dd]; try discriminate.
  - left. auto.
  - right. destruct (hour_and_date_of ns) as [Hh [r [Hr E]]].
    exists ns, (hour_of ns), (date_of ns), r. simpl. auto 8.
Qed.

(* ================================================================== *)
(** ** The page *)

Lemma view_contains (d v : DataFrame) (k : str) :
  view_of d v -> contains v k = contains d k.
Proof.
  intros V. induction V as [|v mask V IH Hm]; [reflexivity|].
  rewrite <- IH. unfold contains. rewrite lookup_boolean_index.
  destruct (lookup k (data v)); reflexivity.
Qed.

Lemma view_len_columns (d v : DataFrame) :
  view_of d v -> columns v = columns d.
Proof.
  intros V. induction V as [|v mask V IH Hm]; [reflexivity|].
  rewrite <- IH. unfold columns, boolean_index. cbn [data].
  rewrite map_map. reflexivity.
Qed.

Lemma getitems_Ok (w : DataFrame) (cols : list str) :
  (forall k, In k cols -> contains w k = true) ->
  exists raw,
    getitems w cols = Ok raw
    /\ columns raw = cols /\ len raw = len w
    /\ forall k, In k cols -> lookup k (data raw) = lookup k (data w).
Proof.
  intros H. unfold getitems.
  assert (E : exists cs,
    mapM (fun k => c <- getitem w k ;; Ok (k, c)) cols = Ok cs
    /\ List.map fst cs = cols
    /\ forall k, In k cols -> lookup k cs = lookup k (data w)).
  { induction cols as [|k cols IH]; simpl.
    - exists []. split; [reflexivity|]. split; [reflexivity|]. intros k [].
    - destruct IH as [cs [Ecs [Ef El]]];
        [intros k' Hk'; apply H; right; exact Hk'|].
      pose proof (H k (or_introl eq_refl)) as Hk.
      unfold contains in Hk.
      destruct (lookup k (data w)) as [c|] eqn:Ec; [|discriminate].
      rewrite (proj2 (getitem_Ok w k c) Ec). simpl bind.
      rewrite Ecs. simpl bind.
      exists ((k, c) :: cs). split; [reflexivity|].
      split; [simpl; rewrite Ef; reflexivity|].
      intros k' Hk'. simpl.
      destruct (PyStr.eqb k' k) eqn:E.
      + apply str_eqb_eq in E. subst k'. symmetry. exact Ec.
      + destruct Hk' as [->|Hk']; [rewrite str_eqb_refl in E; discriminate|].
        apply El, Hk'. }
  destruct E as [cs [Ecs [Ef El]]]. rewrite Ecs. simpl bind.
  eexists. split; [reflexivity|]. auto.
Qed.

(** X16.  The raw data tab asks only for columns the table has, so its
    selection never raises; what it shows are the columns of
    [basic_columns] that exist, in that order, with their values, and
    [From], [To] and [Status] are always among them. *)
Theorem raw_data_tab (df d1 v : DataFrame) :
  well_formed df = true ->
  fst (preprocess_data df) = Some d1 ->
  view_of d1 v ->
  exists raw,
    getitems v (display_columns v) = Ok raw
    /\ columns raw = List.filter (contains v) basic_columns
    /\ len raw = len v
    /\ (forall k, In k (columns raw) ->
                  lookup k (data raw) = lookup k (data v))
    /\ In From_ (columns raw) /\ In To_ (columns raw)
    /\ In Status (columns raw).
Proof.
  intros W H V. apply preprocess_data_Some in H.
  destruct (getitems_Ok v (display_columns v)) as [raw [Er [Ec [El Ek]]]].
  { intros k Hk. unfold display_columns in Hk. apply filter_In in Hk. apply Hk. }
  exists raw. split; [exact Er|]. split; [exact Ec|]. split; [exact El|].
  split; [rewrite Ec; exact Ek|].
  assert (Hreq : forall k, k = From_ \/ k = To_ \/ k = Status ->
                           In k basic_columns -> In k (columns raw)).
  { intros k Hk Hb. rewrite Ec. unfold display_columns. apply filter_In.
    split; [exact Hb|]. rewrite (view_contains _ _ k V).
    destruct (preprocessed_required _ _ _ H Hk) as [r [_ E]].
    unfold contains. rewrite E. reflexivity. }
  repeat split; apply Hreq; auto; simpl; auto 8.
Qed.










(* ================================================================== *)
(** ** Filtering twice *)

Lemma select_all {A} (n : nat) (l : list A) :
  List.length l = n -> select (repeat true n) l = l.
Proof.
  revert l; induction n as [|n IH]; intros [|x l]; simpl;
    try discriminate; auto.
  intros H. rewrite IH by lia. reflexivity.
Qed.

(** A mask that marks every row keeps the table as it is. *)
Lemma boolean_index_all (v : DataFrame) :
  same_length v -> boolean_index v (repeat true (len v)) = v.
Proof.
  intros S. destruct v as [n cols]. unfold boolean_index. cbn [len data] in *.
  rewrite count_occ_repeat_true. f_equal.
  unfold same_length in S. cbn [len data] in S.
  induction cols as [|[k c] cols IH]; [reflexivity|].
  apply Forall_cons_iff in S. destruct S as [Hc Hs]. simpl in Hc.
  simpl. rewrite select_all by exact Hc.
  f_equal. apply IH, Hs.
Qed.

Lemma select_self (m : list bool) :
  select m m = repeat true (count_occ bool_dec m true).
Proof.
  induction m as [|b m IH]; [reflexivity|].
  destruct b; simpl.
  - destruct (bool_dec true true); [|congruence]. simpl. rewrite IH. reflexivity.
  - destruct (bool_dec false true); [discriminate|]. exact IH.
Qed.

Lemma forallb_isna_dates (t : Series) :
  forallb is_datetime t = true ->
  forallb isna (dates t) = forallb isna t.
Proof.
  induction t as [|x t IH]; simpl; [reflexivity|].
  intros H. apply andb_true_iff in H. destruct H as [Hx Ht].
  rewrite IH by exact Ht. destruct x; try discriminate; reflexivity.
Qed.

(** X18.  Each filter is idempotent: applying the date filter with the
    same two bounds, or the direction filter with the same direction, to
    its own result changes nothing. *)
Theorem filters_are_idempotent (df d1 : DataFrame) (lower upper : Z)
  (selected : cell) :
  well_formed df = true ->
  fst (preprocess_data df) = Some d1 ->
  (exists v, date_filter [lower; upper] d1 = Ok v
             /\ date_filter [lower; upper] v = Ok v)
  /\ (exists w, direction_filter_by selected d1 = Ok w
                /\ direction_filter_by selected w = Ok w).
Proof.
  intros W H. apply preprocess_data_Some in H.
  pose proof (preprocessed_ready _ _ W H) as R.
  pose proof R as [S1 [_ [_ [_ [dir [Edir _]]]]]].
  split.
  - unfold date_filter at 1. unfold contains, getitem.
    destruct (lookup Timestamp (data d1)) as [t|] eqn:Et.
    2:{ exists d1. split; [reflexivity|].
        unfold date_filter, contains. rewrite Et. reflexivity. }
    simpl bind.
    destruct (forallb isna t) eqn:A; simpl negb; cbv iota.
    { exists d1. split; [reflexivity|].
      unfold date_filter, contains, getitem. rewrite Et. simpl bind.
      rewrite A. reflexivity. }
    destruct (preprocessed_timestamp _ _ _ H Et) as [Hd _].
    pose proof (same_length_lookup _ _ _ S1 Et) as Lt.
    rewrite (dt_date_Ok _ Hd). simpl bind.
    rewrite and_masks_in_range.
    set (m := List.map (in_range lower upper) (dates t)).
    assert (Lm : List.length m = len d1)
      by (unfold m, dates; rewrite !length_map; exact Lt).
    set (v := boolean_index d1 m).
    assert (Rv : ready v) by (apply ready_boolean_index; assumption).
    destruct Rv as [Sv _].
    exists v. split; [reflexivity|].
    assert (Etv : lookup Timestamp (data v) = Some (select m t))
      by (unfold v; rewrite lookup_boolean_index, Et; reflexivity).
    assert (Hdv : forallb is_datetime (select m t) = true)
      by (apply forallb_select, Hd).
    unfold date_filter, contains, getitem. rewrite Etv. simpl bind.
    destruct (forallb isna (select m t)); simpl negb; cbv iota;
      [reflexivity|].
    rewrite (dt_date_Ok _ Hdv). simpl bind.
    rewrite and_masks_in_range. f_equal.
    unfold dates at 1. rewrite map_select. fold (dates t).
    rewrite map_select. fold m. rewrite select_self.
    change (count_occ bool_dec m true) with (len v).
    apply boolean_index_all, Sv.
  - unfold direction_filter_by at 1. unfold getitem. rewrite Edir.
    destruct (negb (cell_eqb selected (Str All))) eqn:N.
    2:{ exists d1. split; [reflexivity|].
        unfold direction_filter_by. rewrite N. reflexivity. }
    simpl bind.
    set (m := List.map (fun x => cell_eqb x selected) dir).
    assert (Lm : List.length m = len d1).
    { unfold m. rewrite length_map. apply (same_length_lookup _ _ _ S1 Edir). }
    set (w := boolean_index d1 m).
    assert (Rw : ready w) by (apply ready_boolean_index; assumption).
    destruct Rw as [Sw _].
    exists w. split; [reflexivity|].
    unfold direction_filter_by, getitem. rewrite N.
    unfold w at 1. rewrite lookup_boolean_index, Edir. simpl bind.
    f_equal. rewrite map_select. fold m. rewrite select_self.
    change (count_occ bool_dec m true) with (len w).
    apply boolean_index_all, Sw.
Qed.

End Program.

(* ================================================================== *)
(** ** The program on the example instance *)

Lemma demo_to_datetime_length (s t : Series) :
  demo_to_datetime s = Ok t -> List.length t = List.length s.
Proof.
  unfold demo_to_datetime.
  destruct (forallb is_bool s && negb (List.length s =? 0)); [discriminate|].
  intros H; inversion H. apply length_map.
Qed.

Lemma demo_to_datetime_fixes (s : Series) :
  forallb is_datetime s = true -> demo_to_datetime s = Ok s.
Proof.
  intros H. unfold demo_to_datetime.
  assert (E : forallb is_bool s && negb (List.length s =? 0) = false).
  { destruct s as [|x s]; [reflexivity|]. simpl in *.
    destruct x; try discriminate; reflexivity. }
  rewrite E. f_equal. clear E.
  induction s as [|x s IH]; simpl in *; [reflexivity|].
  apply andb_true_iff in H. destruct H as [Hx Hs].
  rewrite IH by exact Hs.
  destruct x; try discriminate; reflexivity.
Qed.

Definition demo_preprocess : DataFrame -> option DataFrame * list report :=
  preprocess_data demo_py_str demo_parse_numeric demo_to_datetime.

Definition or_empty (o : option DataFrame) : DataFrame :=
  match o with Some d => d | None => {| len := 0; data := [] |} end.

(** The preprocessed example tables. *)
Definition log1 : DataFrame :=
  Eval vm_compute in or_empty (fst (demo_preprocess t_log)).
Definition min1 : DataFrame :=
  Eval vm_compute in or_empty (fst (demo_preprocess t_min)).
Definition yes1 : DataFrame :=
  Eval vm_compute in or_empty (fst (demo_preprocess t_yes)).
Definition blank1 : DataFrame :=
  Eval vm_compute in or_empty (fst (demo_preprocess t_blank_score)).

(** The scenario of two runs: two translations, one completed, one
    timed out, half of them completed, mean score 4.5 over the one score
    that parses, and one direction group holding both. *)
Example two_runs :
  create_summary_stats log1
  = Ok {| total_translations := 2;
          completed_translations := 1;
          timed_out_translations := 1;
          completion_rate := 100 # 2;
          timeout_rate := 100 # 2;
          avg_score := Some 4.5%Q |}
  /\ List.map (fun r => (Direction r, Total r, Completed_count r, Timed_Out_count r))
       (match create_direction_analysis log1 with Ok rs => rs | Raise _ => [] end)
     = [(Str (lit "EN" ++ arrow ++ lit "FR"), 2, 1%Q, 1%Q)].
Proof. split; reflexivity. Qed.

(** *** C1: the average score of a table without a score *)

(** A column of missing values only, the empty column included, has
    mean NaN. *)
Lemma mean_all_missing (c : Series) :
  forallb isna c = true -> mean c = Ok NaN.
Proof.
  intros H. unfold mean.
  assert (E : series_sum c = Ok 0%Q /\ dropna c = []).
  { induction c as [|x c IH]; simpl; [auto|].
    simpl in H. apply andb_true_iff in H. destruct H as [Hx Hc].
    destruct x; try discriminate. destruct (IH Hc) as [-> E].
    simpl. unfold dropna in E. auto. }
  destruct E as [-> ->]. reflexivity.
Qed.

(** C1.  On the preprocessed table of one run whose score is missing,
    [create_summary_stats] returns NaN as [avg_score], not 0, whereas
    [create_direction_analysis] returns 0 as the [Avg Score] of the one
    group of that table. *)
Theorem avg_score_nan_when_no_score :
  fst (demo_preprocess t_blank_score) = Some blank1
  /\ getitem blank1 Translation_Score = Ok [NA]
  /\ (exists st, create_summary_stats blank1 = Ok st
                 /\ avg_score st = NaN /\ avg_score st <> Some 0%Q)
  /\ List.map Avg_Score
       (match create_direction_analysis blank1 with Ok rs => rs | Raise _ => [] end)
     = [0%Q].
Proof.
  split; [reflexivity|]. split; [reflexivity|]. split; [|reflexivity].
  eexists. split; [reflexivity|]. split; [reflexivity | discriminate].
Qed.

(** *** C2 *)

(** One run with [Completed] = [Yes]: the flag is true after one pass
    and false after two. *)
Lemma second_pass_changes_completed :
  ~ idempotent_on demo_py_str demo_parse_numeric demo_to_datetime t_yes.
Proof.
  intros H. specialize (H yes1 eq_refl). vm_compute in H. discriminate H.
Qed.

(** On the log of two runs. *)
Lemma second_pass_resets_flags_witness :
  well_formed t_log = true
  /\ Forall (fun n => clean_name (clean_name n) = clean_name n) (columns t_log)
  /\ fst (demo_preprocess t_log) = Some log1
  /\ demo_preprocess log1
     = (Some (reset_flag Timed_Out (reset_flag Completed log1)), []).
Proof.
  assert (S : Forall (fun n => clean_name (clean_name n) = clean_name n)
                (columns t_log)) by (repeat constructor).
  split; [reflexivity|]. split; [exact S|]. split; [reflexivity|].
  destruct (second_pass_resets_flags demo_py_str demo_parse_numeric
              demo_to_datetime demo_to_datetime_length demo_to_datetime_fixes
              t_log log1 eq_refl S eq_refl) as [H _].
  exact H.
Defined.

(** *** C3 *)

(** The header field [From,,] is renamed [From], not [From,]. *)
Lemma two_trailing_commas :
  ~ names_cleaned_as_specified t_commas.
Proof. unfold names_cleaned_as_specified. vm_compute. discriminate. Qed.

(** Two headers that clean to [From], [To], [Status]. *)
Lemma column_names_cleaned_witness :
  len t_spaced = len t_plain
  /\ List.map snd (data t_spaced) = List.map snd (data t_plain)
  /\ List.map clean_name (columns t_spaced) = List.map clean_name (columns t_plain)
  /\ demo_preprocess t_spaced = demo_preprocess t_plain.
Proof.
  repeat (split; [reflexivity|]).
  destruct (column_names_cleaned demo_py_str demo_parse_numeric
              demo_to_datetime t_plain) as [_ [_ H]].
  apply (H t_spaced); reflexivity.
Defined.

(** *** C4 *)

(** On the first row of the log. *)
Lemma rates_between_0_and_100_witness :
  well_formed t_log = true
  /\ fst (demo_preprocess t_log) = Some log1
  /\ view_of log1 (boolean_index log1 [true; false])
  /\ exists st,
       create_summary_stats (boolean_index log1 [true; false]) = Ok st
       /\ (0 <= completion_rate st <= 100)%Q
       /\ (0 <= timeout_rate st <= 100)%Q.
Proof.
  assert (V : view_of log1 (boolean_index log1 [true; false]))
    by (apply view_filter; [apply view_all | reflexivity]).
  split; [reflexivity|]. split; [reflexivity|]. split; [exact V|].
  destruct (rates_between_0_and_100 demo_py_str demo_parse_numeric
              demo_to_datetime demo_to_datetime_length
              t_log log1 _ eq_refl eq_refl V)
    as [st [E [_ [_ [_ [Hc [Ht _]]]]]]].
  exists st. auto.
Defined.

(** *** C5 *)

(** A table of [From], [To] and [Status] only has no [Completed] field
    after preprocessing. *)
Lemma no_flag_column_no_flag :
  ~ flags_never_absent demo_py_str demo_parse_numeric demo_to_datetime t_min.
Proof.
  intros H.
  destruct (H min1 eq_refl Completed (or_introl eq_refl)) as [c [Hc _]].
  vm_compute in Hc. discriminate Hc.
Qed.

(** [Yes], [No] in the log become true, false. *)
Lemma flags_are_boolean_witness :
  well_formed t_log = true
  /\ fst (demo_preprocess t_log) = Some log1
  /\ getitem log1 Completed = Ok [Bool true; Bool false].
Proof.
  split; [reflexivity|]. split; [reflexivity|].
  destruct (flags_are_boolean demo_py_str demo_parse_numeric demo_to_datetime
              demo_to_datetime_length t_log log1 Completed
              eq_refl eq_refl (or_introl eq_refl)) as [H _].
  exact H.
Defined.

(** *** C6 *)

(** A missing [To] gives the direction [EN → Unknown]. *)
Lemma direction_of_every_row_witness :
  well_formed t_min = true
  /\ fst (demo_preprocess t_min) = Some min1
  /\ exists dir,
       getitem min1 Translation_Direction = Ok dir
       /\ nth_error dir 0 = Some (Str (lit "EN" ++ arrow ++ lit "Unknown")).
Proof.
  split; [reflexivity|]. split; [reflexivity|].
  destruct (direction_of_every_row demo_py_str demo_parse_numeric
              demo_to_datetime demo_to_datetime_length t_min min1
              eq_refl eq_refl)
    as [f [t [dir [Ef [Et [_ [_ [Ed [_ Hrow]]]]]]]]].
  exists dir. split; [exact Ed|].
  destruct (Hrow 0 (Nat.lt_0_succ 0)) as [x [y [Ex [Ey [_ [_ Hd]]]]]].
  vm_compute in Ef, Et. inversion Ef; inversion Et; subst f t.
  simpl in Ex, Ey. inversion Ex; inversion Ey; subst x y.
  exact Hd.
Defined.

(** *** C7 *)

(** On the log, unfiltered. *)
Lemma direction_totals_add_up_witness :
  well_formed t_log = true
  /\ fst (demo_preprocess t_log) = Some log1
  /\ view_of log1 log1
  /\ exists st rs,
       create_summary_stats log1 = Ok st
       /\ create_direction_analysis log1 = Ok rs
       /\ list_sum (List.map Total rs) = total_translations st.
Proof.
  split; [reflexivity|]. split; [reflexivity|]. split; [apply view_all|].
  apply (direction_totals_add_up demo_py_str demo_parse_numeric
           demo_to_datetime demo_to_datetime_length t_log log1 log1
           eq_refl eq_refl (view_all log1)).
Defined.

(** *** C8 *)

(** The log filtered to the one day of its first run. *)
Lemma date_filter_keeps_range_witness :
  well_formed t_log = true
  /\ fst (demo_preprocess t_log) = Some log1
  /\ filter_active log1 = true
  /\ exists ds,
       getitem log1 Date_ = Ok ds
       /\ date_filter [1; 1]%Z log1
          = Ok (boolean_index log1 (List.map (in_range 1 1) ds))
       /\ rows (boolean_index log1 (List.map (in_range 1 1) ds))
          = select (List.map (in_range 1 1) ds) (rows log1).
Proof.
  split; [reflexivity|]. split; [reflexivity|]. split; [reflexivity|].
  destruct (date_filter_keeps_range demo_py_str demo_parse_numeric
              demo_to_datetime demo_to_datetime_length t_log log1 1%Z 1%Z
              eq_refl eq_refl eq_refl) as [ds [E1 [_ [E2 [E3 _]]]]].
  exists ds. auto.
Defined.

(** *** C9 *)

(** The date parser raises after the names were cleaned and the three
    required columns filled: no table comes back. *)
Lemma no_table_on_error_witness :
  demo_read_csv 1 = Ok t_bool_timestamp
  /\ preprocess_steps demo_py_str demo_parse_numeric demo_to_datetime
       t_bool_timestamp = Raise TypeError
  /\ load_data_from_file demo_py_str demo_parse_numeric demo_to_datetime
       nat demo_read_csv 1
     = (None, [Error_preprocessing TypeError]).
Proof.
  split; [reflexivity|]. split; [reflexivity|].
  destruct (no_table_on_error demo_py_str demo_parse_numeric demo_to_datetime
              nat demo_read_csv 1) as [_ [H _]].
  destruct (H t_bool_timestamp TypeError eq_refl eq_refl) as [_ [H1 _]].
  exact H1.
Defined.

(** *** C10 *)

(** No [Status] column: no table. *)
Lemma required_and_optional_columns_witness :
  well_formed t_no_status = true
  /\ ~ In Status (List.map clean_name (columns t_no_status))
  /\ fst (demo_preprocess t_no_status) = None.
Proof.
  assert (N : ~ In Status (List.map clean_name (columns t_no_status)))
    by (vm_compute; intuition discriminate).
  split; [reflexivity|]. split; [exact N|].
  destruct (required_and_optional_columns demo_py_str demo_parse_numeric
              demo_to_datetime t_no_status eq_refl) as [H _].
  apply H. right; right; exact N.
Defined.

(* ================================================================== *)
(** ** The further properties on the example instance *)

Definition no_stats : stats :=
  {| total_translations := 0; completed_translations := 0;
     timed_out_translations := 0; completion_rate := 0; timeout_rate := 0;
     avg_score := NaN |}.

(** The statistics and the direction breakdown of the log. *)
Definition log_stats : stats :=
  Eval vm_compute in
    match create_summary_stats log1 with Ok st => st | Raise _ => no_stats end.

Definition log_rows : list direction_row :=
  Eval vm_compute in
    match create_direction_analysis log1 with Ok rs => rs | Raise _ => [] end.

(** The direction of both runs of the log. *)
Definition en_fr : str := lit "EN" ++ arrow ++ lit "FR".


(** X1 on the log: one run completed, one timed out. *)
Lemma counts_are_numbers_of_rows_witness :
  well_formed t_log = true
  /\ fst (demo_preprocess t_log) = Some log1
  /\ view_of log1 log1
  /\ create_summary_stats log1 = Ok log_stats
  /\ (completed_translations log_stats
      == Q_of_nat (count_rows log1 (flag_at log1 Completed)))%Q
  /\ count_rows log1 (flag_at log1 Completed) <= total_translations log_stats.
Proof.
  split; [reflexivity|]. split; [reflexivity|]. split; [apply view_all|].
  split; [reflexivity|].
  destruct (counts_are_numbers_of_rows demo_py_str demo_parse_numeric
              demo_to_datetime demo_to_datetime_length t_log log1 log1
              log_stats eq_refl eq_refl (view_all log1) eq_refl)
    as [H1 [_ [H3 _]]].
  split; assumption.
Defined.

(** X2 on the log: no run is both completed and timed out, none is
    neither. *)
Lemma pie_other_slice_witness :
  well_formed t_log = true
  /\ fst (demo_preprocess t_log) = Some log1
  /\ view_of log1 log1
  /\ create_summary_stats log1 = Ok log_stats
  /\ exists completed timed_out other,
       pie_values log_stats = [completed; timed_out; other]
       /\ (completed + timed_out + other == Q_of_nat (len log1))%Q.
Proof.
  split; [reflexivity|]. split; [reflexivity|]. split; [apply view_all|].
  split; [reflexivity|].
  destruct (pie_other_slice demo_py_str demo_parse_numeric
              demo_to_datetime demo_to_datetime_length t_log log1 log1
              log_stats eq_refl eq_refl (view_all log1) eq_refl)
    as [c [t [o [E [_ [S _]]]]]].
  exists c, t, o. split; assumption.
Defined.


(** X4 on the log with both rows filtered out. *)
Lemma nothing_left_after_filtering_witness :
  well_formed t_log = true
  /\ fst (demo_preprocess t_log) = Some log1
  /\ view_of log1 (boolean_index log1 [false; false])
  /\ len (boolean_index log1 [false; false]) = 0
  /\ create_direction_analysis (boolean_index log1 [false; false]) = Ok []
  /\ histogram_scores (boolean_index log1 [false; false]) = Ok None.
Proof.
  assert (V : view_of log1 (boolean_index log1 [false; false]))
    by (apply view_filter; [apply view_all | reflexivity]).
  split; [reflexivity|]. split; [reflexivity|]. split; [exact V|].
  split; [reflexivity|].
  destruct (nothing_left_after_filtering demo_py_str demo_parse_numeric
              demo_to_datetime demo_to_datetime_length t_log log1
              (boolean_index log1 [false; false]) eq_refl eq_refl V eq_refl)
    as [_ [H1 H2]].
  split; assumption.
Defined.


(** X6 on the log. *)
Lemma direction_rows_sorted_witness :
  well_formed t_log = true
  /\ fst (demo_preprocess t_log) = Some log1
  /\ view_of log1 log1
  /\ create_direction_analysis log1 = Ok log_rows
  /\ lookup Translation_Direction (data log1) = Some [Str en_fr; Str en_fr]
  /\ NoDup (List.map Direction log_rows)
  /\ Sorted before (List.map Direction log_rows).
Proof.
  split; [reflexivity|]. split; [reflexivity|]. split; [apply view_all|].
  split; [reflexivity|]. split; [reflexivity|].
  destruct (direction_rows_sorted demo_py_str demo_parse_numeric
              demo_to_datetime demo_to_datetime_length t_log log1 log1
              log_rows [Str en_fr; Str en_fr] eq_refl eq_refl
              (view_all log1) eq_refl eq_refl) as [_ [N [S _]]].
  split; assumption.
Defined.

(** X7 on the log. *)
Lemma direction_counts_add_up_witness :
  well_formed t_log = true
  /\ fst (demo_preprocess t_log) = Some log1
  /\ view_of log1 log1
  /\ create_summary_stats log1 = Ok log_stats
  /\ create_direction_analysis log1 = Ok log_rows
  /\ (Qsum (List.map Completed_count log_rows)
      == completed_translations log_stats)%Q.
Proof.
  split; [reflexivity|]. split; [reflexivity|]. split; [apply view_all|].
  split; [reflexivity|]. split; [reflexivity|].
  apply (direction_counts_add_up demo_py_str demo_parse_numeric
           demo_to_datetime demo_to_datetime_length t_log log1 log1
           log_stats log_rows eq_refl eq_refl (view_all log1) eq_refl eq_refl).
Defined.

(** X8 on the log. *)
Lemma all_is_not_a_direction_witness :
  well_formed t_log = true
  /\ fst (demo_preprocess t_log) = Some log1
  /\ view_of log1 log1
  /\ lookup Translation_Direction (data log1) = Some [Str en_fr; Str en_fr]
  /\ ~ In (Str All) [Str en_fr; Str en_fr]
  /\ direction_options log1 = Ok [Str All; Str en_fr].
Proof.
  split; [reflexivity|]. split; [reflexivity|]. split; [apply view_all|].
  split; [reflexivity|].
  destruct (all_is_not_a_direction demo_py_str demo_parse_numeric
              demo_to_datetime demo_to_datetime_length t_log log1 log1
              [Str en_fr; Str en_fr] eq_refl eq_refl (view_all log1) eq_refl)
    as [H _].
  split; [exact H | reflexivity].
Defined.

(** X9 on the log: selecting its one direction keeps both rows. *)
Lemma selected_direction_only_witness :
  well_formed t_log = true
  /\ fst (demo_preprocess t_log) = Some log1
  /\ view_of log1 log1
  /\ lookup Translation_Direction (data log1) = Some [Str en_fr; Str en_fr]
  /\ In (Str en_fr) [Str en_fr; Str en_fr]
  /\ exists w r,
       direction_filter_by (Str en_fr) log1 = Ok w
       /\ create_direction_analysis w = Ok [r]
       /\ Direction r = Str en_fr /\ Total r = len w.
Proof.
  assert (I : In (Str en_fr) [Str en_fr; Str en_fr]) by (left; reflexivity).
  split; [reflexivity|]. split; [reflexivity|]. split; [apply view_all|].
  split; [reflexivity|]. split; [exact I|].
  destruct (selected_direction_only demo_py_str demo_parse_numeric
              demo_to_datetime demo_to_datetime_length t_log log1 log1
              [Str en_fr; Str en_fr] en_fr eq_refl eq_refl (view_all log1)
              eq_refl I)
    as [_ [w [r [E1 [_ [_ [_ [_ [E2 [E3 E4]]]]]]]]]].
  exists w, r. auto.
Defined.

(** X10 on the log: the day of its first run. *)
Lemma one_day_selection_witness :
  well_formed t_log = true
  /\ fst (demo_preprocess t_log) = Some log1
  /\ filter_active log1 = true
  /\ date_filter [1%Z] log1 = date_filter [1%Z; 1%Z] log1.
Proof.
  split; [reflexivity|]. split; [reflexivity|]. split; [reflexivity|].
  apply (one_day_selection demo_py_str demo_parse_numeric
           demo_to_datetime demo_to_datetime_length t_log log1 1%Z
           eq_refl eq_refl eq_refl).
Defined.

(** X11 on the log: its second run has no timestamp and is dropped. *)
Lemma default_range_drops_undated_rows_witness :
  well_formed t_log = true
  /\ fst (demo_preprocess t_log) = Some log1
  /\ filter_active log1 = true
  /\ exists ts,
       getitem log1 Timestamp = Ok ts
       /\ date_step (fun a b => [a; b]) log1
          = Ok (boolean_index log1 (List.map (fun c => negb (isna c)) ts)).
Proof.
  split; [reflexivity|]. split; [reflexivity|]. split; [reflexivity|].
  destruct (default_range_drops_undated_rows demo_py_str demo_parse_numeric
              demo_to_datetime demo_to_datetime_length t_log log1
              eq_refl eq_refl eq_refl) as [ts [a [b [E1 [_ [_ [E2 _]]]]]]].
  exists ts. split; assumption.
Defined.

(** X12 on the log. *)
Lemma both_filters_witness :
  well_formed t_log = true
  /\ fst (demo_preprocess t_log) = Some log1
  /\ filter_active log1 = true
  /\ en_fr <> All
  /\ exists ds dir v w,
       getitem log1 Date_ = Ok ds
       /\ getitem log1 Translation_Direction = Ok dir
       /\ date_filter [1%Z; 1%Z] log1 = Ok v
       /\ direction_filter_by (Str en_fr) v = Ok w
       /\ rows w
          = select (and_masks (List.map (in_range 1 1) ds)
                              (List.map (fun x => cell_eqb x (Str en_fr)) dir))
                   (rows log1).
Proof.
  assert (N : en_fr <> All) by discriminate.
  split; [reflexivity|]. split; [reflexivity|]. split; [reflexivity|].
  split; [exact N|].
  apply (both_filters demo_py_str demo_parse_numeric
           demo_to_datetime demo_to_datetime_length t_log log1 1%Z 1%Z en_fr
           eq_refl eq_refl eq_refl N).
Defined.

(** X13 on the log. *)
Lemma preprocess_keeps_the_table_witness :
  well_formed t_log = true
  /\ fst (demo_preprocess t_log) = Some log1
  /\ len log1 = len t_log
  /\ NoDup (columns log1).
Proof.
  split; [reflexivity|]. split; [reflexivity|].
  destruct (preprocess_keeps_the_table demo_py_str demo_parse_numeric
              demo_to_datetime demo_to_datetime_length t_log log1
              eq_refl eq_refl) as [L [_ [N _]]].
  split; assumption.
Defined.

(** X14 on the table whose one [To] is missing. *)
Lemma required_columns_have_no_gap_witness :
  well_formed t_min = true
  /\ fst (demo_preprocess t_min) = Some min1
  /\ exists col, getitem min1 To_ = Ok col /\ existsb isna col = false.
Proof.
  split; [reflexivity|]. split; [reflexivity|].
  destruct (required_columns_have_no_gap demo_py_str demo_parse_numeric
              demo_to_datetime demo_to_datetime_length t_min min1 To_
              eq_refl eq_refl (or_intror (or_introl eq_refl)))
    as [raw [col [_ [E [_ [G _]]]]]].
  exists col. split; assumption.
Defined.

(** X15 on the log. *)
Lemma hour_and_date_of_every_row_witness :
  well_formed t_log = true
  /\ fst (demo_preprocess t_log) = Some log1
  /\ lookup Timestamp (data log1) = Some [Time 86400000000000; NA]
  /\ exists hs ds, getitem log1 Hour = Ok hs /\ getitem log1 Date_ = Ok ds.
Proof.
  split; [reflexivity|]. split; [reflexivity|]. split; [reflexivity|].
  destruct (hour_and_date_of_every_row demo_py_str demo_parse_numeric
              demo_to_datetime demo_to_datetime_length t_log log1
              [Time 86400000000000; NA] eq_refl eq_refl eq_refl)
    as [hs [ds [E1 [E2 _]]]].
  exists hs, ds. split; assumption.
Defined.

(** X16 on the log. *)
Lemma raw_data_tab_witness :
  well_formed t_log = true
  /\ fst (demo_preprocess t_log) = Some log1
  /\ view_of log1 log1
  /\ exists raw,
       getitems log1 (display_columns log1) = Ok raw
       /\ In Status (columns raw).
Proof.
  split; [reflexivity|]. split; [reflexivity|]. split; [apply view_all|].
  destruct (raw_data_tab demo_py_str demo_parse_numeric demo_to_datetime
              t_log log1 log1 eq_refl eq_refl (view_all log1))
    as [raw [E [_ [_ [_ [_ [_ S]]]]]]].
  exists raw. split; assumption.
Defined.


(** X18 on the log. *)
Lemma filters_are_idempotent_witness :
  well_formed t_log = true
  /\ fst (demo_preprocess t_log) = Some log1
  /\ exists v, date_filter [1%Z; 1%Z] log1 = Ok v
               /\ date_filter [1%Z; 1%Z] v = Ok v.
Proof.
  split; [reflexivity|]. split; [reflexivity|].
  apply (filters_are_idempotent demo_py_str demo_parse_numeric
           demo_to_datetime demo_to_datetime_length t_log log1 1%Z 1%Z
           (Str en_fr) eq_refl eq_refl).
Defined.
